(** * ADN CLI: a shallow embedding of the core and its checked properties

    The development follows the Python sources of the tool:
    - [adn/utils/template_engine.py]  (byte-size filter),
    - [adn/utils/config.py]           (configuration store),
    - [adn/utils/file_handler.py]     (output naming, sanitizer),
    - [adn/commands/csv_to_md.py]     (CSV records to Markdown notes),
    - [adn/utils/validators.py]       (validators, second sanitizer),
    - [adn/commands/create.py]        (the batch loop of [create all]),
    - [adn/commands/config.py]        ([config set], [config get]).

    Python [str] values are lists of characters; a character stands for the
    code point of the same number (U+0000 to U+00FF).  Dictionary keys are
    kept as [string] so that [gmap] can be used for Python dicts.  Python
    exceptions are values of [exn]; a call that can raise returns a
    [result]. *)

From Stdlib Require Import ZArith String Ascii List Lia.
From stdpp Require Import gmap strings list.

Open Scope Z_scope.

Abbreviation str := (list ascii).

(** A Python literal. *)
Definition py (s : string) : str := list_ascii_of_string s.

(* ===================================================================== *)
(** * Part I: definitions                                                  *)
(* ===================================================================== *)

(** ** Python primitives used by the sources *)
Module Py.

Inductive exn : Set :=
| FileNotFoundError
| FileExistsError
| ValueError
| TypeError
| AttributeError
| OverflowError
| YAMLError
| OSError
| TemplateError.

Inductive result (A : Type) : Type :=
| Ok (a : A)
| Raise (e : exn).
Arguments Ok {A} a.
Arguments Raise {A} e.

Definition bind {A B} (r : result A) (k : A -> result B) : result B :=
  match r with
  | Ok a => k a
  | Raise e => Raise e
  end.

(** *** Decimal numerals *)

Definition digit (d : Z) : ascii := ascii_of_nat (48 + Z.to_nat d).

(** Digits of a non-negative integer, most significant first. *)
Fixpoint digits_fuel (fuel : nat) (n : Z) : str :=
  match fuel with
  | O => []
  | S f =>
      if n <? 10 then [digit n]
      else digits_fuel f (n / 10) ++ [digit (n mod 10)]
  end.

(** [str(n)] for [0 <= n]: an integer has no more decimal digits than
    binary ones. *)
Definition decimal (n : Z) : str :=
  digits_fuel (S (Z.to_nat (Z.log2 n))) n.

(** [format(n, "0<width>d")]: the zero flag pads after the sign. *)
Definition format_d_zero (width : nat) (n : Z) : str :=
  let sign := if n <? 0 then py "-" else [] in
  let ds := decimal (Z.abs n) in
  sign ++ repeat "0"%char (width - length sign - length ds) ++ ds.

(** Reading a decimal numeral back ([int(s)] on digits). *)
Definition digit_value (c : ascii) : Z := Z.of_nat (nat_of_ascii c) - 48.

Definition int_of_digits (s : str) : Z :=
  fold_left (fun acc c => 10 * acc + digit_value c) s 0.

Definition is_digit (c : ascii) : bool :=
  (48 <=? nat_of_ascii c)%nat && (nat_of_ascii c <=? 57)%nat.

(** *** Floats

    Every float the sources compute is an integer divided by a power of
    two, and stays in the range where IEEE double arithmetic is exact; it
    is kept as that fraction: [mant / 2 ^ shift]. *)
Record float : Set := mkFloat { mant : Z; shift : Z }.

(** Round [a / b] to the nearest integer, ties to even ([0 <= a], [0 < b]). *)
Definition round_half_even (a b : Z) : Z :=
  let q := a / b in
  let r := a mod b in
  if 2 * r <? b then q
  else if b <? 2 * r then q + 1
  else if Z.even q then q else q + 1.

(** [float(n)]: the nearest double, ties to even on the 53-bit
    significand; [OverflowError] when that is not finite. *)
Definition float_of_int (n : Z) : result float :=
  let a := Z.abs n in
  if a <? 2 ^ 53 then Ok (mkFloat n 0)
  else
    let e := Z.log2 a - 52 in
    let m := round_half_even a (2 ^ e) * 2 ^ e in
    if m <? 2 ^ 1024 then Ok (mkFloat (Z.sgn n * m) 0)
    else Raise OverflowError.

(** [x / 1024.0] for [1024.0 <= x]: exact. *)
Definition div_1024 (x : float) : float := mkFloat (mant x) (shift x + 10).

(** [x < 1024.0]. *)
Definition lt_1024 (x : float) : bool := mant x <? 1024 * 2 ^ shift x.

(** [format(x, ".1f")]: the exact value correctly rounded to one decimal,
    ties to even. *)
Definition format_1f (x : float) : str :=
  let t := round_half_even (10 * Z.abs (mant x)) (2 ^ shift x) in
  (if mant x <? 0 then py "-" else [])
    ++ decimal (t / 10) ++ py "." ++ [digit (t mod 10)].

(** *** str methods *)

(** [str.isspace] on one character, for the code points below 256. *)
Definition isspace (c : ascii) : bool :=
  let n := nat_of_ascii c in
  ((9 <=? n) && (n <=? 13) || (28 <=? n) && (n <=? 32)
   || (n =? 133) || (n =? 160))%nat.

(** [s.replace(old, new)] for single characters. *)
Definition replace_char (old new : ascii) (s : str) : str :=
  map (fun c => if Ascii.eqb c old then new else c) s.

(** [s.lstrip()], [s.rstrip()], [s.strip()]. *)
Fixpoint lstrip (s : str) : str :=
  match s with
  | c :: s' => if isspace c then lstrip s' else s
  | [] => []
  end.

Definition rstrip (s : str) : str := rev (lstrip (rev s)).

Definition strip (s : str) : str := rstrip (lstrip s).

(** [s.split(sep)] for a one-character separator: never an empty list. *)
Fixpoint split_on (sep : ascii) (s : str) : list str :=
  match s with
  | [] => [[]]
  | c :: s' =>
      if Ascii.eqb c sep then [] :: split_on sep s'
      else match split_on sep s' with
           | w :: ws => (c :: w) :: ws
           | [] => [[c]]
           end
  end.

(** [s.split()]: the maximal runs of non-whitespace characters.
    [cur] is the run being read, reversed. *)
Fixpoint split_ws_aux (cur : str) (s : str) : list str :=
  match s with
  | [] => match cur with [] => [] | _ => [rev cur] end
  | c :: s' =>
      if isspace c then
        match cur with
        | [] => split_ws_aux [] s'
        | _ => rev cur :: split_ws_aux [] s'
        end
      else split_ws_aux (c :: cur) s'
  end.

Definition split_ws (s : str) : list str := split_ws_aux [] s.

(** [sep.join(parts)]. *)
Fixpoint join (sep : str) (parts : list str) : str :=
  match parts with
  | [] => []
  | [p] => p
  | p :: ps => p ++ sep ++ join sep ps
  end.

(** [s[:k]] for any integer [k]: a negative bound counts from the end. *)
Definition slice_to (k : Z) (s : str) : str :=
  if k <? 0 then take (Z.to_nat (Z.of_nat (length s) + k)) s
  else take (Z.to_nat k) s.

(** [s.rfind(c)]: the last index of [c], or -1. *)
Fixpoint rfind_aux (c : ascii) (s : str) (i : Z) (last : Z) : Z :=
  match s with
  | [] => last
  | d :: s' => rfind_aux c s' (i + 1) (if Ascii.eqb d c then i else last)
  end.

Definition rfind (c : ascii) (s : str) : Z := rfind_aux c s 0 (-1).

End Py.
Export Py.

(** ** adn/utils/template_engine.py *)
Module TemplateEngine.

(** A Python [float]: a fraction [m / 2 ^ e] (every finite double other
    than -0.0 is one), or one of the four values that are no fraction. *)
Inductive pyfloat : Set :=
| Finite (m : Z) (e : nat)
| NegZero
| Infinity (negative : bool)
| NaN.

(** The values the filter is applied to: what [isinstance(size_bytes,
    (int, float))] accepts ([bool] is a subclass of [int]), text and
    [None]. *)
Inductive value : Type :=
| VInt (n : Z)
| VBool (b : bool)
| VFloat (x : pyfloat)
| VText (s : str)
| VNone.

(** [size_bytes] while the loop runs: the [int] or the [float] it was
    given, or the float a division made of it. *)
Inductive number : Set :=
| NInt (n : Z)
| NFloat (x : float)
| NNegZero
| NInfinity (negative : bool)
| NNaN.

Definition number_of (x : pyfloat) : number :=
  match x with
  | Finite m e => NFloat (mkFloat m (Z.of_nat e))
  | NegZero => NNegZero
  | Infinity negative => NInfinity negative
  | NaN => NNaN
  end.

(** [size_bytes < 1024.0]; an [int] is compared exactly, and no
    comparison with NaN holds. *)
Definition num_lt_1024 (v : number) : bool :=
  match v with
  | NInt n => n <? 1024
  | NFloat x => lt_1024 x
  | NNegZero => true
  | NInfinity negative => negative
  | NNaN => false
  end.

(** [f"{size_bytes:.1f}"]; an [int] is converted by [format]. *)
Definition num_format_1f (v : number) : result str :=
  match v with
  | NInt n => bind (float_of_int n) (fun x => Ok (format_1f x))
  | NFloat x => Ok (format_1f x)
  | NNegZero => Ok (py "-0.0")
  | NInfinity negative => Ok (if negative then py "-inf" else py "inf")
  | NNaN => Ok (py "nan")
  end.

(** [size_bytes /= 1024.0]; an [int] is converted by the division. *)
Definition num_div_1024 (v : number) : result number :=
  match v with
  | NInt n => bind (float_of_int n) (fun x => Ok (NFloat (div_1024 x)))
  | NFloat x => Ok (NFloat (div_1024 x))
  | NNegZero => Ok NNegZero
  | NInfinity negative => Ok (NInfinity negative)
  | NNaN => Ok NNaN
  end.

Definition units : list str := [py "B"; py "KB"; py "MB"; py "GB"].

(** [for unit in [...]: ...] followed by the final [return]. *)
Fixpoint filesize_loop (us : list str) (size : number) : result str :=
  match us with
  | [] => bind (num_format_1f size) (fun s => Ok (s ++ py " TB"))
  | u :: us' =>
      if num_lt_1024 size then
        bind (num_format_1f size) (fun s => Ok (s ++ py " " ++ u))
      else
        bind (num_div_1024 size) (fun size' => filesize_loop us' size')
  end.

(** [_filesize_filter(size_bytes)]; [str(size_bytes)] is the text itself
    and "None". *)
Definition _filesize_filter (size_bytes : value) : result str :=
  match size_bytes with
  | VInt n => filesize_loop units (NInt n)
  | VBool b => filesize_loop units (NInt (if b then 1 else 0))
  | VFloat x => filesize_loop units (number_of x)
  | VText s => Ok s
  | VNone => Ok (py "None")
  end.

End TemplateEngine.

(** ** adn/utils/config.py *)
Module Config.

(** A configuration value: the scalars the YAML document holds. *)
Inductive value : Set :=
| VStr (s : str)
| VBool (b : bool)
| VInt (n : Z)
| VNone.

Abbreviation config := (gmap string value).

(** How [dict.update] refuses a value that is no mapping: with a
    [TypeError] (a number, [true], a list of numbers) or with a
    [ValueError] (a text, a list of texts). *)
Inductive refusal : Set :=
| UpdateTypeError
| UpdateValueError.

Definition exn_of_refusal (r : refusal) : exn :=
  match r with
  | UpdateTypeError => TypeError
  | UpdateValueError => ValueError
  end.

(** What [yaml.safe_load] makes of the bytes of a file opened with
    [encoding='utf-8']; a file is kept as this reading of its bytes.  The
    text does not parse; or it gives a falsy value (nothing, an empty
    mapping, list or text, 0, [false]), which [or {}] replaces by an empty
    mapping; or a mapping (or a list of pairs, which [dict.update] takes
    for one); or another value, which [dict.update] refuses; or the bytes
    are no UTF-8 text, and reading them raises [UnicodeDecodeError], a
    [ValueError] and no [yaml.YAMLError]. *)
Inductive document : Type :=
| Malformed (raw : str)
| EmptyDocument
| Mapping (m : config)
| NotMapping (r : refusal)
| Undecodable.

(** *** What [yaml.safe_load] reads from what [yaml.dump] wrote

    Booleans, integers and [None] read back as they were, and so does a
    text written in plain or double-quoted style.  A text with a line
    break is written in single quotes, unless it holds a character that
    must be escaped or a space next to a line break.  Between single
    quotes a line break is written as it is, with one more line feed when
    a run of breaks starts with a line feed; reading drops the first break
    of a run (a space if it was the only one) and turns the others into
    line feeds.  So U+0085 is lost. *)

Definition LF : ascii := ascii_of_nat 10.
Definition NEL : ascii := ascii_of_nat 133.

Definition is_break (c : ascii) : bool := Ascii.eqb c LF || Ascii.eqb c NEL.

(** The characters the emitter escapes (with [allow_unicode=True]). *)
Definition is_special (c : ascii) : bool :=
  let n := nat_of_ascii c in
  negb ((n =? 10) || (32 <=? n) && (n <=? 126) || (n =? 133) || (160 <=? n))%nat.

Fixpoint space_by_break (s : str) : bool :=
  match s with
  | a :: (b :: _) as t =>
      Ascii.eqb a " " && is_break b || is_break a && Ascii.eqb b " "
      || space_by_break t
  | _ => false
  end.

Definition single_quoted_multiline (s : str) : bool :=
  existsb is_break s && negb (existsb is_special s) && negb (space_by_break s).

(** Writing and folding the runs of breaks; [in_run] tells that the
    character before was a break. *)
Fixpoint fold_breaks (in_run : bool) (s : str) : str :=
  match s with
  | [] => []
  | c :: t =>
      if is_break c then
        (if in_run then [LF]
         else if Ascii.eqb c LF then [LF]
         else match t with
              | d :: _ => if is_break d then [] else [" "%char]
              | [] => [" "%char]
              end)
          ++ fold_breaks true t
      else c :: fold_breaks false t
  end.

Definition yaml_str (s : str) : str :=
  if single_quoted_multiline s then fold_breaks false s else s.

Definition yaml_value (v : value) : value :=
  match v with
  | VStr s => VStr (yaml_str s)
  | _ => v
  end.

(** A key that is empty, has a line break or is 128 characters long or
    more is written as a complex key, in the style of a value. *)
Definition yaml_key (k : string) : string :=
  string_of_list_ascii (yaml_str (list_ascii_of_string k)).

(** [sort_keys=True]: the items by key, in code point order. *)
Fixpoint insert_item (x : string * value) (l : list (string * value))
  : list (string * value) :=
  match l with
  | [] => [x]
  | y :: l' =>
      if String.leb (fst x) (fst y) then x :: l else y :: insert_item x l'
  end.

Definition sorted_items (m : config) : list (string * value) :=
  foldr insert_item [] (map_to_list m).

(** The mapping read back: of two items whose keys have become equal,
    the one written later stays. *)
Definition yaml_mapping (m : config) : config :=
  fold_left (fun acc kv => <[yaml_key (fst kv) := yaml_value (snd kv)]> acc)
    (sorted_items m) ∅.

(** *** The manager *)

(** The files by path, the cache, the templates directory chosen at
    construction, and the directories the manager has made sure of.  The
    paths the manager opens as files hold no directory. *)
Record store : Type := mkStore {
  files : gmap str document;
  _config_cache : option config;
  templates_dir : str;
  dirs : gset str
}.

Definition config_dir : str := py "~/.adn".
Definition config_file : str := config_dir ++ py "/config.yaml".
Definition logs_dir : str := config_dir ++ py "/logs".
Definition user_templates : str := config_dir ++ py "/templates".
(** [Path(__file__).parent.parent / "templates"]. *)
Definition project_templates : str := py "<adn>/templates".

Definition _default_config : config :=
  list_to_map
    [ ("default_template"%string, VStr (py "default"));
      ("output_suffix"%string, VStr (py "_extraccion"));
      ("default_output_dir"%string, VStr (py "."));
      ("log_level"%string, VStr (py "INFO"));
      ("auto_open_generated"%string, VBool false);
      ("preserve_structure"%string, VBool true);
      ("date_format"%string, VStr (py "%d/%m/%Y %H:%M"));
      ("encoding"%string, VStr (py "utf-8"));
      ("max_filename_length"%string, VInt 100) ].

(** A fresh [ConfigManager()] over the files found on disk;
    [project_templates_exists] is what [project_templates.exists()]
    answers at that moment. *)
Definition new_manager (project_templates_exists : bool)
    (fs : gmap str document) : store :=
  mkStore fs None
    (if project_templates_exists then project_templates else user_templates)
    ∅.

(** [d.get(key, default)]. *)
Definition dict_get (d : config) (key : string) (default : value) : value :=
  match d !! key with
  | Some v => v
  | None => default
  end.

(** [full = base.copy(); full.update(over)]: [over] wins. *)
Definition dict_update (base over : config) : config := over ∪ base.

(** The directories above a path: "~/.adn/logs" has "~" and "~/.adn". *)
Fixpoint parents_aux (seen : str) (s : str) : list str :=
  match s with
  | [] => []
  | c :: t =>
      (if Ascii.eqb c "/" then match seen with [] => [] | _ => [rev seen] end
       else [])
        ++ parents_aux (c :: seen) t
  end.

Definition parents (p : str) : list str := parents_aux [] p.

(** [p.mkdir(parents=True, exist_ok=True)], and [p.mkdir(exist_ok=True)]
    under a directory that exists: a file in the place of a directory
    above raises [NotADirectoryError], a file at [p] itself
    [FileExistsError]; nothing is made then. *)
Definition mkdir (st : store) (p : str) : result unit * store :=
  if existsb (fun a => bool_decide (is_Some (files st !! a))) (parents p)
  then (Raise OSError, st)
  else
    match files st !! p with
    | Some _ => (Raise FileExistsError, st)
    | None =>
        (Ok tt,
         mkStore (files st) (_config_cache st) (templates_dir st)
           (dirs st ∪ list_to_set (parents p) ∪ {[p]}))
    end.

Definition _write_config (st : store) (cfg : config) : result unit * store :=
  match mkdir st config_dir with
  | (Raise e, st1) => (Raise e, st1)
  | (Ok _, st1) =>
      (Ok tt,
       mkStore (<[config_file := Mapping (yaml_mapping cfg)]> (files st1))
         (_config_cache st1) (templates_dir st1) (dirs st1))
  end.

Definition invalidate (st : store) : store :=
  mkStore (files st) None (templates_dir st) (dirs st).

(** [self._write_config(config)] followed by [self._config_cache = None]. *)
Definition write_and_invalidate (st : store) (cfg : config)
  : result unit * store :=
  match _write_config st cfg with
  | (Raise e, st1) => (Raise e, st1)
  | (Ok _, st1) => (Ok tt, invalidate st1)
  end.

Definition init_config (st : store) (force : bool) : result str * store :=
  if bool_decide (is_Some (files st !! config_file)) && negb force
  then (Raise FileExistsError, st)
  else
    match mkdir st config_dir with
    | (Raise e, st1) => (Raise e, st1)
    | (Ok _, st1) =>
        match mkdir st1 (templates_dir st1) with
        | (Raise e, st2) => (Raise e, st2)
        | (Ok _, st2) =>
            match mkdir st2 logs_dir with
            | (Raise e, st3) => (Raise e, st3)
            | (Ok _, st3) =>
                match write_and_invalidate st3 _default_config with
                | (Raise e, st4) => (Raise e, st4)
                | (Ok _, st4) => (Ok config_file, st4)
                end
            end
        end
    end.

Definition get_config (st : store) : result config * store :=
  match _config_cache st with
  | Some c => (Ok c, st)
  | None =>
      match files st !! config_file with
      | None => (Raise FileNotFoundError, st)
      | Some (Malformed _) => (Raise YAMLError, st)
      | Some Undecodable => (Raise ValueError, st)
      | Some (NotMapping r) => (Raise (exn_of_refusal r), st)
      | Some EmptyDocument =>
          let full_config := dict_update _default_config ∅ in
          (Ok full_config,
           mkStore (files st) (Some full_config) (templates_dir st) (dirs st))
      | Some (Mapping m) =>
          let full_config := dict_update _default_config m in
          (Ok full_config,
           mkStore (files st) (Some full_config) (templates_dir st) (dirs st))
      end
  end.

Definition set_config (st : store) (key : string) (v : value)
  : result unit * store :=
  match get_config st with
  | (Ok cfg, st1) => write_and_invalidate st1 (<[key := v]> cfg)
  | (Raise FileNotFoundError, st1) =>
      write_and_invalidate st1 (<[key := v]> _default_config)
  | (Raise e, st1) => (Raise e, st1)
  end.

Definition get_config_value (st : store) (key : string) (default : value)
  : result value * store :=
  match get_config st with
  | (Ok cfg, st1) => (Ok (dict_get cfg key default), st1)
  | (Raise FileNotFoundError, st1) =>
      (Ok (dict_get _default_config key default), st1)
  | (Raise e, st1) => (Raise e, st1)
  end.

Definition reset_config (st : store) : result unit * store :=
  write_and_invalidate st _default_config.

(** [now] is the clock reading, already formatted [%Y%m%d_%H%M%S]. *)
Definition backup_config (st : store) (now : str) : result str * store :=
  match files st !! config_file with
  | None => (Raise FileNotFoundError, st)
  | Some doc =>
      let backup_file := config_dir ++ py "/config_backup_" ++ now ++ py ".yaml" in
      (Ok backup_file,
       mkStore (<[backup_file := doc]> (files st)) (_config_cache st)
         (templates_dir st) (dirs st))
  end.

Definition restore_config (st : store) (backup_file : str) (now : str)
  : result unit * store :=
  match files st !! backup_file with
  | None => (Raise FileNotFoundError, st)
  | Some (Malformed _) => (Raise ValueError, st)
  | Some Undecodable => (Raise ValueError, st)
  | Some _ =>
      let st1 :=
        match files st !! config_file with
        | Some _ => snd (backup_config st now)
        | None => st
        end in
      match files st1 !! backup_file with
      | Some doc =>
          (Ok tt,
           invalidate
             (mkStore (<[config_file := doc]> (files st1)) (_config_cache st1)
                (templates_dir st1) (dirs st1)))
      | None => (Raise FileNotFoundError, st1)
      end
  end.

End Config.

(** ** adn/utils/file_handler.py *)
Module FileHandler.
Import Config.

(** A [pathlib.Path], kept as its directory and its final component:
    [.parent], [.name], and [directory / name]. *)
Record path : Set := mkPath { parent : str; name : str }.

#[export] Instance path_eq_dec : EqDecision path.
Proof. solve_decision. Defined.

#[export] Instance path_countable : Countable path.
Proof.
  refine (inj_countable' (fun p => (parent p, name p))
            (fun '(d, n) => mkPath d n) _).
  intros []. reflexivity.
Defined.

(** [Path.stem]: the name without its last suffix; a dot that starts or
    ends the name does not start a suffix. *)
Definition stem (p : path) : str :=
  let i := rfind "." (name p) in
  if (0 <? i) && (i <? Z.of_nat (length (name p)) - 1)
  then take (Z.to_nat i) (name p)
  else name p.

(** [os.path.splitext]: split at the last dot that comes after the last
    separator and after a character of the name that is not a dot. *)
Definition splitext (p : str) : str * str :=
  let sepIndex := rfind "/" p in
  let dotIndex := rfind "." p in
  if (sepIndex <? dotIndex)
     && existsb (fun c => negb (Ascii.eqb c "."))
          (drop (Z.to_nat (sepIndex + 1)) (take (Z.to_nat dotIndex) p))
  then (take (Z.to_nat dotIndex) p, drop (Z.to_nat dotIndex) p)
  else (p, []).

Definition invalid_chars : str :=
  py "<>:" ++ [ascii_of_nat 34] ++ py "/\|?*".

(** [clean_filename], first block: each problematic character becomes
    an underscore. *)
Definition replace_invalid (filename : str) : str :=
  fold_left (fun cleaned char => replace_char char "_" cleaned)
    invalid_chars filename.

(** Second block: runs of whitespace become one underscore, those at the
    ends go. *)
Definition collapse_whitespace (cleaned : str) : str :=
  replace_char " " "_" (join (py " ") (split_ws cleaned)).

(** Third block, once [max_length] is an integer. *)
Definition limit_length (max_length : Z) (cleaned : str) : str :=
  if max_length <? Z.of_nat (length cleaned) then
    let '(name, ext) := splitext cleaned in
    slice_to (max_length - Z.of_nat (length ext)) name ++ ext
  else cleaned.

Definition clean_with (max_length : Z) (filename : str) : str :=
  limit_length max_length (collapse_whitespace (replace_invalid filename)).

(** The integer a configuration value is in [len(cleaned) > max_length]
    and in the slice bound; [bool] is an [int], the others raise. *)
Definition as_int (v : value) : result Z :=
  match v with
  | VInt n => Ok n
  | VBool b => Ok (if b then 1 else 0)
  | VStr _ => Raise TypeError
  | VNone => Raise TypeError
  end.

Definition clean_filename (st : store) (filename : str) : result str * store :=
  match get_config_value st "max_filename_length" (VInt 100) with
  | (Ok v, st1) => (bind (as_int v) (fun n => Ok (clean_with n filename)), st1)
  | (Raise e, st1) => (Raise e, st1)
  end.

(** [f"{v}"]. *)
Definition format_value (v : value) : str :=
  match v with
  | VStr s => s
  | VBool b => if b then py "True" else py "False"
  | VInt n => (if n <? 0 then py "-" else []) ++ decimal (Z.abs n)
  | VNone => py "None"
  end.

Definition _generate_output_filename (st : store) (pdf_file : path)
    (output_dir : str) : result path * store :=
  match get_config_value st "output_suffix" (VStr (py "_extraccion")) with
  | (Ok suffix, st1) =>
      let base_name := stem pdf_file in
      match clean_filename st1 base_name with
      | (Ok clean_base, st2) =>
          let output_name := clean_base ++ format_value suffix ++ py ".md" in
          (Ok (mkPath output_dir output_name), st2)
      | (Raise e, st2) => (Raise e, st2)
      end
  | (Raise e, st1) => (Raise e, st1)
  end.

(** The handler's own configuration manager and the files it works on
    (path to content). *)
Record world : Type := mkWorld {
  config_manager : store;
  disk : gmap path str
}.

Definition exists_ (w : world) (p : path) : bool := bool_decide (is_Some (disk w !! p)).

Definition is_processed (w : world) (pdf_file : path) : result bool * world :=
  match _generate_output_filename (config_manager w) pdf_file (parent pdf_file) with
  | (Ok expected_output, st1) =>
      (Ok (exists_ w expected_output), mkWorld st1 (disk w))
  | (Raise e, st1) => (Raise e, mkWorld st1 (disk w))
  end.

(** Removing a file, as a user or another program does. *)
Definition unlink (w : world) (p : path) : world :=
  mkWorld (config_manager w) (delete p (disk w)).

Section Generate.
(** [TemplateEngine.render_template(template_name, pdf_file)]: Jinja2
    over the templates directory. *)
Variable render_template : value -> path -> result str.

(** [pathlib] on directories: [d.is_absolute()] and [base / d]. *)
Variable is_absolute : str -> bool.
Variable joinpath : str -> str -> str.

(** The output directory: the one given, or [default_output_dir] taken
    relative to the directory of the PDF; [Path(v)] wants a string. *)
Definition resolve_output_dir (st : store) (pdf_file : path)
    (output_dir : option str) : result str * store :=
  match output_dir with
  | Some d => (Ok d, st)
  | None =>
      match get_config_value st "default_output_dir" (VStr (py ".")) with
      | (Ok (VStr d), st1) =>
          (Ok (if is_absolute d then d else joinpath (parent pdf_file) d), st1)
      | (Ok _, st1) => (Raise TypeError, st1)
      | (Raise e, st1) => (Raise e, st1)
      end
  end.

Definition generate_extraction_file (w : world) (pdf_file : path)
    (output_dir : option str) (template_name : option value) (force : bool)
  : result path * world :=
  if negb (exists_ w pdf_file) then (Raise FileNotFoundError, w)
  else
    match resolve_output_dir (config_manager w) pdf_file output_dir with
    | (Raise e, st0) => (Raise e, mkWorld st0 (disk w))
    | (Ok dir, st0) =>
        match _generate_output_filename st0 pdf_file dir with
        | (Raise e, st1) => (Raise e, mkWorld st1 (disk w))
        | (Ok output_file, st1) =>
            if exists_ w output_file && negb force
            then (Raise FileExistsError, mkWorld st1 (disk w))
            else
              let '(tn, st2) :=
                match template_name with
                | Some t => (Ok t, st1)
                | None =>
                    get_config_value st1 "default_template" (VStr (py "default"))
                end in
              match bind tn (fun t => render_template t pdf_file) with
              | Ok content =>
                  (Ok output_file,
                   mkWorld st2 (<[output_file := content]> (disk w)))
              | Raise e => (Raise e, mkWorld st2 (disk w))
              end
        end
    end.
End Generate.

End FileHandler.

(** ** adn/commands/csv_to_md.py *)
Module CsvToMd.

(** A row as [csv.DictReader] yields it: a dict from column name to
    field; a row shorter than the header has [None] for the columns it
    lacks. *)
Abbreviation record := (gmap string (option str)).

Inductive encoding : Set := Utf8Sig | Utf8 | Latin1 | Cp1252.

(** Reading under one encoding: what was read, or the exception. *)
Inductive reading (A : Type) : Type :=
| Read (a : A)
| UnicodeDecodeError
| OtherError.
Arguments Read {A} a.
Arguments UnicodeDecodeError {A}.
Arguments OtherError {A}.

(** A CSV file on disk: whether the path exists and is a file, and under
    each encoding what [reader.fieldnames or []] and [list(reader)] give. *)
Record csv_file : Type := mkCsv {
  exists_ : bool;
  is_file : bool;
  fieldnames : encoding -> reading (list string);
  rows : encoding -> reading (list record)
}.

(** [open(csv_file, ...)] fails on a path that is not a readable file. *)
Definition opened {A} (f : csv_file) (r : reading A) : reading A :=
  if exists_ f && is_file f then r else OtherError.

Definition REQUIRED_COLUMNS : gset string :=
  {[ "source"%string; "doi"%string; "title"%string; "abstract"%string ]}.

(** The body of both [with open(...)] blocks of [validate_csv]. *)
Definition check_columns (names : list string) : result (list string) :=
  let columns : gset string := list_to_set names in
  let missing_columns := REQUIRED_COLUMNS ∖ columns in
  if decide (missing_columns = ∅) then Ok (elements columns)
  else Raise ValueError.

(** The [for encoding in ['utf-8', 'latin-1', 'cp1252']] of the handler:
    another exception than a decoding error leaves the loop as it is. *)
Fixpoint validate_fallback (f : csv_file) (encs : list encoding)
  : result (list string) :=
  match encs with
  | [] => Raise ValueError
  | enc :: encs' =>
      match opened f (fieldnames f enc) with
      | Read names => check_columns names
      | UnicodeDecodeError => validate_fallback f encs'
      | OtherError => Raise OSError
      end
  end.

Definition validate_csv (f : csv_file) : result (list string) :=
  if negb (exists_ f) then Raise FileNotFoundError
  else if negb (is_file f) then Raise ValueError
  else
    match opened f (fieldnames f Utf8Sig) with
    | Read names => check_columns names
    | UnicodeDecodeError => validate_fallback f [Utf8; Latin1; Cp1252]
    | OtherError => Raise ValueError
    end.

(** The [for encoding in encodings] of [read_csv_data]; [data] starts
    empty and is set by the first encoding that reads the file. *)
Fixpoint read_loop (f : csv_file) (encs : list encoding) : list record :=
  match encs with
  | [] => []
  | enc :: encs' =>
      match opened f (rows f enc) with
      | Read data => data
      | UnicodeDecodeError => read_loop f encs'
      | OtherError => read_loop f encs'
      end
  end.

Definition read_csv_data (f : csv_file) : result (list record) :=
  let data := read_loop f [Utf8Sig; Utf8; Latin1; Cp1252] in
  match data with
  | [] => Raise ValueError
  | _ => Ok data
  end.

(** [record.get(key, '').strip()]. *)
Definition get_stripped (r : record) (key : string) : result str :=
  match r !! key with
  | None => Ok (strip [])
  | Some (Some s) => Ok (strip s)
  | Some None => Raise AttributeError
  end.

Definition newline : ascii := ascii_of_nat 10.

(** The [abstract_formatted] of [create_markdown_content]. *)
Definition format_abstract (abstract : str) : str :=
  match abstract with
  | [] => py "  "
  | _ =>
      let abstract_lines := split_on newline abstract in
      join [newline]
        (map (fun line =>
                match strip line with
                | [] => py "  "
                | _ => py "  " ++ strip line
                end) abstract_lines)
  end.

(** The hardcoded format used when the template cannot be rendered. *)
Definition fallback_content (source doi title abstract_formatted : str) : str :=
  py "---" ++ [newline]
  ++ py "source: " ++ source ++ [newline]
  ++ py "doi: " ++ doi ++ [newline]
  ++ py "title: " ++ [ascii_of_nat 34] ++ title ++ [ascii_of_nat 34] ++ [newline]
  ++ py "abstract: |" ++ [newline]
  ++ abstract_formatted ++ [newline]
  ++ py "estado:" ++ [newline]
  ++ py "  - procesado" ++ [newline]
  ++ py "tags:" ++ [newline]
  ++ py "  - documento" ++ [newline]
  ++ py "  - investigacion" ++ [newline]
  ++ py "---".

(** An entry of the output directory. *)
Inductive node : Type :=
| File (content : str)
| Directory.

(** [output_file.write_text(content)]: fails on a directory. *)
Definition write_text (out : gmap str node) (filename content : str)
  : result unit * gmap str node :=
  match out !! filename with
  | Some Directory => (Raise OSError, out)
  | _ => (Ok tt, <[filename := File content]> out)
  end.

(** [f"{file_number:03d}.md"] for row [i] of the enumeration. *)
Definition row_filename (start_number : Z) (i : nat) : str :=
  let file_number := start_number + Z.of_nat i in
  format_d_zero 3 file_number ++ py ".md".

Section Processor.
(** [template_engine.render_template("csv_record", source=..., doi=...,
    title=..., abstract_formatted=...)]: Jinja2 over the templates
    directory. *)
Variable render_template : str -> str -> str -> str -> result str.

Definition create_markdown_content (r : record) : result str :=
  bind (get_stripped r "source") (fun source =>
  bind (get_stripped r "doi") (fun doi =>
  bind (get_stripped r "title") (fun title =>
  bind (get_stripped r "abstract") (fun abstract =>
    let abstract_formatted := format_abstract abstract in
    match render_template source doi title abstract_formatted with
    | Ok content => Ok content
    | Raise _ => Ok (fallback_content source doi title abstract_formatted)
    end)))).

(** The body of the [try] for one row: [Ok] when the file was written. *)
Definition process_row (out : gmap str node) (start_number : Z) (i : nat)
    (r : record) : result unit * gmap str node :=
  let filename := row_filename start_number i in
  match create_markdown_content r with
  | Ok content => write_text out filename content
  | Raise e => (Raise e, out)
  end.

(** [for i, record in enumerate(data)], from index [i] on. *)
Fixpoint process_rows (out : gmap str node) (start_number : Z) (i : nat)
    (data : list record) (files_created : Z) : Z * gmap str node :=
  match data with
  | [] => (files_created, out)
  | r :: data' =>
      match process_row out start_number i r with
      | (Ok _, out') =>
          process_rows out' start_number (S i) data' (files_created + 1)
      | (Raise _, out') =>
          process_rows out' start_number (S i) data' files_created
      end
  end.

Definition process_csv (out : gmap str node) (f : csv_file)
    (start_number : Z) : result Z * gmap str node :=
  match validate_csv f with
  | Raise e => (Raise e, out)
  | Ok _ =>
      match read_csv_data f with
      | Raise e => (Raise e, out)
      | Ok data =>
          match data with
          | [] => (Ok 0, out)
          | _ =>
              let '(files_created, out') :=
                process_rows out start_number 0 data 0 in
              (Ok files_created, out')
          end
      end
  end.
End Processor.

End CsvToMd.

(** ** str and path helpers used below *)
Module PyMore.
Import FileHandler.

(** [str.lower] on one character, for the code points below 256. *)
Definition lower_char (c : ascii) : ascii :=
  let n := nat_of_ascii c in
  if ((65 <=? n) && (n <=? 90)
      || (192 <=? n) && (n <=? 222) && negb (n =? 215))%nat
  then ascii_of_nat (n + 32)
  else c.

Definition lower (s : str) : str := map lower_char s.

(** [s.startswith(prefix)], [s.endswith(suffix)]. *)
Definition startswith (prefix s : str) : bool :=
  bool_decide (take (length prefix) s = prefix).

Definition endswith (suffix s : str) : bool :=
  bool_decide (drop (length s - length suffix) s = suffix)
  && (length suffix <=? length s)%nat.

(** [char in s]. *)
Definition contains (char : ascii) (s : str) : bool :=
  existsb (Ascii.eqb char) s.

(** [s.lstrip(c)], [s.rstrip(c)], [s.strip(c)] for one character. *)
Fixpoint lstrip_char (c : ascii) (s : str) : str :=
  match s with
  | d :: s' => if Ascii.eqb d c then lstrip_char c s' else s
  | [] => []
  end.

Definition strip_char (c : ascii) (s : str) : str :=
  rev (lstrip_char c (rev (lstrip_char c s))).

(** [Path.suffix]: the last suffix of the name, if any. *)
Definition suffix (p : path) : str :=
  let i := rfind "." (name p) in
  if (0 <? i) && (i <? Z.of_nat (length (name p)) - 1)
  then drop (Z.to_nat i) (name p)
  else [].

(** [Path.with_suffix(suffix)], for a suffix that is valid. *)
Definition with_suffix (p : path) (new_suffix : str) : result path :=
  match name p with
  | [] => Raise ValueError
  | _ =>
      match suffix p with
      | [] => Ok (mkPath (parent p) (name p ++ new_suffix))
      | old_suffix =>
          Ok (mkPath (parent p)
                (slice_to (- Z.of_nat (length old_suffix)) (name p) ++ new_suffix))
      end
  end.

End PyMore.

(** ** adn/utils/file_handler.py: sizes, PDF check, backups *)
Module FileHandlerFiles.
Import FileHandler TemplateEngine PyMore.

(** What a path leads to: a regular file with its bytes, which may be
    unreadable, or a directory with the size [stat] reports. *)
Inductive entry : Type :=
| Regular (content : str) (readable : bool)
| Folder (st_size : Z).

Abbreviation fs := (gmap path entry).

Definition exists_ (d : fs) (p : path) : bool := bool_decide (is_Some (d !! p)).

Definition is_file (d : fs) (p : path) : bool :=
  match d !! p with
  | Some (Regular _ _) => true
  | _ => false
  end.

(** [p.stat().st_size]. *)
Definition st_size (d : fs) (p : path) : result Z :=
  match d !! p with
  | Some (Regular content _) => Ok (Z.of_nat (length content))
  | Some (Folder n) => Ok n
  | None => Raise FileNotFoundError
  end.

(** [p.read_bytes()]. *)
Definition read_bytes (d : fs) (p : path) : result str :=
  match d !! p with
  | Some (Regular content true) => Ok content
  | Some (Regular _ false) => Raise OSError
  | Some (Folder _) => Raise OSError
  | None => Raise FileNotFoundError
  end.

(** [open(p, 'rb').read(n)]. *)
Definition read_head (d : fs) (p : path) (n : nat) : result str :=
  bind (read_bytes d p) (fun content => Ok (take n content)).

(** [p.write_bytes(content)] on a path that leads nowhere yet. *)
Definition write_new (d : fs) (p : path) (content : str) : fs :=
  <[p := Regular content true]> d.

Definition size_units : list str :=
  [py "B"; py "KB"; py "MB"; py "GB"; py "TB"].

(** The loop of [get_file_size] and its final [return]. *)
Fixpoint get_file_size_loop (us : list str) (size : number) : result str :=
  match us with
  | [] => bind (num_format_1f size) (fun s => Ok (s ++ py " PB"))
  | u :: us' =>
      if num_lt_1024 size then
        bind (num_format_1f size) (fun s => Ok (s ++ py " " ++ u))
      else
        bind (num_div_1024 size) (fun size' => get_file_size_loop us' size')
  end.

Definition get_file_size (d : fs) (file_path : path) : result str :=
  if negb (exists_ d file_path) then Ok (py "0 B")
  else
    bind (st_size d file_path) (fun size_bytes =>
      get_file_size_loop size_units (NInt size_bytes)).

Definition validate_pdf_file (d : fs) (file_path : path) : bool :=
  if negb (exists_ d file_path) then false
  else if negb (is_file d file_path) then false
  else if negb (bool_decide (lower (suffix file_path) = py ".pdf")) then false
  else
    match read_head d file_path 8 with
    | Ok header => startswith (py "%PDF-") header
    | Raise _ => false
    end.

(** [while backup_path.exists(): ...]: [fuel] bounds the number of names
    tried after the first. *)
Fixpoint backup_search (d : fs) (file_path : path) (fuel : nat)
    (backup_path : path) (counter : Z) : option (result path) :=
  if exists_ d backup_path then
    match fuel with
    | O => None
    | S fuel' =>
        match with_suffix file_path
                (suffix file_path ++ py ".bak." ++ decimal counter) with
        | Ok next => backup_search d file_path fuel' next (counter + 1)
        | Raise e => Some (Raise e)
        end
    end
  else Some (Ok backup_path).

Definition backup_file (d : fs) (file_path : path) (fuel : nat)
  : option (result path * fs) :=
  if negb (exists_ d file_path) then Some (Raise FileNotFoundError, d)
  else
    match with_suffix file_path (suffix file_path ++ py ".bak") with
    | Raise e => Some (Raise e, d)
    | Ok first =>
        match backup_search d file_path fuel first 1 with
        | None => None
        | Some (Raise e) => Some (Raise e, d)
        | Some (Ok backup_path) =>
            match read_bytes d file_path with
            | Ok content => Some (Ok backup_path, write_new d backup_path content)
            | Raise e => Some (Raise e, d)
            end
        end
    end.

End FileHandlerFiles.

(** ** adn/utils/validators.py *)
Module Validators.
Import Config FileHandler PyMore FileHandlerFiles.

(** The same check as [FileHandler.validate_pdf_file], followed by a test
    of the size, which is made outside the [try]. *)
Definition validate_pdf_file (d : fs) (file_path : path) : result bool :=
  if negb (exists_ d file_path) then Ok false
  else if negb (is_file d file_path) then Ok false
  else if negb (bool_decide (lower (suffix file_path) = py ".pdf")) then Ok false
  else
    match read_head d file_path 8 with
    | Ok header =>
        if negb (startswith (py "%PDF-") header) then Ok false
        else
          bind (st_size d file_path) (fun n =>
            if n =? 0 then Ok false else Ok true)
    | Raise _ => Ok false
    end.

(** [validate_template_name] on a string. *)
Definition validate_template_name (template_name : str) : bool :=
  match template_name with
  | [] => false
  | _ =>
      if existsb (fun char => contains char template_name) invalid_chars then false
      else if (50 <? length template_name)%nat then false
      else if startswith (py ".") template_name || endswith (py ".") template_name
      then false
      else true
  end.

(** [Path(filename)] for a name without separators. *)
Definition path_of_name (filename : str) : path :=
  mkPath [] (if bool_decide (filename = py ".") then [] else filename).

(** [sanitize_filename]. *)
Definition sanitize_filename (filename : str) : str :=
  let sanitized := fold_left (fun acc char => replace_char char "_" acc)
                     invalid_chars filename in
  let sanitized := join (py " ") (split_ws sanitized) in
  let sanitized := replace_char " " "_" sanitized in
  let sanitized := strip_char "." sanitized in
  if (100 <? length sanitized)%nat then
    let '(name, ext) := splitext sanitized in
    slice_to (100 - Z.of_nat (length ext)) name ++ ext
  else sanitized.

(** What ["test".encode(e)] does with a string [e]: it returns, it raises
    [LookupError] (no codec of that name, or one that is no text
    encoding), or it raises something else ([ValueError] on a name with a
    null character, [UnicodeError] from the codec). *)
Inductive encoding_outcome : Set :=
| Encoded
| RaisesLookupError
| RaisesOther (e : exn).

Section OperatingSystem.
(** [validate_directory(directory)] and [os.access(directory, os.W_OK)]. *)
Variable validate_directory : str -> bool -> bool.
Variable writable : str -> bool.
(** [Path(d).is_absolute()], [Path(d).exists()] and ["test".encode(e)]. *)
Variable is_absolute : str -> bool.
Variable dir_exists : str -> bool.
Variable encode_test : str -> encoding_outcome.

Definition validate_output_filename (filename : str) (directory : option str)
  : bool :=
  match filename with
  | [] => false
  | _ =>
      if existsb (fun char => contains char filename) invalid_chars then false
      else if (100 <? length (stem (path_of_name filename)))%nat then false
      else if negb (endswith (py ".md") (lower filename)) then false
      else
        match directory with
        | Some dir =>
            if negb (validate_directory dir false) then false
            else if negb (writable dir) then false
            else true
        | None => true
        end
  end.

Definition valid_levels : list str :=
  [py "DEBUG"; py "INFO"; py "WARNING"; py "ERROR"; py "CRITICAL"].

(** [validate_template_name(value)] on any configuration value: a falsy
    one is rejected at once, [char in value] raises on the others that
    are not strings. *)
Definition validate_template_value (v : value) : result bool :=
  match v with
  | VStr s => Ok (validate_template_name s)
  | VBool false => Ok false
  | VInt 0 => Ok false
  | VNone => Ok false
  | VBool true => Raise TypeError
  | VInt _ => Raise TypeError
  end.

Definition validate_config_value (key : string) (v : value) : result bool :=
  if String.eqb key "log_level" then
    Ok (match v with
        | VStr s => bool_decide (s ∈ valid_levels)
        | _ => false
        end)
  else if String.eqb key "default_template" then validate_template_value v
  else if String.eqb key "output_suffix" then
    Ok (match v with
        | VStr s => negb (20 <? length s)%nat
        | _ => false
        end)
  else if String.eqb key "default_output_dir" then
    Ok (match v with
        | VStr d => negb (is_absolute d && negb (dir_exists d))
        | _ => false
        end)
  else if String.eqb key "auto_open_generated" then
    Ok (match v with
        | VBool _ => true
        | _ => false
        end)
  else if String.eqb key "encoding" then
    match v with
    | VStr e =>
        match encode_test e with
        | Encoded => Ok true
        | RaisesLookupError => Ok false
        | RaisesOther ex => Raise ex
        end
    | _ => Raise TypeError
    end
  else if String.eqb key "max_filename_length" then
    Ok (match v with
        | VInt n => negb ((n <? 10) || (255 <? n))
        | VBool _ => false
        | _ => false
        end)
  else Ok true.

(** What a message of the summary reports. *)
Inductive problem : Type :=
| InvalidPdf (pdf_file : path)
| InvalidOutputDir (output_dir : str)
| InvalidTemplateName (template_name : str).

Record summary : Type := mkSummary {
  valid : bool;
  errors : list problem;
  warnings : list problem;
  valid_files : list path;
  invalid_files : list path
}.

(** The [for pdf_file in pdf_files] of [get_validation_summary]. *)
Fixpoint classify (d : fs) (pdf_files : list path) (s : summary)
  : result summary :=
  match pdf_files with
  | [] => Ok s
  | pdf_file :: rest =>
      bind (validate_pdf_file d pdf_file) (fun ok =>
        if ok then
          classify d rest
            (mkSummary (valid s) (errors s) (warnings s)
               (valid_files s ++ [pdf_file]) (invalid_files s))
        else
          classify d rest
            (mkSummary (valid s) (errors s ++ [InvalidPdf pdf_file]) (warnings s)
               (valid_files s) (invalid_files s ++ [pdf_file])))
  end.

Definition get_validation_summary (d : fs) (pdf_files : list path)
    (output_dir : option str) (template_name : option str) : result summary :=
  bind (classify d pdf_files (mkSummary true [] [] [] [])) (fun s =>
    let s :=
      match output_dir with
      | Some dir =>
          if negb (validate_directory dir true)
          then mkSummary (valid s) (errors s ++ [InvalidOutputDir dir]) (warnings s)
                 (valid_files s) (invalid_files s)
          else s
      | None => s
      end in
    let s :=
      match template_name with
      | Some (c :: t) =>
          if negb (validate_template_name (c :: t))
          then mkSummary (valid s) (errors s ++ [InvalidTemplateName (c :: t)])
                 (warnings s) (valid_files s) (invalid_files s)
          else s
      | _ => s
      end in
    match errors s, valid_files s with
    | [], _ :: _ => Ok s
    | _, _ =>
        Ok (mkSummary false (errors s) (warnings s) (valid_files s)
              (invalid_files s))
    end).

End OperatingSystem.

End Validators.

(** ** adn/commands/create.py: the loop of [create_all] *)
Module Create.
Import Config FileHandler.

Section Batch.
Variable render_template : value -> path -> result str.
Variable is_absolute : str -> bool.
Variable joinpath : str -> str -> str.

End Batch.

End Create.

(** ** adn/utils/file_handler.py: where the output of a PDF is expected *)
Module FileHandlerPaths.
Import Config FileHandler.

Definition get_extraction_file (st : store) (pdf_file : path)
    (output_dir : option str) : result path * store :=
  let output_dir :=
    match output_dir with
    | None => parent pdf_file
    | Some d => d
    end in
  _generate_output_filename st pdf_file output_dir.

End FileHandlerPaths.

(** ** adn/commands/config.py: [config set] and [config get] *)
Module ConfigCommand.
Import Config PyMore.

(** How a command ends: it returns, or the run ends with an exit status:
    that of [typer.Exit(code)], or 1 when an exception escapes a
    handler. *)
Inductive outcome (A : Type) : Type :=
| Returned (a : A)
| Exit (code : Z).
Arguments Returned {A} a.
Arguments Exit {A} code.

Definition valid_keys : list string :=
  ["default_template"; "output_suffix"; "default_output_dir"; "log_level";
   "auto_open_generated"]%string.

Definition boolean_keys : list string := ["auto_open_generated"%string].

Definition _convert_config_value (key : string) (value : str)
  : result Config.value :=
  if bool_decide (key ∈ boolean_keys) then
    if bool_decide (lower value ∈ [py "true"; py "1"; py "yes"; py "on"])
    then Ok (VBool true)
    else if bool_decide (lower value ∈ [py "false"; py "0"; py "no"; py "off"])
    then Ok (VBool false)
    else Raise ValueError
  else Ok (VStr value).

(** The texts given to [console.print] when a value has been set and
    when a value is shown. *)
Definition updated_text (key : string) (converted_value : value) : str :=
  py "[green]Configuraci" ++ [ascii_of_nat 243] ++ py "n actualizada: "
    ++ list_ascii_of_string key ++ py " = "
    ++ FileHandler.format_value converted_value ++ py "[/green]".

Definition value_text (key : string) (value : Config.value) : str :=
  py "[cyan]" ++ list_ascii_of_string key ++ py "[/cyan]: [green]"
    ++ FileHandler.format_value value ++ py "[/green]".

Section Console.
(** Whether [console.print(text)] raises [MarkupError]: Rich reads the
    text as markup and refuses a closing tag that matches no open one. *)
Variable markup_error : str -> bool.

(** [adn config set key value], run over the files found on disk: the
    command builds its own [ConfigManager()].  Whatever is raised inside
    the [try], the exit of a refused key and the [MarkupError] of a
    message included, ends the run with status 1. *)
Definition set_config (project_templates_exists : bool)
    (fs : gmap str document) (key : string) (value : str)
  : outcome unit * gmap str document :=
  let config_manager := new_manager project_templates_exists fs in
  if negb (bool_decide (key ∈ valid_keys)) then (Exit 1, fs)
  else
    match _convert_config_value key value with
    | Raise _ => (Exit 1, fs)
    | Ok converted_value =>
        match Config.set_config config_manager key converted_value with
        | (Ok _, st) =>
            if markup_error (updated_text key converted_value)
            then (Exit 1, files st)
            else (Returned tt, files st)
        | (Raise _, st) => (Exit 1, files st)
        end
    end.

(** [adn config get key]: the text given to [console.print]. *)
Definition get_config (project_templates_exists : bool)
    (fs : gmap str document) (key : string) : outcome str :=
  let config_manager := new_manager project_templates_exists fs in
  match Config.get_config config_manager with
  | (Ok config, _) =>
      match config !! key with
      | Some value =>
          if markup_error (value_text key value) then Exit 1
          else Returned (value_text key value)
      | None => Exit 1
      end
  | (Raise _, _) => Exit 1
  end.

End Console.

End ConfigCommand.

(* ===================================================================== *)
(** * Part II: properties                                                  *)
(* ===================================================================== *)

(** ** Facts about the Python primitives *)
Module PyFacts.

Lemma int_of_digits_snoc l c :
  int_of_digits (l ++ [c]) = 10 * int_of_digits l + digit_value c.
Proof. unfold int_of_digits. rewrite fold_left_app. reflexivity. Qed.

Lemma digit_value_digit d : 0 <= d < 10 -> digit_value (digit d) = d.
Proof.
  intros Hd. unfold digit_value, digit.
  rewrite nat_ascii_embedding by lia. lia.
Qed.

Lemma is_digit_digit d : 0 <= d < 10 -> is_digit (digit d) = true.
Proof.
  intros Hd. unfold is_digit, digit.
  rewrite nat_ascii_embedding by lia.
  apply andb_true_iff. split; apply Nat.leb_le; lia.
Qed.

Lemma pow10_S (f : nat) : 10 ^ Z.of_nat (S f) = 10 * 10 ^ Z.of_nat f.
Proof. rewrite Nat2Z.inj_succ, Z.pow_succ_r by lia. reflexivity. Qed.

(** With enough fuel the digits read back as the number. *)
Lemma digits_fuel_value f : forall n,
  0 <= n < 10 ^ Z.of_nat f -> int_of_digits (digits_fuel f n) = n.
Proof.
  induction f as [| f IH]; intros n Hn.
  - cbn in *. lia.
  - cbn [digits_fuel]. destruct (Z.ltb_spec n 10) as [Hs | Hl].
    + cbn. rewrite digit_value_digit; lia.
    + rewrite int_of_digits_snoc, IH, digit_value_digit.
      * pose proof (Z.div_mod n 10). lia.
      * apply Z.mod_pos_bound. lia.
      * rewrite pow10_S in Hn. split; [apply Z.div_pos; lia |].
        apply Z.div_lt_upper_bound; lia.
Qed.

Lemma digits_fuel_all_digits f : forall n,
  0 <= n -> Forall (fun c => is_digit c = true) (digits_fuel f n).
Proof.
  induction f as [| f IH]; intros n Hn; cbn [digits_fuel].
  - constructor.
  - destruct (Z.ltb_spec n 10).
    + repeat constructor. apply is_digit_digit. lia.
    + apply Forall_app. split.
      * apply IH. apply Z.div_pos; lia.
      * repeat constructor. apply is_digit_digit. apply Z.mod_pos_bound. lia.
Qed.

(** A number below [10 ^ k] has at most [k] digits ... *)
Lemma digits_fuel_length_le f : forall n k,
  0 <= n < 10 ^ Z.of_nat (S k) ->
  (length (digits_fuel f n) <= S k)%nat.
Proof.
  induction f as [| f IH]; intros n k Hn; cbn [digits_fuel].
  - cbn. lia.
  - destruct (Z.ltb_spec n 10) as [Hs | Hl]; [cbn; lia |].
    rewrite length_app. cbn [length].
    destruct k as [| k]; [cbn in Hn; lia |].
    assert (length (digits_fuel f (n / 10)) <= S k)%nat; [| lia].
    apply IH. rewrite pow10_S in Hn. split; [apply Z.div_pos; lia |].
    apply Z.div_lt_upper_bound; lia.
Qed.

(** ... and, with enough fuel, a number from [10 ^ k] on has more. *)
Lemma digits_fuel_length_gt f : forall n k,
  10 ^ Z.of_nat k <= n < 10 ^ Z.of_nat f ->
  (k < length (digits_fuel f n))%nat.
Proof.
  induction f as [| f IH]; intros n k Hn.
  - assert (0 < 10 ^ Z.of_nat k) by (apply Z.pow_pos_nonneg; lia).
    cbn in Hn. lia.
  - cbn [digits_fuel]. destruct (Z.ltb_spec n 10) as [Hs | Hl].
    + destruct k as [| k]; [cbn; lia |].
      rewrite pow10_S in Hn.
      assert (0 < 10 ^ Z.of_nat k) by (apply Z.pow_pos_nonneg; lia). lia.
    + rewrite length_app. cbn [length].
      destruct k as [| k]; [lia |].
      assert (k < length (digits_fuel f (n / 10)))%nat; [| lia].
      apply IH. rewrite !pow10_S in Hn. split.
      * apply Z.div_le_lower_bound; lia.
      * apply Z.div_lt_upper_bound; lia.
Qed.

(** The fuel of [decimal] is enough. *)
Lemma decimal_fuel n : 0 <= n -> n < 10 ^ Z.of_nat (S (Z.to_nat (Z.log2 n))).
Proof.
  intros Hn. destruct (Z.eq_dec n 0) as [-> | Hne]; [cbn; lia |].
  pose proof (Z.log2_nonneg n) as Hlog.
  rewrite Nat2Z.inj_succ, Z2Nat.id by lia.
  destruct (Z.log2_spec n ltac:(lia)) as [_ Hhi].
  eapply Z.lt_le_trans; [exact Hhi |].
  apply Z.pow_le_mono_l. lia.
Qed.

Lemma decimal_value n : 0 <= n -> int_of_digits (decimal n) = n.
Proof.
  intros Hn. apply digits_fuel_value. split; [lia | apply decimal_fuel; lia].
Qed.

Lemma decimal_all_digits n :
  0 <= n -> Forall (fun c => is_digit c = true) (decimal n).
Proof. intros Hn. apply digits_fuel_all_digits. lia. Qed.

Lemma decimal_length_le n k :
  0 <= n < 10 ^ Z.of_nat (S k) -> (length (decimal n) <= S k)%nat.
Proof. apply digits_fuel_length_le. Qed.

Lemma decimal_length_gt n k :
  10 ^ Z.of_nat k <= n -> (k < length (decimal n))%nat.
Proof.
  intros Hn. apply digits_fuel_length_gt. split; [lia |].
  apply decimal_fuel.
  assert (0 < 10 ^ Z.of_nat k) by (apply Z.pow_pos_nonneg; lia). lia.
Qed.

Lemma decimal_nonempty n : (0 < length (decimal n))%nat.
Proof.
  unfold decimal. cbn [digits_fuel].
  destruct (n <? 10); [cbn; lia |]. rewrite length_app. cbn. lia.
Qed.

(** Leading zeros do not change the number read. *)
Lemma int_of_digits_zeros k s :
  int_of_digits (repeat "0"%char k ++ s) = int_of_digits s.
Proof.
  unfold int_of_digits. rewrite fold_left_app.
  replace (fold_left (fun acc c => 10 * acc + digit_value c) (repeat "0"%char k) 0)
    with 0; [reflexivity |].
  induction k as [| k IH]; [reflexivity | cbn; exact IH].
Qed.

(** *** strip *)

Definition all_space (s : str) : Prop := Forall (fun c => isspace c = true) s.

Definition starts_nonspace (s : str) : Prop :=
  match s with
  | [] => True
  | c :: _ => isspace c = false
  end.

Definition ends_nonspace (s : str) : Prop := starts_nonspace (rev s).

(** [t] is [s] without its leading and trailing whitespace. *)
Definition stripped_of (s t : str) : Prop :=
  exists p q, s = p ++ t ++ q /\ all_space p /\ all_space q
              /\ starts_nonspace t /\ ends_nonspace t.

Lemma lstrip_spec s :
  exists p, s = p ++ lstrip s /\ all_space p /\ starts_nonspace (lstrip s).
Proof.
  induction s as [| c s IH]; cbn [lstrip].
  - exists []. repeat split. constructor.
  - destruct (isspace c) eqn:Hc.
    + destruct IH as (p & Hp & Hsp & Hst). exists (c :: p).
      split; [cbn; congruence |]. split; [constructor; assumption | exact Hst].
    + exists []. split; [reflexivity |]. split; [constructor | exact Hc].
Qed.

Lemma rstrip_spec s :
  exists q, s = rstrip s ++ q /\ all_space q /\ ends_nonspace (rstrip s).
Proof.
  unfold rstrip, ends_nonspace.
  destruct (lstrip_spec (rev s)) as (p & Hp & Hsp & Hst).
  exists (rev p). split.
  - rewrite <- rev_app_distr, <- Hp, rev_involutive. reflexivity.
  - split; [| rewrite rev_involutive; exact Hst].
    unfold all_space in *. apply Forall_forall. intros c Hc.
    rewrite Forall_forall in Hsp. apply Hsp.
    apply list_elem_of_In, in_rev, list_elem_of_In. exact Hc.
Qed.

Lemma strip_spec s : stripped_of s (strip s).
Proof.
  unfold strip.
  destruct (lstrip_spec s) as (p & Hp & Hsp & Hst).
  destruct (rstrip_spec (lstrip s)) as (q & Hq & Hsq & Hen).
  exists p, q. split; [rewrite <- Hq; exact Hp |].
  repeat split; try assumption.
  destruct (rstrip (lstrip s)) as [| c t] eqn:Ht; [exact I |].
  rewrite Hq in Hst. exact Hst.
Qed.

Lemma lstrip_app_space p s : all_space p -> lstrip (p ++ s) = lstrip s.
Proof.
  intros Hp. induction Hp as [| c p Hc Hp IH]; [reflexivity |].
  cbn [app lstrip]. rewrite Hc. exact IH.
Qed.

Lemma lstrip_starts_nonspace s : starts_nonspace s -> lstrip s = s.
Proof. destruct s as [| c s]; cbn; [reflexivity | intros ->; reflexivity]. Qed.

Lemma all_space_rev s : all_space s -> all_space (rev s).
Proof. apply Forall_rev. Qed.

(** The relation pins the result down: it is what [strip] returns. *)
Lemma stripped_of_strip s t : stripped_of s t -> t = strip s.
Proof.
  intros (p & q & -> & Hp & Hq & Hst & Hen). unfold strip.
  rewrite lstrip_app_space by exact Hp.
  destruct t as [| c t].
  - cbn [app]. pose proof (lstrip_app_space q [] Hq) as Hq'.
    rewrite app_nil_r in Hq'. rewrite Hq'. reflexivity.
  - rewrite lstrip_starts_nonspace by exact Hst.
    unfold rstrip. rewrite rev_app_distr.
    rewrite lstrip_app_space by (apply all_space_rev; exact Hq).
    rewrite lstrip_starts_nonspace by exact Hen.
    symmetry. apply rev_involutive.
Qed.

Lemma strip_Forall (P : ascii -> Prop) s : Forall P s -> Forall P (strip s).
Proof.
  intros H. destruct (strip_spec s) as (p & q & Hs & _).
  rewrite Hs in H. apply Forall_app in H as [_ H].
  apply Forall_app in H as [H _]. exact H.
Qed.

(** *** split and join on one character *)

Definition no_char (sep : ascii) (s : str) : Prop := Forall (fun c => c <> sep) s.

Lemma split_on_nonempty sep s : split_on sep s <> [].
Proof.
  destruct s as [| c s]; cbn; [discriminate |].
  destruct (Ascii.eqb c sep); [discriminate |].
  destruct (split_on sep s); discriminate.
Qed.

Lemma split_on_no_sep sep s : Forall (no_char sep) (split_on sep s).
Proof.
  induction s as [| c s IH]; cbn [split_on].
  - repeat constructor.
  - destruct (Ascii.eqb_spec c sep) as [-> | Hne].
    + constructor; [constructor | exact IH].
    + destruct (split_on sep s) as [| w ws].
      * repeat constructor. exact Hne.
      * inversion IH; subst. constructor; [constructor; assumption | assumption].
Qed.

Lemma join_split_on sep s : join [sep] (split_on sep s) = s.
Proof.
  induction s as [| c s IH]; [reflexivity |].
  cbn [split_on]. destruct (Ascii.eqb_spec c sep) as [-> | Hne].
  - pose proof (split_on_nonempty sep s).
    destruct (split_on sep s) as [| w ws]; [congruence |].
    change (join [sep] ([] :: w :: ws)) with (sep :: join [sep] (w :: ws)).
    rewrite IH. reflexivity.
  - pose proof (split_on_nonempty sep s).
    destruct (split_on sep s) as [| w ws]; [congruence |].
    destruct ws as [| w' ws].
    + cbn in *. congruence.
    + change (join [sep] ((c :: w) :: w' :: ws))
        with (c :: join [sep] (w :: w' :: ws)).
      rewrite IH. reflexivity.
Qed.

Lemma split_on_app_sep sep p rest :
  no_char sep p -> split_on sep (p ++ sep :: rest) = p :: split_on sep rest.
Proof.
  intros Hp. induction Hp as [| c p Hc Hp IH]; cbn [app split_on].
  - rewrite Ascii.eqb_refl. reflexivity.
  - destruct (Ascii.eqb_spec c sep); [contradiction |].
    rewrite IH. reflexivity.
Qed.

Lemma split_on_no_char sep p : no_char sep p -> split_on sep p = [p].
Proof.
  intros Hp. induction Hp as [| c p Hc Hp IH]; [reflexivity |].
  cbn [split_on]. destruct (Ascii.eqb_spec c sep); [contradiction |].
  rewrite IH. reflexivity.
Qed.

(** Lines free of the separator come back from the joined text. *)
Lemma split_on_join sep ls :
  ls <> [] -> Forall (no_char sep) ls -> split_on sep (join [sep] ls) = ls.
Proof.
  intros Hne Hls. induction Hls as [| l ls Hl Hls IH]; [congruence |].
  destruct ls as [| l' ls].
  - cbn [join]. apply split_on_no_char. exact Hl.
  - cbn [join]. cbn [app]. rewrite split_on_app_sep by exact Hl.
    f_equal. apply IH. discriminate.
Qed.

End PyFacts.

Module TemplateEngineFacts.
Import TemplateEngine.

(** The unit the loop stops at, read off the thresholds. *)
Definition unit_index (n : Z) : nat :=
  if n <? 1024 then 0%nat
  else if n <? 1024 ^ 2 then 1%nat
  else if n <? 1024 ^ 3 then 2%nat
  else if n <? 1024 ^ 4 then 3%nat
  else 4%nat.

Definition all_units : list str := units ++ [py "TB"].

(** [x / 1024 ** k]. *)
Definition scale (k : nat) (x : float) : float :=
  mkFloat (mant x) (shift x + 10 * Z.of_nat k).

Lemma float_of_int_exact n :
  Z.abs n < 2 ^ 53 -> float_of_int n = Ok (mkFloat n 0).
Proof.
  intros H. unfold float_of_int.
  destruct (Z.ltb_spec (Z.abs n) (2 ^ 53)); [reflexivity | lia].
Qed.

Lemma round_half_even_lower a b :
  0 <= a -> 0 < b -> a / b <= round_half_even a b.
Proof.
  intros Ha Hb. unfold round_half_even.
  generalize (a / b) (a mod b). intros q r.
  repeat match goal with |- context [if ?c then _ else _] => destruct c end; lia.
Qed.

(** Converting a count of at least 1024 bytes gives an integral float
    that sits on the same side of every threshold up to [2 ^ 52]. *)
Lemma float_of_int_thresholds n x :
  0 <= n -> float_of_int n = Ok x ->
  shift x = 0 /\ forall t, t <= 2 ^ 52 -> (mant x <? t) = (n <? t).
Proof.
  intros Hn. unfold float_of_int.
  rewrite (Z.abs_eq n Hn).
  destruct (Z.ltb_spec n (2 ^ 53)) as [Hs | Hl].
  - intros [= <-]. split; reflexivity.
  - set (e := Z.log2 n - 52).
    set (m := round_half_even n (2 ^ e) * 2 ^ e).
    destruct (m <? 2 ^ 1024); [| discriminate].
    intros [= <-]. cbn [mant shift]. split; [reflexivity |].
    intros t Ht.
    assert (Hlog : 53 <= Z.log2 n).
    { apply Z.log2_le_pow2; lia. }
    assert (He : 0 <= e) by (unfold e; lia).
    assert (Hpow : 0 < 2 ^ e) by (apply Z.pow_pos_nonneg; lia).
    assert (Hq : 2 ^ 52 <= n / 2 ^ e).
    { apply Z.div_le_lower_bound; [exact Hpow |].
      rewrite Z.mul_comm, <- Z.pow_add_r by lia.
      replace (52 + e) with (Z.log2 n) by (unfold e; lia).
      apply Z.log2_spec. lia. }
    assert (Hr : 2 ^ 52 <= round_half_even n (2 ^ e)).
    { pose proof (round_half_even_lower n (2 ^ e) Hn Hpow). lia. }
    assert (Hm : 2 ^ 52 <= m) by (unfold m; nia).
    replace (Z.sgn n) with 1 by lia.
    destruct (Z.ltb_spec (1 * m) t), (Z.ltb_spec n t); lia || reflexivity.
Qed.

Lemma scale_0 x : scale 0 x = x.
Proof. destruct x as [m s]. unfold scale. cbn. f_equal. lia. Qed.

Lemma filesize_loop_cons u us size :
  filesize_loop (u :: us) size
  = if num_lt_1024 size
    then bind (num_format_1f size) (fun s => Ok (s ++ py " " ++ u))
    else bind (num_div_1024 size) (fun size' => filesize_loop us size').
Proof. reflexivity. Qed.

(** What the filter computes on an integer: the count is converted to a
    float, divided by 1024 once per unit passed, and printed with one
    decimal and the unit reached. *)
Lemma filesize_filter_int n :
  _filesize_filter (VInt n)
  = bind (float_of_int n)
      (fun x => Ok (format_1f (scale (unit_index n) x)
                      ++ py " " ++ nth (unit_index n) all_units [])).
Proof.
  unfold _filesize_filter, unit_index, units.
  rewrite filesize_loop_cons. cbn [num_lt_1024].
  destruct (Z.ltb_spec n 1024) as [H0 | H0].
  - cbn [num_format_1f]. destruct (float_of_int n) as [x |]; cbn [bind]; [| reflexivity].
    rewrite scale_0. reflexivity.
  - cbn [num_div_1024].
    destruct (float_of_int n) as [x |] eqn:Hx; cbn [bind]; [| reflexivity].
    destruct (float_of_int_thresholds n x ltac:(lia) Hx) as [Hs Hcmp].
    destruct x as [m s]. cbn [shift mant] in Hs, Hcmp. subst s.
    assert (E : forall k : Z, 0 <= k <= 4 ->
               lt_1024 (mkFloat m (10 * k)) = (n <? 1024 * 2 ^ (10 * k))).
    { intros k Hk. unfold lt_1024. cbn [mant shift]. apply Hcmp.
      assert (2 ^ (10 * k) <= 2 ^ 40) by (apply Z.pow_le_mono_r; lia).
      change (2 ^ 52) with (1024 * 2 ^ 40 * 4). lia. }
    change (div_1024 (mkFloat m 0)) with (mkFloat m (10 * 1)).
    unfold scale. cbn [mant shift].
    cbn [filesize_loop num_lt_1024 num_div_1024 num_format_1f bind].
    rewrite (E 1) by lia. change (1024 * 2 ^ (10 * 1)) with (1024 ^ 2).
    destruct (n <? 1024 ^ 2); [reflexivity |].
    change (div_1024 (mkFloat m (10 * 1))) with (mkFloat m (10 * 2)).
    cbn [filesize_loop num_lt_1024 num_div_1024 num_format_1f bind].
    rewrite (E 2) by lia. change (1024 * 2 ^ (10 * 2)) with (1024 ^ 3).
    destruct (n <? 1024 ^ 3); [reflexivity |].
    change (div_1024 (mkFloat m (10 * 2))) with (mkFloat m (10 * 3)).
    cbn [filesize_loop num_lt_1024 num_div_1024 num_format_1f bind].
    rewrite (E 3) by lia. change (1024 * 2 ^ (10 * 3)) with (1024 ^ 4).
    destruct (n <? 1024 ^ 4); reflexivity.
Qed.

Example filesize_1280 : _filesize_filter (VInt 1280) = Ok (py "1.2 KB").
Proof. vm_compute. reflexivity. Qed.

Example filesize_none : _filesize_filter VNone = Ok (py "None").
Proof. reflexivity. Qed.

(** The unit a float stops at, read off the same thresholds on the
    fraction [m / 2 ^ e]. *)
Definition float_unit_index (m : Z) (e : nat) : nat :=
  if m <? 1024 * 2 ^ Z.of_nat e then 0%nat
  else if m <? 1024 ^ 2 * 2 ^ Z.of_nat e then 1%nat
  else if m <? 1024 ^ 3 * 2 ^ Z.of_nat e then 2%nat
  else if m <? 1024 ^ 4 * 2 ^ Z.of_nat e then 3%nat
  else 4%nat.

Lemma lt_1024_scale m e k :
  lt_1024 (scale k (mkFloat m (Z.of_nat e)))
  = (m <? 1024 ^ (Z.of_nat k + 1) * 2 ^ Z.of_nat e).
Proof.
  unfold lt_1024, scale. cbn [mant shift].
  rewrite Z.pow_add_r by lia.
  replace (2 ^ (10 * Z.of_nat k)) with (1024 ^ Z.of_nat k)
    by (change 1024 with (2 ^ 10); rewrite <- Z.pow_mul_r by lia; reflexivity).
  rewrite Z.pow_add_r, Z.pow_1_r by lia. f_equal. lia.
Qed.

Lemma div_1024_scale k x : div_1024 (scale k x) = scale (S k) x.
Proof. unfold div_1024, scale. cbn [mant shift]. f_equal. lia. Qed.

(** What the filter computes on a fraction: no conversion, one division
    by 1024 per unit passed. *)
Lemma filesize_filter_float m e :
  _filesize_filter (VFloat (Finite m e))
  = Ok (format_1f (scale (float_unit_index m e) (mkFloat m (Z.of_nat e)))
          ++ py " " ++ nth (float_unit_index m e) all_units []).
Proof.
  unfold _filesize_filter, number_of, float_unit_index, units.
  rewrite <- (scale_0 (mkFloat m (Z.of_nat e))) at 1.
  rewrite filesize_loop_cons. cbn [num_lt_1024 num_format_1f num_div_1024 bind].
  rewrite (lt_1024_scale m e 0). change (1024 ^ (Z.of_nat 0 + 1)) with 1024.
  destruct (m <? 1024 * 2 ^ Z.of_nat e); [reflexivity |].
  rewrite div_1024_scale, filesize_loop_cons.
  cbn [num_lt_1024 num_format_1f num_div_1024 bind].
  rewrite (lt_1024_scale m e 1). change (1024 ^ (Z.of_nat 1 + 1)) with (1024 ^ 2).
  destruct (m <? 1024 ^ 2 * 2 ^ Z.of_nat e); [reflexivity |].
  rewrite div_1024_scale, filesize_loop_cons.
  cbn [num_lt_1024 num_format_1f num_div_1024 bind].
  rewrite (lt_1024_scale m e 2). change (1024 ^ (Z.of_nat 2 + 1)) with (1024 ^ 3).
  destruct (m <? 1024 ^ 3 * 2 ^ Z.of_nat e); [reflexivity |].
  rewrite div_1024_scale, filesize_loop_cons.
  cbn [num_lt_1024 num_format_1f num_div_1024 bind].
  rewrite (lt_1024_scale m e 3). change (1024 ^ (Z.of_nat 3 + 1)) with (1024 ^ 4).
  destruct (m <? 1024 ^ 4 * 2 ^ Z.of_nat e); [reflexivity |].
  rewrite div_1024_scale. reflexivity.
Qed.

(** C2, as stated: counts of [1024 ^ 3] bytes or more are rendered with
    unit GB.  It fails at [1024 ^ 4] bytes, which the final [return] of the
    filter renders as "1.0 TB". *)
Lemma filesize_gb_fallthrough_fails :
  1024 ^ 3 <= 1024 ^ 4
  /\ _filesize_filter (VInt (1024 ^ 4)) = Ok (py "1.0 TB")
  /\ ~ (exists d, _filesize_filter (VInt (1024 ^ 4)) = Ok (d ++ py " GB")).
Proof.
  split; [vm_compute; discriminate |].
  assert (H : _filesize_filter (VInt (1024 ^ 4)) = Ok (py "1.0 TB"))
    by (vm_compute; reflexivity).
  split; [exact H |].
  intros [d Hd]. rewrite H in Hd. injection Hd as Hd.
  apply (f_equal (@rev ascii)) in Hd. rewrite rev_app_distr in Hd.
  vm_compute in Hd. discriminate.
Qed.

(** C2, amended: on every numeric byte count (an integer, a boolean, a
    float) the filter divides by 1024 across B, KB, MB, GB and then TB:
    the unit is B below 1024, KB below 1024^2, MB below 1024^3, GB below
    1024^4 and TB from 1024^4 on, and the number printed is the count
    (as a float) divided by 1024 once per unit passed, with one decimal.
    A boolean counts as 0 or 1.  A float is divided as it is; negative
    zero gives "-0.0 B", the infinities "inf TB" and "-inf B", and NaN
    "nan TB".  The filter raises only where the conversion of an integer
    to a float does.  Text and None come back as [str] makes them, text
    unchanged.  500, 1500, 2048000 and 3221225472 give "500.0 B",
    "1.5 KB", "2.0 MB" and "3.0 GB". *)
Theorem filesize_filter_spec :
  (forall n,
      _filesize_filter (VInt n)
      = bind (float_of_int n)
          (fun x => Ok (format_1f (scale (unit_index n) x)
                          ++ py " " ++ nth (unit_index n) all_units [])))
  /\ (forall n x, 1024 ^ 3 <= n < 1024 ^ 4 -> float_of_int n = Ok x ->
        _filesize_filter (VInt n) = Ok (format_1f (scale 3 x) ++ py " GB"))
  /\ (forall n x, 1024 ^ 4 <= n -> float_of_int n = Ok x ->
        _filesize_filter (VInt n) = Ok (format_1f (scale 4 x) ++ py " TB"))
  /\ (forall n, Z.abs n < 2 ^ 53 -> float_of_int n = Ok (mkFloat n 0))
  /\ (forall b,
        _filesize_filter (VBool b)
        = Ok (if b then py "1.0 B" else py "0.0 B"))
  /\ (forall m e,
        _filesize_filter (VFloat (Finite m e))
        = Ok (format_1f (scale (float_unit_index m e) (mkFloat m (Z.of_nat e)))
                ++ py " " ++ nth (float_unit_index m e) all_units []))
  /\ (forall m e,
        1024 ^ 3 * 2 ^ Z.of_nat e <= m < 1024 ^ 4 * 2 ^ Z.of_nat e ->
        _filesize_filter (VFloat (Finite m e))
        = Ok (format_1f (scale 3 (mkFloat m (Z.of_nat e))) ++ py " GB"))
  /\ (forall m e,
        1024 ^ 4 * 2 ^ Z.of_nat e <= m ->
        _filesize_filter (VFloat (Finite m e))
        = Ok (format_1f (scale 4 (mkFloat m (Z.of_nat e))) ++ py " TB"))
  /\ _filesize_filter (VFloat NegZero) = Ok (py "-0.0 B")
  /\ _filesize_filter (VFloat (Infinity true)) = Ok (py "-inf B")
  /\ _filesize_filter (VFloat (Infinity false)) = Ok (py "inf TB")
  /\ _filesize_filter (VFloat NaN) = Ok (py "nan TB")
  /\ (forall s, _filesize_filter (VText s) = Ok s)
  /\ _filesize_filter VNone = Ok (py "None")
  /\ _filesize_filter (VInt 500) = Ok (py "500.0 B")
  /\ _filesize_filter (VInt 1500) = Ok (py "1.5 KB")
  /\ _filesize_filter (VInt 2048000) = Ok (py "2.0 MB")
  /\ _filesize_filter (VInt 3221225472) = Ok (py "3.0 GB").
Proof.
  split; [exact filesize_filter_int |].
  split.
  { intros n x [Hlo Hhi] Hx. rewrite filesize_filter_int, Hx. cbn [bind].
    unfold unit_index.
    destruct (Z.ltb_spec n 1024); [lia |].
    destruct (Z.ltb_spec n (1024 ^ 2)); [lia |].
    destruct (Z.ltb_spec n (1024 ^ 3)); [lia |].
    destruct (Z.ltb_spec n (1024 ^ 4)); [reflexivity | lia]. }
  split.
  { intros n x Hlo Hx. rewrite filesize_filter_int, Hx. cbn [bind].
    unfold unit_index.
    destruct (Z.ltb_spec n 1024); [lia |].
    destruct (Z.ltb_spec n (1024 ^ 2)); [lia |].
    destruct (Z.ltb_spec n (1024 ^ 3)); [lia |].
    destruct (Z.ltb_spec n (1024 ^ 4)); [lia | reflexivity]. }
  split; [exact float_of_int_exact |].
  split; [intros []; vm_compute; reflexivity |].
  split; [exact filesize_filter_float |].
  assert (Hpos : forall e : nat, 0 < 2 ^ Z.of_nat e)
    by (intros e; apply Z.pow_pos_nonneg; lia).
  split.
  { intros m e [Hlo Hhi]. rewrite filesize_filter_float.
    unfold float_unit_index. pose proof (Hpos e).
    destruct (Z.ltb_spec m (1024 * 2 ^ Z.of_nat e)); [nia |].
    destruct (Z.ltb_spec m (1024 ^ 2 * 2 ^ Z.of_nat e)); [nia |].
    destruct (Z.ltb_spec m (1024 ^ 3 * 2 ^ Z.of_nat e)); [lia |].
    destruct (Z.ltb_spec m (1024 ^ 4 * 2 ^ Z.of_nat e)); [reflexivity | lia]. }
  split.
  { intros m e Hlo. rewrite filesize_filter_float.
    unfold float_unit_index. pose proof (Hpos e).
    destruct (Z.ltb_spec m (1024 * 2 ^ Z.of_nat e)); [nia |].
    destruct (Z.ltb_spec m (1024 ^ 2 * 2 ^ Z.of_nat e)); [nia |].
    destruct (Z.ltb_spec m (1024 ^ 3 * 2 ^ Z.of_nat e)); [nia |].
    destruct (Z.ltb_spec m (1024 ^ 4 * 2 ^ Z.of_nat e)); [lia | reflexivity]. }
  repeat split; vm_compute; reflexivity.
Qed.

Lemma filesize_filter_spec_witness :
  _filesize_filter (VInt 3221225472)
  = Ok (format_1f (scale 3 (mkFloat 3221225472 0)) ++ py " GB")
  /\ _filesize_filter (VInt (5 * 1024 ^ 4))
     = Ok (format_1f (scale 4 (mkFloat (5 * 1024 ^ 4) 0)) ++ py " TB")
  /\ _filesize_filter (VFloat (Finite (3 * 1024 ^ 4 + 1) 1))
     = Ok (py "1.5 TB").
Proof.
  destruct filesize_filter_spec
    as (_ & Hgb & Htb & Hexact & _ & _ & _ & Hftb & _).
  split; [| split].
  - apply (Hgb 3221225472 (mkFloat 3221225472 0)); [lia |].
    apply Hexact. lia.
  - apply (Htb (5 * 1024 ^ 4) (mkFloat (5 * 1024 ^ 4) 0)); [lia |].
    apply Hexact. lia.
  - rewrite Hftb; [vm_compute; reflexivity | vm_compute; discriminate].
Defined.

End TemplateEngineFacts.

Module CsvToMdFacts.
Import CsvToMd PyFacts.

(** *** Output names *)

Lemma repeat_zero_digits k :
  Forall (fun c => is_digit c = true) (repeat "0"%char k).
Proof. induction k; cbn; constructor; [reflexivity | assumption]. Qed.

(** The shape of [format(n, "03d")]: sign, zeros up to width 3, digits. *)
Lemma format_d_zero_shape n :
  exists zeros,
    format_d_zero 3 n
    = (if n <? 0 then py "-" else []) ++ zeros ++ decimal (Z.abs n)
    /\ Forall (fun c => c = "0"%char) zeros
    /\ length (format_d_zero 3 n)
       = Nat.max 3 (length (if n <? 0 then py "-" else [])
                    + length (decimal (Z.abs n)))
    /\ int_of_digits (zeros ++ decimal (Z.abs n)) = Z.abs n
    /\ Forall (fun c => is_digit c = true) (zeros ++ decimal (Z.abs n)).
Proof.
  unfold format_d_zero.
  set (sign := if n <? 0 then py "-" else []).
  set (ds := decimal (Z.abs n)).
  exists (repeat "0"%char (3 - length sign - length ds)).
  split; [reflexivity |].
  split; [apply Forall_forall; intros c Hc;
          apply list_elem_of_In, repeat_spec in Hc; exact Hc |].
  split; [rewrite !length_app, repeat_length; lia |].
  split.
  - rewrite int_of_digits_zeros. apply decimal_value. lia.
  - apply Forall_app. split; [apply repeat_zero_digits |].
    apply decimal_all_digits. lia.
Qed.

Lemma format_d_zero_wide n : 1000 <= n -> format_d_zero 3 n = decimal n.
Proof.
  intros Hn. unfold format_d_zero.
  destruct (Z.ltb_spec n 0); [lia |].
  rewrite Z.abs_eq by lia.
  pose proof (decimal_length_gt n 3 ltac:(cbn; lia)) as Hlen.
  cbn [length app]. replace (3 - 0 - length (decimal n))%nat with 0%nat by lia.
  reflexivity.
Qed.

(** *** Note bodies *)

(** [record.get(key, '')]: [None] stands for a field that is [None]. *)
Definition field (r : record) (key : string) : option str :=
  match r !! key with
  | None => Some []
  | Some v => v
  end.

Lemma get_stripped_field r key s :
  field r key = Some s -> get_stripped r key = Ok (strip s).
Proof.
  unfold field, get_stripped. destruct (r !! key) as [[t |] |]; congruence.
Qed.

Definition indented_stripped (line out : str) : Prop :=
  exists t, stripped_of line t /\ out = py "  " ++ t.

Lemma Forall2_map_self {A B} (P : A -> B -> Prop) (f : A -> B) l :
  (forall x, P x (f x)) -> Forall2 P l (map f l).
Proof. intros H. induction l; cbn; constructor; auto. Qed.

Lemma format_abstract_lines a :
  a <> [] ->
  split_on newline (format_abstract a)
  = map (fun line => py "  " ++ strip line) (split_on newline a).
Proof.
  intros Ha. unfold format_abstract. destruct a as [| c a]; [congruence |].
  set (ls := split_on newline (c :: a)).
  assert (Hmap : map (fun line => match strip line with
                                  | [] => py "  "
                                  | _ => py "  " ++ strip line
                                  end) ls
                 = map (fun line => py "  " ++ strip line) ls).
  { apply map_ext. intros l. destruct (strip l); reflexivity. }
  rewrite Hmap. apply split_on_join.
  - pose proof (split_on_nonempty newline (c :: a)) as Hne. fold ls in Hne.
    destruct ls; [congruence | discriminate].
  - apply Forall_forall. intros out Hout.
    apply list_elem_of_In, in_map_iff in Hout as (l & <- & Hl).
    pose proof (split_on_no_sep newline (c :: a)) as Hno. fold ls in Hno.
    rewrite Forall_forall in Hno. apply list_elem_of_In, Hno in Hl.
    unfold no_char. apply Forall_app. split.
    + repeat constructor; discriminate.
    + apply strip_Forall. exact Hl.
Qed.

(** *** Rows *)

Definition header_only_csv : csv_file :=
  mkCsv true true
    (fun _ => Read ["source"; "doi"; "title"; "abstract"]%string)
    (fun _ => Read []).

Lemma validate_csv_ok_opened {A} f cols (r : reading A) :
  validate_csv f = Ok cols -> opened f r = r.
Proof.
  unfold validate_csv, opened.
  destruct (exists_ f); [| discriminate].
  destruct (is_file f); [reflexivity | discriminate].
Qed.

(** A failing row is skipped and the loop goes on with the next one. *)
Lemma process_rows_skips_failure render out start i r data k e :
  create_markdown_content render r = Raise e ->
  process_rows render out start i (r :: data) k
  = process_rows render out start (S i) data k.
Proof.
  intros Hr. cbn [process_rows]. unfold process_row. rewrite Hr. reflexivity.
Qed.

Lemma process_rows_writes_success render out start i r data k c out' :
  create_markdown_content render r = Ok c ->
  write_text out (row_filename start i) c = (Ok tt, out') ->
  process_rows render out start i (r :: data) k
  = process_rows render out' start (S i) data (k + 1).
Proof.
  intros Hr Hw. cbn [process_rows]. unfold process_row. rewrite Hr, Hw.
  reflexivity.
Qed.

(** The rows that get a file, in the order of the CSV. *)
Fixpoint rows_written (render : str -> str -> str -> str -> result str)
    (out : gmap str node) (start : Z) (i : nat) (data : list record)
  : list nat :=
  match data with
  | [] => []
  | r :: data' =>
      match process_row render out start i r with
      | (Ok _, out') => i :: rows_written render out' start (S i) data'
      | (Raise _, out') => rows_written render out' start (S i) data'
      end
  end.

(** The loop never raises; it counts exactly the rows written. *)
Lemma process_rows_count render data : forall out start i k,
  fst (process_rows render out start i data k)
  = k + Z.of_nat (length (rows_written render out start i data)).
Proof.
  induction data as [| r data IH]; intros out start i k; cbn [process_rows rows_written].
  - cbn. lia.
  - destruct (process_row render out start i r) as [[[] | e] out'].
    + rewrite IH. cbn [length]. lia.
    + apply IH.
Qed.

Lemma process_csv_nonempty render out f start cols r data :
  validate_csv f = Ok cols ->
  read_csv_data f = Ok (r :: data) ->
  exists out',
    process_csv render out f start
    = (Ok (Z.of_nat (length (rows_written render out start 0 (r :: data)))), out').
Proof.
  intros Hv Hr. unfold process_csv. rewrite Hv, Hr.
  pose proof (process_rows_count render (r :: data) out start 0%nat 0) as Hc.
  destruct (process_rows render out start 0 (r :: data) 0) as [n out'].
  cbn [fst] in Hc. exists out'. rewrite Hc. reflexivity.
Qed.

Lemma read_csv_data_no_rows f :
  exists_ f = true -> is_file f = true -> rows f Utf8Sig = Read [] ->
  read_csv_data f = Raise ValueError.
Proof.
  intros He Hf Hr. unfold read_csv_data. cbn [read_loop].
  unfold opened. rewrite He, Hf, Hr. reflexivity.
Qed.

Lemma validate_header_only :
  exists cols, validate_csv header_only_csv = Ok cols.
Proof.
  unfold validate_csv, header_only_csv, opened, check_columns. cbn.
  destruct (decide _) as [_ | Hne]; [eexists; reflexivity |].
  exfalso. apply Hne. unfold REQUIRED_COLUMNS. set_solver.
Qed.

(** C1: a CSV that holds only the header row with the four required
    columns passes validation and reads as zero rows; [process_csv] then
    writes no file but raises [ValueError] where 0 is expected, since
    [read_csv_data] takes "no rows" for "no encoding could read the
    file". *)
Theorem process_csv_header_only_raises :
  forall render out start,
    (exists cols, validate_csv header_only_csv = Ok cols)
    /\ rows header_only_csv Utf8Sig = Read []
    /\ process_csv render out header_only_csv start = (Raise ValueError, out)
    /\ process_csv render out header_only_csv start <> (Ok 0, out).
Proof.
  intros render out start.
  destruct validate_header_only as [cols Hv].
  assert (H : process_csv render out header_only_csv start = (Raise ValueError, out)).
  { unfold process_csv. rewrite Hv.
    rewrite read_csv_data_no_rows by reflexivity. reflexivity. }
  split; [exists cols; exact Hv |].
  split; [reflexivity |].
  split; [exact H | rewrite H; discriminate].
Qed.

(** C8: on every CSV that passes column validation and is read, by the
    first encoding, as zero rows, [process_csv] raises [ValueError] and
    leaves the output directory as it was, although the file could be
    read. *)
Theorem process_csv_raises_on_readable_csv :
  forall render out f start cols,
    validate_csv f = Ok cols ->
    rows f Utf8Sig = Read [] ->
    process_csv render out f start = (Raise ValueError, out).
Proof.
  intros render out f start cols Hv Hr. unfold process_csv. rewrite Hv.
  rewrite read_csv_data_no_rows; [reflexivity | | | exact Hr].
  - unfold validate_csv in Hv. destruct (exists_ f); [reflexivity | discriminate].
  - unfold validate_csv in Hv. destruct (exists_ f); [| discriminate].
    destruct (is_file f); [reflexivity | discriminate].
Qed.

Lemma process_csv_raises_on_readable_csv_witness :
  rows header_only_csv Utf8Sig = Read []
  /\ process_csv (fun _ _ _ _ => Raise TemplateError) ∅ header_only_csv 1
     = (Raise ValueError, ∅).
Proof.
  split; [reflexivity |].
  destruct validate_header_only as [cols Hv].
  apply (process_csv_raises_on_readable_csv _ ∅ header_only_csv 1 cols Hv).
  reflexivity.
Defined.

(** C9: the file of row [i] is named after [start + i]: an optional sign,
    zeros, and the decimal digits, of total width 3 or the natural width
    of the number when that is larger; the zeros and digits read back as
    the number.  From 1000 on the name is the plain number.  With start
    10 a first row goes to 010.md, not 001.md; row 999 from start 1 goes
    to 1000.md. *)
Theorem row_filename_spec :
  (forall start i,
      let n := start + Z.of_nat i in
      exists zeros,
        row_filename start i
        = (if n <? 0 then py "-" else []) ++ zeros ++ decimal (Z.abs n) ++ py ".md"
        /\ Forall (fun c => c = "0"%char) zeros
        /\ length ((if n <? 0 then py "-" else []) ++ zeros ++ decimal (Z.abs n))
           = Nat.max 3 (length (if n <? 0 then py "-" else [])
                        + length (decimal (Z.abs n)))
        /\ int_of_digits (zeros ++ decimal (Z.abs n)) = Z.abs n
        /\ Forall (fun c => is_digit c = true) (zeros ++ decimal (Z.abs n)))
  /\ (forall start i,
        1000 <= start + Z.of_nat i ->
        row_filename start i = decimal (start + Z.of_nat i) ++ py ".md"
        /\ (4 <= length (decimal (start + Z.of_nat i)))%nat)
  /\ row_filename 10 0 = py "010.md"
  /\ row_filename 10 0 <> py "001.md"
  /\ row_filename 1 999 = py "1000.md".
Proof.
  split.
  { intros start i n. unfold row_filename. fold n.
    destruct (format_d_zero_shape n) as (zeros & Heq & Hz & Hlen & Hval & Hdig).
    exists zeros. rewrite Heq in Hlen |- *.
    split; [rewrite <- !app_assoc; reflexivity |].
    repeat split; assumption. }
  split.
  { intros start i Hn. unfold row_filename.
    rewrite format_d_zero_wide by exact Hn. split; [reflexivity |].
    apply (decimal_length_gt _ 3). cbn. lia. }
  split; [reflexivity |].
  split; [vm_compute; discriminate | vm_compute; reflexivity].
Qed.

Lemma row_filename_spec_witness :
  1000 <= 1 + Z.of_nat 999
  /\ row_filename 1 999 = decimal (1 + Z.of_nat 999) ++ py ".md".
Proof.
  split; [lia |].
  destruct row_filename_spec as (_ & Hwide & _).
  apply (Hwide 1 999%nat). lia.
Defined.

(** A CSV of one row, processed from start number 10 into an empty
    directory, leaves exactly 010.md. *)
Lemma process_csv_single_row_start_10 render f cols r c :
  validate_csv f = Ok cols ->
  read_csv_data f = Ok [r] ->
  create_markdown_content render r = Ok c ->
  process_csv render ∅ f 10 = (Ok 1, {[ py "010.md" := File c ]}).
Proof.
  intros Hv Hr Hc. unfold process_csv. rewrite Hv, Hr.
  cbn [process_rows]. unfold process_row. rewrite Hc.
  unfold write_text. rewrite lookup_empty. reflexivity.
Qed.

(** C10: for a record whose four fields are present (or absent, which
    reads as the empty string), the note is built from the four values
    stripped of leading and trailing whitespace; a stripped abstract that
    is empty gives the single line of two spaces; otherwise the lines of
    the formatted abstract are the lines of the stripped abstract, each
    stripped again and put behind two spaces.  The template gets these
    values, and so does the hardcoded format when the template fails. *)
Theorem create_markdown_content_strips :
  forall render r source doi title abstract,
    field r "source" = Some source ->
    field r "doi" = Some doi ->
    field r "title" = Some title ->
    field r "abstract" = Some abstract ->
    exists s d t a F,
      stripped_of source s /\ stripped_of doi d
      /\ stripped_of title t /\ stripped_of abstract a
      /\ (a = [] -> F = py "  ")
      /\ (a <> [] ->
          Forall2 indented_stripped (split_on newline a) (split_on newline F))
      /\ create_markdown_content render r
         = Ok (match render s d t F with
               | Ok content => content
               | Raise _ => fallback_content s d t F
               end).
Proof.
  intros render r source doi title abstract Hs Hd Ht Ha.
  exists (strip source), (strip doi), (strip title), (strip abstract),
    (format_abstract (strip abstract)).
  repeat (split; [apply strip_spec |]).
  split; [intros ->; reflexivity |].
  split.
  - intros Hne. rewrite format_abstract_lines by exact Hne.
    apply Forall2_map_self. intros l. exists (strip l).
    split; [apply strip_spec | reflexivity].
  - unfold create_markdown_content.
    rewrite (get_stripped_field _ _ _ Hs), (get_stripped_field _ _ _ Hd),
      (get_stripped_field _ _ _ Ht), (get_stripped_field _ _ _ Ha).
    cbn [bind]. destruct (render _ _ _ _); reflexivity.
Qed.

Definition sample_record : record :=
  <[ "source"%string := Some (py " Journal A ") ]>
    (<[ "doi"%string := Some (py "10.1234/a") ]>
       (<[ "title"%string := Some (py "Article A") ]> ∅)).

Lemma create_markdown_content_strips_witness :
  exists content,
    create_markdown_content (fun _ _ _ _ => Raise TemplateError) sample_record
    = Ok content.
Proof.
  destruct (create_markdown_content_strips
              (fun _ _ _ _ => Raise TemplateError) sample_record
              (py " Journal A ") (py "10.1234/a") (py "Article A") [])
    as (s & d & t & a & F & _ & _ & _ & _ & _ & _ & H);
    [reflexivity | reflexivity | reflexivity | reflexivity |].
  eexists. exact H.
Defined.

End CsvToMdFacts.

Module ConfigFacts.
Import Config.

#[export] Instance value_eq_dec : EqDecision value.
Proof. solve_decision. Defined.

(** **** The YAML round trip *)

(** A key without space, line feed or U+0085. *)
Definition plain_key (k : string) : bool :=
  forallb (fun c => negb (Ascii.eqb c " " || is_break c)) (list_ascii_of_string k).

Lemma fold_breaks_no_nel s : forall in_run,
  existsb (Ascii.eqb NEL) s = false -> fold_breaks in_run s = s.
Proof.
  induction s as [| c t IH]; intros in_run H; [reflexivity |].
  cbn [existsb] in H. apply orb_false_iff in H as [Hc Ht].
  cbn [fold_breaks]. unfold is_break.
  rewrite (Ascii.eqb_sym c NEL), Hc, orb_false_r.
  destruct (Ascii.eqb_spec c LF) as [-> | _].
  - rewrite (IH true Ht). destruct in_run; reflexivity.
  - rewrite (IH false Ht). reflexivity.
Qed.

(** A text without U+0085 is read back as it was written. *)
Lemma yaml_str_no_nel s : existsb (Ascii.eqb NEL) s = false -> yaml_str s = s.
Proof.
  intros H. unfold yaml_str.
  destruct (single_quoted_multiline s); [apply fold_breaks_no_nel; exact H |].
  reflexivity.
Qed.

Definition blank (c : ascii) : bool := Ascii.eqb c " " || is_break c.

(** What is read back from a folded text holds a space or a line feed. *)
Lemma fold_breaks_blank s : forall in_run,
  existsb is_break s = true -> existsb blank (fold_breaks in_run s) = true.
Proof.
  induction s as [| c t IH]; intros in_run H; [discriminate |].
  cbn [fold_breaks]. cbn [existsb] in H.
  destruct (is_break c) eqn:Hc.
  - rewrite existsb_app. destruct in_run; [reflexivity |].
    destruct (Ascii.eqb c LF); [reflexivity |].
    destruct t as [| d t']; [reflexivity |].
    destruct (is_break d) eqn:Hd; [| reflexivity].
    cbn [existsb orb]. cbn [fold_breaks]. rewrite Hd. reflexivity.
  - cbn [orb] in H. cbn [existsb]. rewrite (IH false H). apply orb_true_r.
Qed.

Lemma plain_key_no_blank k :
  plain_key k = true -> existsb blank (list_ascii_of_string k) = false.
Proof.
  unfold plain_key, blank. generalize (list_ascii_of_string k).
  intros s. induction s as [| c t IH]; [reflexivity |].
  cbn [forallb existsb]. intros H. apply andb_true_iff in H as [Hc Ht].
  apply negb_true_iff in Hc. rewrite Hc, (IH Ht). reflexivity.
Qed.

Lemma no_blank_no_break s : existsb blank s = false -> existsb is_break s = false.
Proof.
  induction s as [| c t IH]; [reflexivity |]. cbn [existsb]. unfold blank at 1.
  intros H. apply orb_false_iff in H as [Hc Ht].
  apply orb_false_iff in Hc as [_ Hc]. rewrite Hc, (IH Ht). reflexivity.
Qed.

Lemma yaml_key_plain k : plain_key k = true -> yaml_key k = k.
Proof.
  intros H. unfold yaml_key, yaml_str, single_quoted_multiline.
  rewrite (no_blank_no_break _ (plain_key_no_blank k H)). cbn [andb].
  apply string_of_list_ascii_of_string.
Qed.

(** No other key is read back as a plain key. *)
Lemma yaml_key_onto_plain k' k :
  yaml_key k' = k -> plain_key k = true -> k' = k.
Proof.
  intros Hk Hp. unfold yaml_key, yaml_str in Hk.
  destruct (single_quoted_multiline (list_ascii_of_string k')) eqn:Hq.
  - exfalso. unfold single_quoted_multiline in Hq.
    apply andb_true_iff in Hq as [Hq _]. apply andb_true_iff in Hq as [Hb _].
    pose proof (fold_breaks_blank _ false Hb) as Hblank.
    apply plain_key_no_blank in Hp. rewrite <- Hk in Hp.
    rewrite list_ascii_of_string_of_list_ascii in Hp. congruence.
  - rewrite string_of_list_ascii_of_string in Hk. exact Hk.
Qed.

Lemma insert_item_perm x l : insert_item x l ≡ₚ x :: l.
Proof.
  induction l as [| y l IH]; [reflexivity |]. cbn [insert_item].
  destruct (String.leb (fst x) (fst y)); [reflexivity |].
  rewrite IH. apply Permutation_swap.
Qed.

Lemma sorted_items_perm m : sorted_items m ≡ₚ map_to_list m.
Proof.
  unfold sorted_items. induction (map_to_list m) as [| x l IH]; [reflexivity |].
  cbn [foldr]. rewrite insert_item_perm, IH. reflexivity.
Qed.

Lemma sorted_items_elem m k v : (k, v) ∈ sorted_items m <-> m !! k = Some v.
Proof. rewrite sorted_items_perm. apply elem_of_map_to_list. Qed.

Lemma yaml_fold_lookup_plain l k : forall acc : config,
  plain_key k = true ->
  (exists v, (k, v) ∈ l
             /\ fold_left (fun acc kv => <[yaml_key (fst kv) := yaml_value (snd kv)]> acc)
                  l acc !! k = Some (yaml_value v))
  \/ ((forall v, (k, v) ∉ l)
      /\ fold_left (fun acc kv => <[yaml_key (fst kv) := yaml_value (snd kv)]> acc)
           l acc !! k = acc !! k).
Proof.
  induction l as [| [k0 v0] l IH]; intros acc Hp.
  - right. split; [intros v Hv; inversion Hv | reflexivity].
  - cbn [fold_left fst snd].
    destruct (IH (<[yaml_key k0 := yaml_value v0]> acc) Hp)
      as [(v & Hin & Hl) | [Hnot Hl]].
    + left. exists v. split; [right; exact Hin | exact Hl].
    + destruct (decide (yaml_key k0 = k)) as [Hk | Hk].
      * left. exists v0. apply yaml_key_onto_plain in Hk as Hk0; [| exact Hp].
        subst k0. split; [left |]. rewrite Hl, Hk. apply lookup_insert_eq.
      * right. split.
        -- intros v Hv. apply elem_of_cons in Hv as [Hv | Hv]; [| exact (Hnot v Hv)].
           injection Hv as -> ->. apply Hk. apply yaml_key_plain. exact Hp.
        -- rewrite Hl. apply lookup_insert_ne. exact Hk.
Qed.

(** A plain key is read back with its value as YAML reads it back. *)
Lemma yaml_mapping_lookup_plain m k :
  plain_key k = true -> yaml_mapping m !! k = yaml_value <$> (m !! k).
Proof.
  intros Hp. unfold yaml_mapping.
  destruct (yaml_fold_lookup_plain (sorted_items m) k ∅ Hp)
    as [(v & Hin & Hl) | [Hnot Hl]].
  - apply sorted_items_elem in Hin. rewrite Hl, Hin. reflexivity.
  - rewrite Hl, lookup_empty. destruct (m !! k) as [v |] eqn:Hm; [| reflexivity].
    exfalso. apply (Hnot v). apply sorted_items_elem. exact Hm.
Qed.

Lemma yaml_value_no_nel v :
  (forall s, v = VStr s -> existsb (Ascii.eqb NEL) s = false) -> yaml_value v = v.
Proof.
  destruct v as [s | b | n |]; try reflexivity.
  intros H. cbn [yaml_value]. rewrite yaml_str_no_nel by (apply H; reflexivity).
  reflexivity.
Qed.

(** The defaults are read back as they are. *)
Lemma yaml_mapping_defaults : yaml_mapping _default_config = _default_config.
Proof.
  apply (bool_decide_eq_true_1 (yaml_mapping _default_config = _default_config)).
  vm_compute. reflexivity.
Qed.

(** The keys with a compiled-in default are the nine supported ones. *)
Lemma default_keys :
  dom _default_config
  = ({[ "default_template"; "output_suffix"; "default_output_dir";
        "log_level"; "auto_open_generated"; "preserve_structure";
        "date_format"; "encoding"; "max_filename_length" ]}%string : gset string).
Proof.
  unfold _default_config. cbn [list_to_map foldr uncurry].
  rewrite !dom_insert_L, dom_empty_L. set_solver.
Qed.


(** **** Directories and writes *)

(** No file stands where the directory [p] or a directory above it goes. *)
Definition free (st : store) (p : str) : Prop :=
  (forall a, a ∈ parents p -> files st !! a = None) /\ files st !! p = None.

Lemma free_ext st st' p : files st' = files st -> free st p -> free st' p.
Proof. unfold free. intros ->. auto. Qed.

Lemma mkdir_inv st p r st1 :
  mkdir st p = (r, st1) ->
  files st1 = files st /\ _config_cache st1 = _config_cache st
  /\ templates_dir st1 = templates_dir st
  /\ match r with
     | Ok _ => free st p
               /\ dirs st1 = dirs st ∪ list_to_set (parents p) ∪ {[p]}
     | Raise e =>
         st1 = st
         /\ ((e = OSError /\ exists a, a ∈ parents p /\ is_Some (files st !! a))
             \/ (e = FileExistsError /\ is_Some (files st !! p)))
     end.
Proof.
  unfold mkdir, free.
  destruct (existsb _ (parents p)) eqn:Hex.
  - intros [= <- <-]. repeat split; try reflexivity. left. split; [reflexivity |].
    apply existsb_exists in Hex as (a & Ha & Hf).
    exists a. split; [apply list_elem_of_In; exact Ha |].
    apply bool_decide_eq_true in Hf. exact Hf.
  - destruct (files st !! p) as [doc |] eqn:Hp; intros [= <- <-].
    + repeat split; try reflexivity. right. split; [reflexivity | eauto].
    + cbn [files _config_cache templates_dir dirs]. repeat split; try reflexivity.
      intros a Ha. apply list_elem_of_In in Ha.
      destruct (files st !! a) as [doc |] eqn:Hfa; [| reflexivity].
      exfalso. assert (existsb (fun a => bool_decide (is_Some (files st !! a)))
                         (parents p) = true); [| congruence].
      apply existsb_exists. exists a. split; [exact Ha |].
      apply bool_decide_eq_true. rewrite Hfa. eauto.
Qed.

Lemma mkdir_free st p :
  free st p ->
  mkdir st p
  = (Ok tt, mkStore (files st) (_config_cache st) (templates_dir st)
              (dirs st ∪ list_to_set (parents p) ∪ {[p]})).
Proof.
  intros [Hpar Hp]. unfold mkdir.
  assert (Hex : existsb (fun a => bool_decide (is_Some (files st !! a))) (parents p)
                = false).
  { destruct (existsb _ (parents p)) eqn:Hex; [| reflexivity].
    apply existsb_exists in Hex as (a & Ha & Hf).
    apply bool_decide_eq_true in Hf. apply list_elem_of_In in Ha.
    rewrite (Hpar a Ha) in Hf. destruct Hf; discriminate. }
  rewrite Hex, Hp. reflexivity.
Qed.

Lemma write_and_invalidate_inv st cfg r st1 :
  write_and_invalidate st cfg = (r, st1) ->
  templates_dir st1 = templates_dir st
  /\ match r with
     | Ok _ => free st config_dir
               /\ files st1 = <[config_file := Mapping (yaml_mapping cfg)]> (files st)
               /\ _config_cache st1 = None
               /\ dirs st1 = dirs st ∪ list_to_set (parents config_dir) ∪ {[config_dir]}
     | Raise _ => st1 = st
     end.
Proof.
  unfold write_and_invalidate, _write_config.
  destruct (mkdir st config_dir) as [[[] | e] st0] eqn:Hm;
    apply mkdir_inv in Hm as (Hf & Hc & Ht & Hr); intros [= <- <-].
  - destruct Hr as [Hfree Hd].
    cbn [invalidate files _config_cache templates_dir dirs]. rewrite Hf.
    repeat split; try assumption; apply Hfree.
  - destruct Hr as [-> _]. split; reflexivity.
Qed.

Lemma write_and_invalidate_free st cfg :
  free st config_dir ->
  write_and_invalidate st cfg
  = (Ok tt,
     mkStore (<[config_file := Mapping (yaml_mapping cfg)]> (files st)) None
       (templates_dir st)
       (dirs st ∪ list_to_set (parents config_dir) ∪ {[config_dir]})).
Proof.
  intros Hfree. unfold write_and_invalidate, _write_config.
  rewrite (mkdir_free st config_dir Hfree). reflexivity.
Qed.

(** What is read after a write that returned. *)
Lemma get_config_after_write st cfg st1 :
  write_and_invalidate st cfg = (Ok tt, st1) ->
  fst (get_config st1) = Ok (dict_update _default_config (yaml_mapping cfg)).
Proof.
  intros H. apply write_and_invalidate_inv in H as (_ & _ & Hf & Hc & _).
  unfold get_config. rewrite Hc, Hf, lookup_insert_eq. reflexivity.
Qed.

(** **** The cache *)

(** The mapping the persisted document holds, if it can be read. *)
Definition persisted (st : store) : option config :=
  match files st !! config_file with
  | Some (Mapping m) => Some m
  | Some EmptyDocument => Some ∅
  | _ => None
  end.

(** The cache, when filled, is the defaults overlaid with the persisted
    document: what [get_config] stored, no write having happened since. *)
Definition coherent (st : store) : Prop :=
  match _config_cache st with
  | None => True
  | Some c =>
      match persisted st with
      | Some m => c = dict_update _default_config m
      | None => False
      end
  end.

(** Nothing cached and a persisted document that cannot be used: it does
    not parse, or it parses to a value that [dict.update] refuses, or its
    bytes are no UTF-8 text.  [e] is the exception raised then. *)
Definition unreadable (st : store) (e : exn) : Prop :=
  _config_cache st = None
  /\ ((e = YAMLError /\ exists raw, files st !! config_file = Some (Malformed raw))
      \/ (exists r, e = exn_of_refusal r
                    /\ files st !! config_file = Some (NotMapping r))
      \/ (e = ValueError /\ files st !! config_file = Some Undecodable)).

(** Persisted value, else compiled-in default, else caller fallback. *)
Definition effective_value (st : store) (key : string) (fallback : value) : value :=
  match persisted st ≫= (fun m => m !! key) with
  | Some v => v
  | None =>
      match _default_config !! key with
      | Some d => d
      | None => fallback
      end
  end.

Lemma dict_get_update m key fb :
  dict_get (dict_update _default_config m) key fb
  = match m !! key with
    | Some v => v
    | None => match _default_config !! key with Some d => d | None => fb end
    end.
Proof.
  unfold dict_get, dict_update. rewrite lookup_union.
  destruct (m !! key), (_default_config !! key); reflexivity.
Qed.

(** **** The invariant holds from construction on. *)

Lemma coherent_ext st st' :
  files st' = files st -> _config_cache st' = _config_cache st ->
  coherent st -> coherent st'.
Proof. unfold coherent, persisted. intros -> ->. auto. Qed.

Lemma coherent_no_cache st : _config_cache st = None -> coherent st.
Proof. unfold coherent. intros ->. exact I. Qed.

Lemma coherent_new project fs : coherent (new_manager project fs).
Proof. exact I. Qed.

Lemma coherent_invalidate st : coherent (invalidate st).
Proof. exact I. Qed.

Lemma coherent_get_config st : coherent st -> coherent (snd (get_config st)).
Proof.
  unfold get_config. destruct (_config_cache st) as [c |] eqn:Hc; [auto |].
  intros _. destruct (files st !! config_file) as [[raw | | m | r |] |] eqn:Hf;
    cbn [snd]; unfold coherent, persisted; cbn [_config_cache files];
    rewrite ?Hc, ?Hf; auto.
Qed.

Lemma coherent_get_config_value st key fb :
  coherent st -> coherent (snd (get_config_value st key fb)).
Proof.
  intros H. apply coherent_get_config in H. unfold get_config_value.
  destruct (get_config st) as [[cfg | []] st1]; exact H.
Qed.

Lemma coherent_mkdir st p : coherent st -> coherent (snd (mkdir st p)).
Proof.
  intros H. destruct (mkdir st p) as [r st1] eqn:Hm.
  apply mkdir_inv in Hm as (Hf & Hc & _). cbn [snd].
  exact (coherent_ext st st1 Hf Hc H).
Qed.

Lemma coherent_write_and_invalidate st cfg :
  coherent st -> coherent (snd (write_and_invalidate st cfg)).
Proof.
  intros H. destruct (write_and_invalidate st cfg) as [[[] | e] st1] eqn:Hw;
    apply write_and_invalidate_inv in Hw as (_ & Hr); cbn [snd].
  - apply coherent_no_cache. apply Hr.
  - subst st1. exact H.
Qed.

Lemma coherent_set_config st key v :
  coherent st -> coherent (snd (set_config st key v)).
Proof.
  intros H. apply coherent_get_config in H. unfold set_config.
  destruct (get_config st) as [[cfg | []] st1]; cbn [snd] in *;
    first [exact H | apply coherent_write_and_invalidate; exact H].
Qed.

Lemma coherent_init_config st force :
  coherent st -> coherent (snd (init_config st force)).
Proof.
  intros H. unfold init_config.
  destruct (bool_decide _ && negb force); [exact H |].
  pose proof (coherent_mkdir st config_dir H) as H1.
  destruct (mkdir st config_dir) as [[[] | e] st1]; cbn [snd] in *; [| exact H1].
  pose proof (coherent_mkdir st1 (templates_dir st1) H1) as H2.
  destruct (mkdir st1 (templates_dir st1)) as [[[] | e] st2]; cbn [snd] in *;
    [| exact H2].
  pose proof (coherent_mkdir st2 logs_dir H2) as H3.
  destruct (mkdir st2 logs_dir) as [[[] | e] st3]; cbn [snd] in *; [| exact H3].
  pose proof (coherent_write_and_invalidate st3 _default_config H3) as H4.
  destruct (write_and_invalidate st3 _default_config) as [[[] | e] st4];
    exact H4.
Qed.

Lemma coherent_reset_config st : coherent st -> coherent (snd (reset_config st)).
Proof. apply coherent_write_and_invalidate. Qed.

Lemma backup_path_fresh now :
  config_dir ++ py "/config_backup_" ++ now ++ py ".yaml" <> config_file.
Proof.
  unfold config_file. intros H. apply app_inv_head in H.
  cbn in H. discriminate.
Qed.

Lemma coherent_backup_config st now :
  coherent st -> coherent (snd (backup_config st now)).
Proof.
  intros H. unfold backup_config.
  destruct (files st !! config_file) as [doc |] eqn:Hf; [| exact H].
  cbn [snd]. unfold coherent, persisted in *. cbn [_config_cache files].
  rewrite lookup_insert_ne by apply backup_path_fresh. exact H.
Qed.

Lemma coherent_restore_config st backup_file now :
  coherent st -> coherent (snd (restore_config st backup_file now)).
Proof.
  intros H. unfold restore_config.
  set (st1 := match files st !! config_file with
              | Some _ => snd (backup_config st now)
              | None => st
              end).
  assert (H1 : coherent st1).
  { unfold st1. destruct (files st !! config_file);
      [apply coherent_backup_config; exact H | exact H]. }
  destruct (files st !! backup_file) as [[raw | | m | r |] |]; cbn [snd];
    try exact H;
    destruct (files st1 !! backup_file); cbn [snd]; first [exact I | exact H1].
Qed.

(** **** Reading values *)

(** A store whose persisted document does not parse. *)
Definition broken_store : store :=
  new_manager false {[ config_file := Malformed (py "invalid: yaml: content: [") ]}.

(** C3, as stated: [get_config_value] never raises, whatever the
    persisted document holds.  It fails on a document that does not
    parse: the parse error is not the [FileNotFoundError] the function
    catches. *)
Lemma get_config_value_raises_on_malformed :
  coherent broken_store
  /\ get_config_value broken_store "default_template" VNone
     = (Raise YAMLError, broken_store)
  /\ ~ (exists v st', get_config_value broken_store "default_template" VNone
                      = (Ok v, st')).
Proof.
  assert (H : get_config_value broken_store "default_template" VNone
              = (Raise YAMLError, broken_store)).
  { unfold get_config_value, get_config, broken_store, new_manager.
    cbn [_config_cache files]. rewrite lookup_singleton_eq. reflexivity. }
  split; [exact I |]. split; [exact H |].
  intros (v & st' & Hv). rewrite H in Hv. discriminate.
Qed.

(** C3, amended: in every state of the store, [get_config_value] fails
    only when nothing is cached and the persisted document cannot be
    used: it does not parse, or it parses to a value that is neither
    falsy nor a mapping, or its bytes are no UTF-8 text.  Then it raises
    the parse error, the error of [dict.update] or the decoding error,
    and changes nothing.  In every other state it returns and leaves the
    files as they are.  What it returns is read from the cached
    configuration when there is one; and when the cache, if filled, is
    the defaults overlaid with the persisted document, this is the
    persisted value if present, else the compiled-in default, else the
    caller fallback. *)
Theorem get_config_value_spec :
  forall st key fallback,
    (forall e, unreadable st e ->
               get_config_value st key fallback = (Raise e, st))
    /\ ((forall e, ~ unreadable st e) ->
        exists v st',
          get_config_value st key fallback = (Ok v, st')
          /\ files st' = files st
          /\ (forall c, _config_cache st = Some c -> v = dict_get c key fallback)
          /\ (coherent st -> v = effective_value st key fallback)).
Proof.
  intros st key fb. unfold get_config_value, get_config, unreadable,
    effective_value, coherent, persisted in *.
  destruct (_config_cache st) as [c |] eqn:Hc.
  - split; [intros e [Hn _]; discriminate |]. intros _.
    exists (dict_get c key fb), st. split; [reflexivity |].
    split; [reflexivity |]. split; [intros c' [= <-]; reflexivity |].
    intros Hco.
    destruct (files st !! config_file) as [[raw | | m | r |] |]; try contradiction;
      subst c; rewrite dict_get_update; reflexivity.
  - destruct (files st !! config_file) as [[raw | | m | r |] |] eqn:Hf.
    + split.
      * intros e [_ [[-> _] | [(r & _ & Hr) | [_ Hr]]]];
          [reflexivity | discriminate | discriminate].
      * intros Hn. exfalso. apply (Hn YAMLError). split; [reflexivity |].
        left. eauto.
    + split.
      * intros e [_ [[_ [raw Hr]] | [(r & _ & Hr) | [_ Hr]]]]; discriminate.
      * intros _. do 2 eexists. split; [reflexivity |].
        split; [reflexivity |]. split; [intros c [=] |].
        intros _. rewrite dict_get_update. reflexivity.
    + split.
      * intros e [_ [[_ [raw Hr]] | [(r & _ & Hr) | [_ Hr]]]]; discriminate.
      * intros _. do 2 eexists. split; [reflexivity |].
        split; [reflexivity |]. split; [intros c [=] |].
        intros _. rewrite dict_get_update. reflexivity.
    + split.
      * intros e [_ [[_ [raw Hr]] | [(r' & -> & [= <-]) | [_ Hr]]]];
          [discriminate | | discriminate].
        destruct r; reflexivity.
      * intros Hn. exfalso. apply (Hn (exn_of_refusal r)).
        split; [reflexivity |]. right. left. eauto.
    + split.
      * intros e [_ [[_ [raw Hr]] | [(r & _ & Hr) | [-> _]]]];
          [discriminate | discriminate | reflexivity].
      * intros Hn. exfalso. apply (Hn ValueError). split; [reflexivity |].
        right. right. split; reflexivity.
    + split.
      * intros e [_ [[_ [raw Hr]] | [(r & _ & Hr) | [_ Hr]]]]; discriminate.
      * intros _. exists (dict_get _default_config key fb), st.
        split; [reflexivity |]. split; [reflexivity |].
        split; [intros c [=] |]. intros _.
        unfold dict_get. cbn [mbind option_bind].
        destruct (_default_config !! key); reflexivity.
Qed.

Lemma get_config_value_spec_witness :
  exists st',
    get_config_value (new_manager false ∅) "max_filename_length" VNone
    = (Ok (VInt 100), st').
Proof.
  destruct (get_config_value_spec (new_manager false ∅) "max_filename_length" VNone)
    as [_ H].
  destruct H as (v & st' & H & _ & _ & Hv).
  - intros e [_ [[_ [raw Hraw]] | [(r & _ & Hr) | [_ Hr]]]];
      cbn in *; rewrite lookup_empty in *; discriminate.
  - exists st'. rewrite H, (Hv I). reflexivity.
Defined.

(** **** Defaults and writes *)







(** **** Restore *)

(** C7: when the backup does not parse, [restore_config] raises the
    [ValueError] of a malformed document and returns the store as it
    found it: no file written, no backup made, the cache kept. *)
Theorem restore_malformed_untouched :
  forall st backup_file now raw,
    files st !! backup_file = Some (Malformed raw) ->
    restore_config st backup_file now = (Raise ValueError, st).
Proof.
  intros st backup_file now raw Hb. unfold restore_config. rewrite Hb.
  reflexivity.
Qed.

Definition store_with_bad_backup : store :=
  new_manager false
    (<[ py "invalid.yaml" := Malformed (py "invalid: yaml: content: [") ]>
       {[ config_file := Mapping _default_config ]}).

Lemma restore_malformed_untouched_witness :
  restore_config store_with_bad_backup (py "invalid.yaml") (py "20250101_120000")
  = (Raise ValueError, store_with_bad_backup).
Proof.
  apply (restore_malformed_untouched _ _ _ (py "invalid: yaml: content: [")).
  unfold store_with_bad_backup, new_manager. cbn [files].
  apply lookup_insert_eq.
Defined.

(** A backup that parses replaces the configuration, after the current
    one has been copied aside under the time-stamped name. *)
Lemma restore_config_replaces st backup_file now doc cur :
  files st !! backup_file = Some doc ->
  (forall raw, doc <> Malformed raw) ->
  doc <> Undecodable ->
  files st !! config_file = Some cur ->
  backup_file <> config_dir ++ py "/config_backup_" ++ now ++ py ".yaml" ->
  exists st',
    restore_config st backup_file now = (Ok tt, st')
    /\ files st' !! config_file = Some doc
    /\ files st' !! (config_dir ++ py "/config_backup_" ++ now ++ py ".yaml")
       = Some cur
    /\ _config_cache st' = None.
Proof.
  intros Hb Hdoc Hdec Hc Hne. unfold restore_config. rewrite Hb, Hc.
  unfold backup_config. rewrite Hc. cbn [snd files _config_cache].
  rewrite lookup_insert_ne by congruence. rewrite Hb.
  destruct doc as [raw | | m | r |];
    [exfalso; eapply Hdoc; reflexivity | | | | contradiction];
    (eexists; split; [reflexivity |]; cbn [invalidate files _config_cache];
     split; [apply lookup_insert_eq |]; split; [| reflexivity];
     rewrite lookup_insert_ne by (apply not_eq_sym, backup_path_fresh);
     apply lookup_insert_eq).
Qed.

End ConfigFacts.

Module FileHandlerFacts.
Import Config FileHandler PyFacts ConfigFacts.

(** *** The sanitizer, block by block *)

Definition is_invalid (c : ascii) : bool := existsb (Ascii.eqb c) invalid_chars.

(** A character the first two blocks leave alone. *)
Definition clean_char (c : ascii) : Prop :=
  is_invalid c = false /\ isspace c = false.

Definition sanitize_char (c : ascii) : ascii :=
  fold_left (fun a char => if Ascii.eqb a char then "_"%char else a)
    invalid_chars c.

Lemma fold_replace_char_map (x : ascii) (chars : str) : forall s,
  fold_left (fun cleaned char => replace_char char x cleaned) chars s
  = map (fun c => fold_left (fun a char => if Ascii.eqb a char then x else a)
                    chars c) s.
Proof.
  induction chars as [| ch chars IH]; intros s; cbn [fold_left].
  - symmetry. apply map_id.
  - rewrite IH. unfold replace_char. rewrite map_map. reflexivity.
Qed.

Lemma replace_invalid_map s : replace_invalid s = map sanitize_char s.
Proof. apply fold_replace_char_map. Qed.

Lemma sanitize_char_valid c : is_invalid (sanitize_char c) = false.
Proof. destruct c as [[] [] [] [] [] [] [] []]; vm_compute; reflexivity. Qed.

Lemma sanitize_char_id c : is_invalid c = false -> sanitize_char c = c.
Proof.
  destruct c as [[] [] [] [] [] [] [] []]; vm_compute;
    first [reflexivity | discriminate].
Qed.

Lemma replace_invalid_valid s :
  Forall (fun c => is_invalid c = false) (replace_invalid s).
Proof.
  rewrite replace_invalid_map. apply Forall_forall. intros c Hc.
  apply list_elem_of_In, in_map_iff in Hc as (d & <- & _).
  apply sanitize_char_valid.
Qed.

Lemma replace_invalid_id s :
  Forall (fun c => is_invalid c = false) s -> replace_invalid s = s.
Proof.
  intros H. rewrite replace_invalid_map.
  induction H as [| c s Hc Hs IH]; [reflexivity |].
  cbn [map]. rewrite sanitize_char_id, IH by exact Hc. reflexivity.
Qed.

(** The words of [split()] are made of the non-whitespace characters of
    the string. *)
Lemma split_ws_aux_Forall (P : ascii -> Prop) s : forall cur,
  Forall (fun c => P c /\ isspace c = false) cur ->
  Forall P s ->
  Forall (Forall (fun c => P c /\ isspace c = false)) (split_ws_aux cur s).
Proof.
  induction s as [| c s IH]; intros cur Hcur Hs; cbn [split_ws_aux].
  - destruct cur as [| d cur]; [constructor |].
    repeat constructor. apply Forall_rev. exact Hcur.
  - inversion Hs as [| ? ? Hc Hs']; subst.
    destruct (isspace c) eqn:Hsp.
    + destruct cur as [| d cur]; [apply IH; [constructor | exact Hs'] |].
      constructor; [apply Forall_rev; exact Hcur |].
      apply IH; [constructor | exact Hs'].
    + apply IH; [constructor; [split |]; assumption | exact Hs'].
Qed.

Definition singleton_or_nil (s : str) : list str :=
  match s with
  | [] => []
  | _ => [s]
  end.

Lemma split_ws_aux_nonspace s : forall cur,
  Forall (fun c => isspace c = false) s ->
  split_ws_aux cur s = singleton_or_nil (rev cur ++ s).
Proof.
  induction s as [| c s IH]; intros cur Hs; cbn [split_ws_aux].
  - rewrite app_nil_r. destruct cur as [| d cur]; [reflexivity |].
    cbn [rev]. destruct (rev cur); reflexivity.
  - inversion Hs as [| ? ? Hc Hs']; subst. rewrite Hc.
    rewrite IH by exact Hs'. cbn [rev]. rewrite <- app_assoc. reflexivity.
Qed.

Lemma join_Forall (P : ascii -> Prop) sep ws :
  Forall P sep -> Forall (Forall P) ws -> Forall P (join sep ws).
Proof.
  intros Hsep Hws. induction Hws as [| w ws Hw Hws IH]; [constructor |].
  destruct ws as [| w' ws]; [exact Hw |].
  change (join sep (w :: w' :: ws)) with (w ++ sep ++ join sep (w' :: ws)).
  apply Forall_app. split; [exact Hw |].
  apply Forall_app. split; [exact Hsep | exact IH].
Qed.

Lemma collapse_whitespace_clean s :
  Forall (fun c => is_invalid c = false) s ->
  Forall clean_char (collapse_whitespace s).
Proof.
  intros Hs. unfold collapse_whitespace, replace_char.
  apply Forall_forall. intros c Hc.
  apply list_elem_of_In, in_map_iff in Hc as (d & <- & Hd).
  assert (Hj : Forall (fun c => c = " "%char \/ clean_char c)
                 (join (py " ") (split_ws s))).
  { apply join_Forall; [repeat constructor; left; reflexivity |].
    pose proof (split_ws_aux_Forall (fun c => is_invalid c = false) s []
                  ltac:(constructor) Hs) as Hw.
    eapply Forall_impl; [exact Hw |]. intros w Hw'.
    eapply Forall_impl; [exact Hw' |]. intros a Ha. right. exact Ha. }
  rewrite Forall_forall in Hj. apply list_elem_of_In, Hj in Hd.
  destruct (Ascii.eqb_spec d " "%char) as [-> | Hne].
  - split; reflexivity.
  - destruct Hd as [-> | Hd]; [congruence | exact Hd].
Qed.

Lemma collapse_whitespace_id s :
  Forall clean_char s -> collapse_whitespace s = s.
Proof.
  intros Hs. unfold collapse_whitespace, split_ws.
  rewrite split_ws_aux_nonspace
    by (eapply Forall_impl; [exact Hs | intros c [_ Hc]; exact Hc]).
  cbn [rev app].
  assert (Hj : join (py " ") (singleton_or_nil s) = s)
    by (destruct s; reflexivity).
  rewrite Hj. unfold replace_char.
  induction Hs as [| c s [_ Hc] Hs IH]; [reflexivity |].
  cbn [map]. destruct (Ascii.eqb_spec c " "%char) as [-> | _].
  - vm_compute in Hc. discriminate.
  - f_equal. apply IH. destruct s; reflexivity.
Qed.

Lemma clean_char_valid s :
  Forall clean_char s -> Forall (fun c => is_invalid c = false) s.
Proof. intros H. eapply Forall_impl; [exact H | intros c [Hc _]; exact Hc]. Qed.

(** [splitext] cuts the string in two. *)
Lemma splitext_app p : fst (splitext p) ++ snd (splitext p) = p.
Proof.
  unfold splitext. destruct (_ && _); cbn [fst snd].
  - apply take_drop.
  - apply app_nil_r.
Qed.

Lemma slice_to_Forall (P : ascii -> Prop) k s :
  Forall P s -> Forall P (slice_to k s).
Proof.
  intros H. unfold slice_to. destruct (k <? 0); apply Forall_take; exact H.
Qed.

Lemma limit_length_Forall (P : ascii -> Prop) max s :
  Forall P s -> Forall P (limit_length max s).
Proof.
  intros H. unfold limit_length.
  destruct (max <? Z.of_nat (length s)); [| exact H].
  pose proof (splitext_app s) as Happ.
  destruct (splitext s) as [name ext]. cbn [fst snd] in Happ.
  rewrite <- Happ in H. apply Forall_app in H as [Hn He].
  apply Forall_app. split; [apply slice_to_Forall; exact Hn | exact He].
Qed.

(** When the extension fits, truncation brings the name to the maximum
    length exactly. *)
Lemma limit_length_length max s :
  Z.of_nat (length (snd (splitext s))) <= max ->
  Z.of_nat (length (limit_length max s)) <= max.
Proof.
  intros Hext. unfold limit_length.
  destruct (Z.ltb_spec max (Z.of_nat (length s))) as [Hlong | Hshort]; [| lia].
  pose proof (splitext_app s) as Happ.
  destruct (splitext s) as [name ext]. cbn [fst snd] in *.
  rewrite length_app. unfold slice_to.
  destruct (Z.ltb_spec (max - Z.of_nat (length ext)) 0); [lia |].
  rewrite length_take. lia.
Qed.

Lemma limit_length_short max s :
  Z.of_nat (length s) <= max -> limit_length max s = s.
Proof.
  intros H. unfold limit_length.
  destruct (Z.ltb_spec max (Z.of_nat (length s))); [lia | reflexivity].
Qed.

Lemma limit_length_suffix max s :
  max < Z.of_nat (length s) ->
  exists kept, limit_length max s = kept ++ snd (splitext s).
Proof.
  intros H. unfold limit_length.
  destruct (Z.ltb_spec max (Z.of_nat (length s))); [| lia].
  destruct (splitext s) as [name ext]. eexists. reflexivity.
Qed.

(** The sanitized name before the length limit. *)
Definition sanitized (filename : str) : str :=
  collapse_whitespace (replace_invalid filename).

Lemma sanitized_clean s : Forall clean_char (sanitized s).
Proof. apply collapse_whitespace_clean, replace_invalid_valid. Qed.

Lemma clean_with_clean max s : Forall clean_char (clean_with max s).
Proof. apply limit_length_Forall, sanitized_clean. Qed.

Lemma clean_with_idempotent max s :
  Z.of_nat (length (snd (splitext (sanitized s)))) <= max ->
  clean_with max (clean_with max s) = clean_with max s.
Proof.
  intros Hext. unfold clean_with at 1.
  pose proof (clean_with_clean max s) as Hc.
  rewrite replace_invalid_id by (apply clean_char_valid; exact Hc).
  rewrite collapse_whitespace_id by exact Hc.
  apply limit_length_short. apply limit_length_length. exact Hext.
Qed.

(** *** Reading the configuration twice *)

Lemma get_config_settled st :
  get_config (snd (get_config st)) = (fst (get_config st), snd (get_config st)).
Proof.
  unfold get_config. destruct (_config_cache st) as [c |] eqn:Hc.
  - cbn [fst snd]. rewrite Hc. reflexivity.
  - destruct (files st !! config_file) as [[raw | | m | r |] |] eqn:Hf;
      cbn [fst snd _config_cache files]; rewrite ?Hc, ?Hf; reflexivity.
Qed.

Lemma get_config_value_snd st key d :
  snd (get_config_value st key d) = snd (get_config st).
Proof.
  unfold get_config_value. destruct (get_config st) as [[cfg | []] st1];
    reflexivity.
Qed.

Lemma get_config_value_settled st key d :
  get_config_value (snd (get_config st)) key d
  = (fst (get_config_value st key d), snd (get_config st)).
Proof.
  unfold get_config_value. rewrite get_config_settled.
  destruct (get_config st) as [[cfg | []] st1]; reflexivity.
Qed.

Lemma clean_filename_snd st s :
  snd (clean_filename st s) = snd (get_config st).
Proof.
  unfold clean_filename.
  pose proof (get_config_value_snd st "max_filename_length" (VInt 100)) as H.
  destruct (get_config_value st _ _) as [[v | e] st1]; exact H.
Qed.

Lemma clean_filename_settled st s :
  clean_filename (snd (get_config st)) s
  = (fst (clean_filename st s), snd (get_config st)).
Proof.
  unfold clean_filename. rewrite get_config_value_settled.
  destruct (get_config_value st _ _) as [[v | e] st1]; reflexivity.
Qed.

Lemma get_config_snd_settled st :
  snd (get_config (snd (get_config st))) = snd (get_config st).
Proof. rewrite get_config_settled. reflexivity. Qed.

Lemma generate_output_filename_snd st f d :
  snd (_generate_output_filename st f d) = snd (get_config st).
Proof.
  unfold _generate_output_filename.
  pose proof (get_config_value_snd st "output_suffix" (VStr (py "_extraccion"))) as H1.
  destruct (get_config_value st _ _) as [[suffix | e] st1]; cbn [snd] in H1;
    [| exact H1].
  pose proof (clean_filename_snd st1 (stem f)) as H2.
  destruct (clean_filename st1 (stem f)) as [[cb | e] st2]; cbn [snd] in *;
    rewrite H2, H1; apply get_config_snd_settled.
Qed.

Lemma generate_output_filename_settled st f d :
  _generate_output_filename (snd (get_config st)) f d
  = (fst (_generate_output_filename st f d), snd (get_config st)).
Proof.
  unfold _generate_output_filename. rewrite get_config_value_settled.
  pose proof (get_config_value_snd st "output_suffix" (VStr (py "_extraccion"))) as H1.
  destruct (get_config_value st _ _) as [[suffix | e] st1]; cbn [fst snd] in *;
    [| reflexivity].
  subst st1. rewrite clean_filename_settled.
  destruct (clean_filename (snd (get_config st)) (stem f)) as [[cb | e] st2] eqn:Hcf;
    rewrite clean_filename_settled in Hcf; inversion Hcf as [[Hfst Hsnd]];
    rewrite Hfst; reflexivity.
Qed.

(** *** The sanitizer as called *)

Lemma is_invalid_In c : is_invalid c = false <-> ~ In c invalid_chars.
Proof.
  unfold is_invalid. split.
  - intros H Hin. assert (Ht : existsb (Ascii.eqb c) invalid_chars = true).
    { apply existsb_exists. exists c. split; [exact Hin | apply Ascii.eqb_refl]. }
    congruence.
  - intros H. destruct (existsb (Ascii.eqb c) invalid_chars) eqn:He; [| reflexivity].
    apply existsb_exists in He as (d & Hd & Heq).
    apply Ascii.eqb_eq in Heq. subst d. contradiction.
Qed.

(** C5, as stated: sanitizing a sanitized name returns it unchanged, and a
    truncated name keeps the original extension.  The first fails, under
    the default configuration, on a name whose extension is longer than
    the maximum length: the negative slice bound cuts the name from its
    end, the result is still too long, and a second pass cuts again.  The
    second fails on an extension that holds a character the sanitizer
    replaces: the result ends with the replaced extension. *)
Lemma clean_filename_not_idempotent :
  let st := new_manager false ∅ in
  let s := py "a." ++ repeat "b"%char 120 in
  let r := py "." ++ repeat "b"%char 120 in
  let r' := py "." ++ repeat "b"%char 99 in
  let s2 := repeat "x"%char 120 ++ py ".p?f" in
  let r2 := repeat "x"%char 96 ++ py ".p_f" in
  clean_filename st s = (Ok r, st)
  /\ clean_filename st r = (Ok r', st)
  /\ r <> r'
  /\ clean_filename st s2 = (Ok r2, st)
  /\ snd (splitext s2) = py ".p?f"
  /\ ~ (exists kept, r2 = kept ++ py ".p?f").
Proof.
  cbv zeta. split; [vm_compute; reflexivity |].
  split; [vm_compute; reflexivity |].
  split.
  - intros H. apply (f_equal (@length ascii)) in H. vm_compute in H. discriminate.
  - split; [vm_compute; reflexivity |].
    split; [vm_compute; reflexivity |].
    intros [kept H]. apply (f_equal (@rev ascii)) in H.
    rewrite (rev_app_distr kept) in H. vm_compute in H. discriminate.
Qed.

(** C5, amended: whenever the sanitizer returns a name, with [max] the
    configured maximum length, the name contains none of the nine
    characters of [invalid_chars]; sanitizing it again returns it unchanged provided the
    extension of the sanitized name is not longer than [max]; and when
    the sanitized name is longer than [max], the result ends with the
    extension of the sanitized name. *)
Theorem clean_filename_spec :
  forall st filename r st',
    clean_filename st filename = (Ok r, st') ->
    exists v max,
      get_config_value st "max_filename_length" (VInt 100) = (Ok v, st')
      /\ as_int v = Ok max
      /\ Forall (fun c => ~ In c invalid_chars) r
      /\ (Z.of_nat (length (snd (splitext (sanitized filename)))) <= max ->
          clean_filename st' r = (Ok r, st'))
      /\ (max < Z.of_nat (length (sanitized filename)) ->
          exists kept, r = kept ++ snd (splitext (sanitized filename))).
Proof.
  intros st filename r st' H.
  pose proof (clean_filename_settled st filename) as Hset.
  pose proof (clean_filename_snd st filename) as Hsnd.
  rewrite H in Hset, Hsnd. cbn [fst snd] in Hset, Hsnd. subst st'.
  unfold clean_filename in H.
  destruct (get_config_value st "max_filename_length" (VInt 100))
    as [[v | e] st1] eqn:Hv; [| discriminate].
  injection H as Hr Hst. subst st1.
  destruct (as_int v) as [max | e] eqn:Hmax; [| discriminate].
  cbn [bind] in Hr. injection Hr as <-.
  exists v, max. split; [reflexivity |]. split; [exact Hmax |].
  split; [| split].
  - eapply Forall_impl; [apply (clean_with_clean max filename) |].
    intros c [Hc _]. apply is_invalid_In. exact Hc.
  - intros Hext. pose proof (get_config_value_settled st "max_filename_length" (VInt 100)) as Hv'.
    rewrite Hv in Hv'. cbn [fst] in Hv'.
    unfold clean_filename. rewrite Hv', Hmax. cbn [bind].
    rewrite clean_with_idempotent by exact Hext. reflexivity.
  - intros Hlong. apply limit_length_suffix. exact Hlong.
Qed.

Lemma clean_filename_spec_witness :
  clean_filename (new_manager false ∅) (py "archivo con espacios.pdf")
  = (Ok (py "archivo_con_espacios.pdf"), new_manager false ∅)
  /\ clean_filename (new_manager false ∅) (py "archivo_con_espacios.pdf")
     = (Ok (py "archivo_con_espacios.pdf"), new_manager false ∅).
Proof.
  assert (H : clean_filename (new_manager false ∅) (py "archivo con espacios.pdf")
              = (Ok (py "archivo_con_espacios.pdf"), new_manager false ∅))
    by (vm_compute; reflexivity).
  split; [exact H |].
  destruct (clean_filename_spec _ _ _ _ H) as (v & max & Hv & Hmax & _ & Hidem & _).
  apply Hidem.
  assert (Hv' : get_config_value (new_manager false ∅) "max_filename_length" (VInt 100)
                = (Ok (VInt 100), new_manager false ∅)) by (vm_compute; reflexivity).
  rewrite Hv' in Hv. injection Hv as <-. injection Hmax as <-.
  vm_compute. discriminate.
Defined.

(** *** Processed state *)

Lemma generate_output_filename_shape st f d p st' :
  _generate_output_filename st f d = (Ok p, st') ->
  exists suffix base st1,
    get_config_value st "output_suffix" (VStr (py "_extraccion")) = (Ok suffix, st1)
    /\ clean_filename st1 (stem f) = (Ok base, st')
    /\ p = mkPath d (base ++ format_value suffix ++ py ".md").
Proof.
  unfold _generate_output_filename. intros H.
  destruct (get_config_value st _ _) as [[suffix | e] st1]; [| discriminate].
  destruct (clean_filename st1 (stem f)) as [[base | e] st2] eqn:Hc;
    [| discriminate].
  injection H as <- <-. exists suffix, base, st1.
  split; [reflexivity |]. split; [exact Hc | reflexivity].
Qed.

Lemma is_processed_unfold w f :
  is_processed w f
  = match _generate_output_filename (config_manager w) f (parent f) with
    | (Ok p, st1) =>
        (Ok (bool_decide (is_Some (disk w !! p))), mkWorld st1 (disk w))
    | (Raise e, st1) => (Raise e, mkWorld st1 (disk w))
    end.
Proof. reflexivity. Qed.

(** The name of the output does not depend on the directory asked for. *)
Lemma generate_output_filename_dir st f d d' p :
  fst (_generate_output_filename st f d) = Ok p ->
  fst (_generate_output_filename st f d') = Ok (mkPath d' (name p)).
Proof.
  unfold _generate_output_filename.
  destruct (get_config_value st _ _) as [[suffix | e] st1]; [| discriminate].
  destruct (clean_filename st1 (stem f)) as [[base | e] st2]; [| discriminate].
  cbn [fst]. intros [= <-]. reflexivity.
Qed.

Lemma generate_output_filename_parent st f d p :
  fst (_generate_output_filename st f d) = Ok p -> parent p = d.
Proof.
  unfold _generate_output_filename.
  destruct (get_config_value st _ _) as [[suffix | e] st1]; [| discriminate].
  destruct (clean_filename st1 (stem f)) as [[base | e] st2]; [| discriminate].
  cbn [fst]. intros [= <-]. reflexivity.
Qed.

Lemma resolve_output_dir_snd is_absolute joinpath st f output_dir :
  snd (resolve_output_dir is_absolute joinpath st f output_dir) = st
  \/ snd (resolve_output_dir is_absolute joinpath st f output_dir)
     = snd (get_config st).
Proof.
  unfold resolve_output_dir. destruct output_dir as [d |]; [left; reflexivity |].
  right.
  pose proof (get_config_value_snd st "default_output_dir" (VStr (py "."))) as H.
  destruct (get_config_value st _ _) as [[[] | e] st1]; exact H.
Qed.

(** Once resolved, naming sees the configuration it would have seen
    before, and leaves the store settled. *)
Lemma generate_output_filename_after_resolve is_absolute joinpath st f output_dir d :
  let st0 := snd (resolve_output_dir is_absolute joinpath st f output_dir) in
  fst (_generate_output_filename st0 f d) = fst (_generate_output_filename st f d)
  /\ snd (_generate_output_filename st0 f d) = snd (get_config st).
Proof.
  cbv zeta.
  destruct (resolve_output_dir_snd is_absolute joinpath st f output_dir) as [-> | ->].
  - split; [reflexivity | apply generate_output_filename_snd].
  - rewrite generate_output_filename_settled. split; reflexivity.
Qed.

Lemma generate_extraction_file_inv render is_absolute joinpath
    w f output_dir template force p w1 :
  generate_extraction_file render is_absolute joinpath w f output_dir template force
  = (Ok p, w1) ->
  fst (_generate_output_filename (config_manager w) f (parent p)) = Ok p
  /\ (force = false -> disk w !! p = None)
  /\ exists content,
      w1 = mkWorld (snd (get_config (config_manager w)))
             (<[p := content]> (disk w)).
Proof.
  unfold generate_extraction_file. intros H.
  destruct (negb (FileHandler.exists_ w f)); [discriminate |].
  pose proof (generate_output_filename_after_resolve is_absolute joinpath
                (config_manager w) f output_dir) as Hres.
  cbv zeta in Hres.
  destruct (resolve_output_dir is_absolute joinpath (config_manager w) f output_dir)
    as [[dir | e] st0]; [| discriminate].
  cbn [snd] in Hres. destruct (Hres dir) as [Hfst Hsnd].
  destruct (_generate_output_filename st0 f dir)
    as [[output_file | e] st1] eqn:Hg; [| discriminate].
  cbn [fst snd] in *. subst st1.
  destruct (FileHandler.exists_ w output_file && negb force) eqn:Hex;
    [discriminate |].
  remember (snd (get_config (config_manager w))) as st' eqn:Hst'.
  destruct (match template with
            | Some t => (Ok t, st')
            | None => get_config_value st' "default_template" (VStr (py "default"))
            end) as [tn st2] eqn:Ht.
  assert (Hst2 : st2 = st').
  { destruct template as [t |]; [congruence |].
    rewrite Hst', get_config_value_settled in Ht. congruence. }
  subst st2.
  destruct (bind tn (fun t => render t f)) as [content | e]; [| discriminate].
  injection H as <- <-.
  split.
  { symmetry in Hfst.
    rewrite (generate_output_filename_parent _ _ _ _ Hfst). exact Hfst. }
  split; [| eauto].
  intros ->. unfold FileHandler.exists_ in Hex. rewrite andb_true_r in Hex.
  apply bool_decide_eq_false in Hex.
  destruct (disk w !! output_file); [exfalso; apply Hex; eauto | reflexivity].
Qed.

(** C4: [is_processed] answers whether the file named by the sanitized
    stem, the configured suffix and .md exists in the PDF's own
    directory.  A generation into that directory that succeeds without
    [force] found no such file (the answer was false); right after it the
    answer is true; once the generated file is removed it is false
    again. *)
Theorem is_processed_roundtrip :
  (forall w f p st1,
      _generate_output_filename (config_manager w) f (parent f) = (Ok p, st1) ->
      (exists suffix base st0,
          get_config_value (config_manager w) "output_suffix"
            (VStr (py "_extraccion")) = (Ok suffix, st0)
          /\ clean_filename st0 (stem f) = (Ok base, st1)
          /\ p = mkPath (parent f) (base ++ format_value suffix ++ py ".md"))
      /\ exists b,
          fst (is_processed w f) = Ok b
          /\ (b = true <-> is_Some (disk w !! p)))
  /\ (forall render is_absolute joinpath w f output_dir template force p w1,
        generate_extraction_file render is_absolute joinpath
          w f output_dir template force = (Ok p, w1) ->
        parent p = parent f ->
        (force = false -> fst (is_processed w f) = Ok false)
        /\ is_processed w1 f = (Ok true, w1)
        /\ is_processed (unlink w1 p) f = (Ok false, unlink w1 p)).
Proof.
  split.
  - intros w f p st1 Hg. split; [eapply generate_output_filename_shape; exact Hg |].
    rewrite is_processed_unfold, Hg. cbn [fst]. eexists. split; [reflexivity |].
    apply bool_decide_eq_true.
  - intros render is_absolute joinpath w f output_dir template force p w1 Hgen Hdir.
    apply generate_extraction_file_inv in Hgen as (Hp & Hnone & content & ->).
    rewrite Hdir in Hp.
    pose proof (generate_output_filename_settled (config_manager w) f (parent f)) as Hset.
    rewrite Hp in Hset.
    split; [| split].
    + intros Hf. rewrite is_processed_unfold.
      destruct (_generate_output_filename (config_manager w) f (parent f))
        as [[q | e] st1]; cbn [fst] in Hp; [| discriminate].
      injection Hp as ->. cbn [fst]. rewrite (Hnone Hf). reflexivity.
    + rewrite is_processed_unfold. cbn [config_manager disk]. rewrite Hset.
      rewrite lookup_insert_eq. reflexivity.
    + rewrite is_processed_unfold. unfold unlink. cbn [config_manager disk].
      rewrite Hset. rewrite lookup_delete_eq. reflexivity.
Qed.

Definition sample_pdf : path := mkPath (py "/tmp") (py "test.pdf").

Definition sample_world : world :=
  mkWorld (new_manager false ∅) {[ sample_pdf := py "%PDF-1.4" ]}.

Lemma is_processed_roundtrip_witness :
  fst (is_processed sample_world sample_pdf) = Ok false
  /\ exists w1,
      generate_extraction_file (fun _ _ => Ok (py "# note"))
        (fun _ => false) (fun base _ => base)
        sample_world sample_pdf None None false
      = (Ok (mkPath (py "/tmp") (py "test_extraccion.md")), w1)
      /\ is_processed w1 sample_pdf = (Ok true, w1)
      /\ is_processed (unlink w1 (mkPath (py "/tmp") (py "test_extraccion.md")))
           sample_pdf
         = (Ok false, unlink w1 (mkPath (py "/tmp") (py "test_extraccion.md"))).
Proof.
  destruct is_processed_roundtrip as [_ Hround].
  destruct (generate_extraction_file (fun _ _ => Ok (py "# note"))
              (fun _ => false) (fun base _ => base)
              sample_world sample_pdf None None false)
    as [r w1] eqn:Hgen.
  assert (Hr : r = Ok (mkPath (py "/tmp") (py "test_extraccion.md"))).
  { apply (f_equal fst) in Hgen. cbn [fst] in Hgen. rewrite <- Hgen.
    vm_compute. reflexivity. }
  subst r.
  destruct (Hround _ _ _ _ _ _ _ _ _ _ Hgen eq_refl) as (Hbefore & Hafter & Hdel).
  split; [apply Hbefore; reflexivity |].
  exists w1. repeat split; assumption.
Defined.

End FileHandlerFacts.

(* ===================================================================== *)
(** * Part III: further properties of the modelled code                    *)
(* ===================================================================== *)

(** ** adn/utils/config.py: the store as a whole *)
Module ConfigProps.
Import Config ConfigFacts.

Lemma dict_update_lookup m key :
  dict_update _default_config m !! key
  = match m !! key with
    | Some v => Some v
    | None => _default_config !! key
    end.
Proof.
  unfold dict_update. rewrite lookup_union.
  destruct (m !! key), (_default_config !! key); reflexivity.
Qed.

(** Writing the defaults over the defaults changes nothing. *)
Lemma dict_update_defaults :
  dict_update _default_config _default_config = _default_config.
Proof.
  apply map_eq. intros key. rewrite dict_update_lookup.
  destruct (_default_config !! key); reflexivity.
Qed.

Lemma dict_update_empty : dict_update _default_config ∅ = _default_config.
Proof.
  apply map_eq. intros key. rewrite dict_update_lookup, lookup_empty.
  reflexivity.
Qed.

(** What [get_config] returns in a coherent store that can be read. *)
Lemma get_config_ok_inv st cfg st' :
  coherent st -> get_config st = (Ok cfg, st') ->
  exists m, persisted st = Some m
            /\ cfg = dict_update _default_config m
            /\ st' = mkStore (files st) (Some cfg) (templates_dir st) (dirs st).
Proof.
  unfold get_config, coherent, persisted. intros Hco H.
  destruct st as [fs cache td ds]. cbn [files _config_cache templates_dir dirs] in *.
  destruct cache as [c |].
  - injection H as <- <-.
    destruct (fs !! config_file) as [[raw | | m | r |] |]; try contradiction;
      eexists; (split; [reflexivity |]); split; assumption || reflexivity.
  - destruct (fs !! config_file) as [[raw | | m | r |] |]; try discriminate;
      injection H as <- <-; eexists; repeat split; reflexivity.
Qed.

(** Reading never changes a file. *)
Lemma get_config_files st : files (snd (get_config st)) = files st.
Proof.
  unfold get_config. destruct (_config_cache st); [reflexivity |].
  destruct (files st !! config_file) as [[] |]; reflexivity.
Qed.

(** X1: the cache invariant.  A fresh manager is coherent and every
    operation of the manager keeps it so, whether it returns or raises: a
    filled cache is always the defaults overlaid with the persisted
    document. *)
Theorem store_invariant_preserved :
  (forall project fs, coherent (new_manager project fs))
  /\ forall st,
      coherent st ->
      (forall force, coherent (snd (init_config st force)))
      /\ coherent (snd (get_config st))
      /\ (forall key v, coherent (snd (set_config st key v)))
      /\ (forall key d, coherent (snd (get_config_value st key d)))
      /\ coherent (snd (reset_config st))
      /\ (forall now, coherent (snd (backup_config st now)))
      /\ (forall backup_file now,
             coherent (snd (restore_config st backup_file now))).
Proof.
  split; [exact coherent_new |]. intros st H.
  split; [intros; apply coherent_init_config; exact H |].
  split; [apply coherent_get_config; exact H |].
  split; [intros; apply coherent_set_config; exact H |].
  split; [intros; apply coherent_get_config_value; exact H |].
  split; [apply coherent_reset_config; exact H |].
  split; [intros; apply coherent_backup_config; exact H |].
  intros; apply coherent_restore_config; exact H.
Qed.

Lemma store_invariant_preserved_witness :
  coherent (snd (set_config
                   (snd (get_config (snd (init_config (new_manager false ∅) false))))
                   "log_level" (VStr (py "DEBUG")))).
Proof.
  destruct store_invariant_preserved as [Hnew Hstep].
  destruct (Hstep (new_manager false ∅) (Hnew false ∅)) as (Hinit & _).
  destruct (Hstep _ (Hinit false)) as (_ & Hget & _).
  destruct (Hstep _ Hget) as (_ & _ & Hset & _).
  apply Hset.
Defined.

(** **** Initialisation *)

(** What [init_config] has done when it returns. *)
Lemma init_config_ok_inv st force p st' :
  init_config st force = (Ok p, st') ->
  p = config_file
  /\ (force = true \/ files st !! config_file = None)
  /\ free st config_dir /\ free st (templates_dir st) /\ free st logs_dir
  /\ files st' = <[config_file := Mapping _default_config]> (files st)
  /\ _config_cache st' = None
  /\ dirs st ⊆ dirs st'
  /\ config_dir ∈ dirs st' /\ templates_dir st ∈ dirs st' /\ logs_dir ∈ dirs st'.
Proof.
  unfold init_config. intros H.
  destruct (bool_decide (is_Some (files st !! config_file)) && negb force) eqn:Hex;
    [discriminate |].
  assert (Hcase : force = true \/ files st !! config_file = None).
  { destruct force; [left; reflexivity | right].
    rewrite andb_true_r in Hex. apply bool_decide_eq_false in Hex.
    destruct (files st !! config_file); [exfalso; apply Hex; eauto | reflexivity]. }
  destruct (mkdir st config_dir) as [[[] | e] st1] eqn:H1; [| discriminate].
  apply mkdir_inv in H1 as (Hf1 & Hc1 & Ht1 & Hp1 & Hd1).
  destruct (mkdir st1 (templates_dir st1)) as [[[] | e] st2] eqn:H2; [| discriminate].
  apply mkdir_inv in H2 as (Hf2 & Hc2 & Ht2 & Hp2 & Hd2).
  destruct (mkdir st2 logs_dir) as [[[] | e] st3] eqn:H3; [| discriminate].
  apply mkdir_inv in H3 as (Hf3 & Hc3 & Ht3 & Hp3 & Hd3).
  destruct (write_and_invalidate st3 _default_config) as [[[] | e] st4] eqn:H4;
    [| discriminate].
  apply write_and_invalidate_inv in H4 as (Ht4 & _ & Hf4 & Hc4 & Hd4).
  injection H as <- <-.
  rewrite yaml_mapping_defaults in Hf4.
  rewrite Ht1 in Hp2, Hd2.
  split; [reflexivity |]. split; [exact Hcase |]. split; [exact Hp1 |].
  split; [apply (free_ext st1 st _ (eq_sym Hf1)); exact Hp2 |].
  split; [apply (free_ext st2 st); [congruence | exact Hp3] |].
  split; [congruence |]. split; [exact Hc4 |].
  rewrite Hd4, Hd3, Hd2, Hd1. repeat split; set_unfold; tauto.
Qed.

(** X2: initialisation.  Without [force] an existing configuration makes
    [init_config] raise [FileExistsError] and nothing changes.  When it
    returns, the configuration file holds the defaults, the cache is
    empty, the configuration read next is exactly the defaults, and the
    configuration, templates and logs directories have been made;
    [reset_config] would have written the same configuration file.  It
    returns whenever it is forced or finds no configuration, and no file
    stands where one of these directories goes; a file in the place of
    the configuration directory makes even a forced call raise
    [FileExistsError]. *)
Theorem init_config_behaviour :
  (forall st doc,
      files st !! config_file = Some doc ->
      init_config st false = (Raise FileExistsError, st))
  /\ (forall st force p st',
        init_config st force = (Ok p, st') ->
        p = config_file
        /\ files st' = <[config_file := Mapping _default_config]> (files st)
        /\ _config_cache st' = None
        /\ fst (get_config st') = Ok _default_config
        /\ config_dir ∈ dirs st' /\ templates_dir st ∈ dirs st'
        /\ logs_dir ∈ dirs st' /\ dirs st ⊆ dirs st'
        /\ exists st'', reset_config st = (Ok tt, st'')
                        /\ files st'' = files st' /\ _config_cache st'' = None)
  /\ (forall st force,
        force = true \/ files st !! config_file = None ->
        free st config_dir -> free st (templates_dir st) -> free st logs_dir ->
        exists st', init_config st force = (Ok config_file, st'))
  /\ (forall st doc,
        files st !! py "~" = None ->
        files st !! config_dir = Some doc ->
        init_config st true = (Raise FileExistsError, st)).
Proof.
  split; [| split; [| split]].
  - intros st doc Hf. unfold init_config.
    rewrite bool_decide_eq_true_2 by (rewrite Hf; eauto). reflexivity.
  - intros st force p st' H.
    apply init_config_ok_inv in H
      as (-> & _ & Hfree & _ & _ & Hf & Hc & Hsub & Hd1 & Hd2 & Hd3).
    split; [reflexivity |]. split; [exact Hf |]. split; [exact Hc |].
    split.
    { unfold get_config. rewrite Hc, Hf, lookup_insert_eq. cbn [fst].
      rewrite dict_update_defaults. reflexivity. }
    do 4 (split; [assumption |]).
    unfold reset_config. rewrite (write_and_invalidate_free st _ Hfree).
    eexists. split; [reflexivity |]. cbn [files _config_cache].
    rewrite yaml_mapping_defaults, Hf. split; reflexivity.
  - intros st force Hcase H1 H2 H3. unfold init_config.
    assert (Hex : bool_decide (is_Some (files st !! config_file)) && negb force
                  = false).
    { destruct Hcase as [-> | Hn]; [apply andb_false_r |].
      rewrite Hn. rewrite bool_decide_eq_false_2 by (intros [x Hx]; discriminate).
      reflexivity. }
    rewrite Hex, (mkdir_free st config_dir H1). cbn [templates_dir].
    rewrite (mkdir_free _ (templates_dir st))
      by (apply (free_ext st); [reflexivity | exact H2]).
    rewrite (mkdir_free _ logs_dir)
      by (apply (free_ext st); [reflexivity | exact H3]).
    rewrite write_and_invalidate_free
      by (apply (free_ext st); [reflexivity | exact H1]).
    eexists. reflexivity.
  - intros st doc Hhome Hdir. unfold init_config. rewrite andb_false_r.
    unfold mkdir. change (parents config_dir) with [py "~"].
    cbn [existsb]. rewrite Hhome.
    rewrite bool_decide_eq_false_2 by (intros [x Hx]; discriminate).
    cbn [orb]. rewrite Hdir. reflexivity.
Qed.

Lemma init_config_behaviour_witness :
  (exists st',
      init_config (new_manager false ∅) false = (Ok config_file, st')
      /\ fst (get_config st') = Ok _default_config
      /\ user_templates ∈ dirs st'
      /\ init_config st' false = (Raise FileExistsError, st'))
  /\ init_config (new_manager true {[ config_dir := EmptyDocument ]}) true
     = (Raise FileExistsError, new_manager true {[ config_dir := EmptyDocument ]}).
Proof.
  destruct init_config_behaviour as (Hrefuse & Hok & Hfree & Hblocked). split.
  - destruct (Hfree (new_manager false ∅) false) as [st' Hinit];
      try (split; [intros a _ |]; apply lookup_empty).
    { right. apply lookup_empty. }
    exists st'. split; [exact Hinit |].
    destruct (Hok _ _ _ _ Hinit) as (_ & Hf & _ & Hget & _ & Ht & _).
    split; [exact Hget |]. split; [exact Ht |].
    apply (Hrefuse st' (Mapping _default_config)).
    rewrite Hf. apply lookup_insert_eq.
  - apply (Hblocked _ EmptyDocument).
    + cbn [new_manager files]. apply lookup_singleton_ne. discriminate.
    + cbn [new_manager files]. apply lookup_singleton_eq.
Defined.

(** X3: the effective configuration.  In a coherent store, what
    [get_config] returns holds every persisted key with its persisted
    value (known or not) and every other default key with its default;
    it leaves the files alone, and a second call returns the same mapping
    without changing the store. *)
Theorem get_config_overlay :
  forall st cfg st',
    coherent st ->
    get_config st = (Ok cfg, st') ->
    (exists m,
        persisted st = Some m
        /\ forall key,
            cfg !! key = match m !! key with
                         | Some v => Some v
                         | None => _default_config !! key
                         end)
    /\ (forall key d, _default_config !! key = Some d -> is_Some (cfg !! key))
    /\ files st' = files st
    /\ get_config st' = (Ok cfg, st').
Proof.
  intros st cfg st' Hco Hg.
  destruct (get_config_ok_inv st cfg st' Hco Hg) as (m & Hm & -> & ->).
  split; [exists m; split; [exact Hm | intros key; apply dict_update_lookup] |].
  split.
  - intros key d Hd. rewrite dict_update_lookup, Hd.
    destruct (m !! key); eauto.
  - split; reflexivity.
Qed.

Lemma get_config_overlay_witness :
  exists cfg st',
    get_config
      (new_manager false {[ config_file := Mapping {[ "extra"%string := VInt 7 ]} ]})
    = (Ok cfg, st')
    /\ cfg !! "extra"%string = Some (VInt 7)
    /\ is_Some (cfg !! "encoding"%string).
Proof.
  set (st := new_manager false
               {[ config_file := Mapping {[ "extra"%string := VInt 7 ]} ]}).
  destruct (get_config st) as [[cfg | e] st'] eqn:Hg;
    [| unfold get_config, st, new_manager in Hg; cbn [_config_cache files] in Hg;
       rewrite lookup_singleton_eq in Hg; discriminate].
  destruct (get_config_overlay st cfg st' I Hg) as ((m & Hm & Hlook) & Hdef & _).
  exists cfg, st'. split; [reflexivity |].
  assert (m = {[ "extra"%string := VInt 7 ]}) as ->.
  { unfold persisted, st, new_manager in Hm. cbn [files] in Hm.
    rewrite lookup_singleton_eq in Hm. congruence. }
  split.
  - rewrite Hlook. reflexivity.
  - apply (Hdef "encoding"%string (VStr (py "utf-8"))). reflexivity.
Defined.

(** **** Writing a value *)

(** Reading a value right after a write of [cfg]. *)
Lemma get_config_value_after_write st cfg st1 key d :
  write_and_invalidate st cfg = (Ok tt, st1) ->
  fst (get_config_value st1 key d)
  = Ok (dict_get (dict_update _default_config (yaml_mapping cfg)) key d).
Proof.
  intros H. apply get_config_after_write in H. unfold get_config_value.
  destruct (get_config st1) as [r st2]. cbn [fst] in H. subst r. reflexivity.
Qed.

(** The configuration [set_config] starts from, and the write it makes. *)
Lemma set_config_ok_inv st key v st1 :
  coherent st ->
  set_config st key v = (Ok tt, st1) ->
  exists cfg st0,
    write_and_invalidate st0 (<[key := v]> cfg) = (Ok tt, st1)
    /\ files st0 = files st
    /\ (forall k d, fst (get_config_value st k d) = Ok (dict_get cfg k d))
    /\ (forall k d, _default_config !! k = Some d -> is_Some (cfg !! k)).
Proof.
  intros Hco Hset. unfold set_config in Hset.
  pose proof (get_config_files st) as Hfiles.
  destruct (get_config st) as [[cfg | e] st0] eqn:Hg; cbn [snd] in Hfiles.
  - exists cfg, st0. split; [exact Hset |]. split; [exact Hfiles |].
    split; [intros k d; unfold get_config_value; rewrite Hg; reflexivity |].
    destruct (get_config_ok_inv st cfg st0 Hco Hg) as (m & _ & -> & _).
    intros k d Hd. rewrite dict_update_lookup, Hd. destruct (m !! k); eauto.
  - destruct e; try discriminate.
    exists _default_config, st0. split; [exact Hset |]. split; [exact Hfiles |].
    split; [intros k d; unfold get_config_value; rewrite Hg; reflexivity |].
    intros k d Hd. eauto.
Qed.

(** X4: [set_config] touches one key and one file.  In a coherent store,
    once [set_config key v] has returned, a [key] without space, line
    feed or U+0085 reads as what YAML reads back of [v] ([v] itself
    unless it is a text with U+0085); every other such key whose value
    YAML reads back unchanged reads as it did before; and no file but the
    configuration file has changed. *)
Theorem set_config_other_keys :
  forall st key v st1,
    coherent st ->
    set_config st key v = (Ok tt, st1) ->
    (plain_key key = true ->
     forall d, fst (get_config_value st1 key d) = Ok (yaml_value v))
    /\ (plain_key key = true ->
        (forall s, v = VStr s -> existsb (Ascii.eqb NEL) s = false) ->
        forall d, fst (get_config_value st1 key d) = Ok v)
    /\ (forall key' d x,
           key' <> key ->
           plain_key key' = true ->
           fst (get_config_value st key' d) = Ok x ->
           yaml_value x = x ->
           fst (get_config_value st1 key' d) = Ok x)
    /\ (forall p, p <> config_file -> files st1 !! p = files st !! p).
Proof.
  intros st key v st1 Hco Hset.
  destruct (set_config_ok_inv st key v st1 Hco Hset)
    as (cfg & st0 & Hw & Hfiles & Hbefore & Hsup).
  assert (Hkey : plain_key key = true ->
                 forall d, fst (get_config_value st1 key d) = Ok (yaml_value v)).
  { intros Hp d. rewrite (get_config_value_after_write _ _ _ _ _ Hw).
    unfold dict_get. rewrite dict_update_lookup.
    rewrite yaml_mapping_lookup_plain by exact Hp.
    rewrite lookup_insert_eq. reflexivity. }
  split; [exact Hkey |]. split; [| split].
  - intros Hp Hv d. rewrite (Hkey Hp d), (yaml_value_no_nel v Hv). reflexivity.
  - intros key' d x Hne Hp Hx Hstable.
    rewrite Hbefore in Hx. injection Hx as Hx.
    rewrite (get_config_value_after_write _ _ _ _ _ Hw). f_equal.
    unfold dict_get in *. rewrite dict_update_lookup.
    rewrite yaml_mapping_lookup_plain by exact Hp.
    rewrite lookup_insert_ne by congruence.
    destruct (cfg !! key') as [y |] eqn:Hy; cbn [fmap option_fmap option_map].
    + subst y. exact Hstable.
    + destruct (_default_config !! key') as [d0 |] eqn:Hd0; [| exact Hx].
      destruct (Hsup key' d0 Hd0) as [y Hy']. congruence.
  - intros p Hp. apply write_and_invalidate_inv in Hw as (_ & _ & Hf & _).
    rewrite Hf, Hfiles. apply lookup_insert_ne. congruence.
Qed.

Lemma set_config_other_keys_witness :
  fst (get_config_value
         (snd (set_config (new_manager false ∅) "log_level" (VStr (py "DEBUG"))))
         "encoding" VNone)
  = Ok (VStr (py "utf-8")).
Proof.
  destruct (set_config (new_manager false ∅) "log_level" (VStr (py "DEBUG")))
    as [r st1] eqn:Hset.
  assert (Hr : r = Ok tt).
  { apply (f_equal fst) in Hset. cbn [fst] in Hset. rewrite <- Hset.
    vm_compute. reflexivity. }
  subst r.
  destruct (set_config_other_keys (new_manager false ∅) _ _ _ I Hset)
    as (_ & _ & Hother & _).
  cbn [snd]. apply Hother; [discriminate | reflexivity | reflexivity | reflexivity].
Defined.

(** **** Backup and restore *)

Definition backup_path (now : str) : str :=
  config_dir ++ py "/config_backup_" ++ now ++ py ".yaml".

Lemma backup_path_inj now1 now2 : backup_path now1 = backup_path now2 -> now1 = now2.
Proof.
  unfold backup_path. intros H.
  apply app_inv_head in H. apply app_inv_head in H.
  apply app_inv_tail in H. exact H.
Qed.

Lemma backup_path_not_config now : backup_path now <> config_file.
Proof. apply backup_path_fresh. Qed.

(** The store after a backup followed by a successful [set_config]. *)
Lemma backup_then_set st now b st1 key v st2 :
  coherent st ->
  backup_config st now = (Ok b, st1) ->
  set_config st1 key v = (Ok tt, st2) ->
  exists doc cfg,
    files st !! config_file = Some doc
    /\ (forall raw, doc <> Malformed raw)
    /\ doc <> Undecodable
    /\ b = backup_path now
    /\ files st2 = <[config_file := Mapping cfg]> (<[b := doc]> (files st))
    /\ _config_cache st2 = None
    /\ forall d, fst (get_config_value st2 key d)
                 = Ok (dict_get (dict_update _default_config cfg) key d).
Proof.
  intros Hco Hb Hset. unfold backup_config in Hb.
  destruct (files st !! config_file) as [doc |] eqn:Hf; [| discriminate].
  fold (backup_path now) in Hb.
  assert (Hb' : b = backup_path now
                /\ files st1 = <[backup_path now := doc]> (files st)
                /\ _config_cache st1 = _config_cache st).
  { injection Hb as <- <-. repeat split; reflexivity. }
  destruct Hb' as (-> & Hf1 & Hc1). clear Hb.
  assert (Hcf1 : files st1 !! config_file = Some doc).
  { rewrite Hf1, lookup_insert_ne by apply backup_path_not_config. exact Hf. }
  assert (Hdoc : forall raw, doc <> Malformed raw).
  { intros raw ->. unfold set_config, get_config in Hset.
    unfold coherent, persisted in Hco. rewrite Hf in Hco.
    rewrite Hc1, Hcf1 in Hset.
    destruct (_config_cache st) as [c |]; [contradiction | discriminate]. }
  assert (Hdec : doc <> Undecodable).
  { intros ->. unfold set_config, get_config in Hset.
    unfold coherent, persisted in Hco. rewrite Hf in Hco.
    rewrite Hc1, Hcf1 in Hset.
    destruct (_config_cache st) as [c |]; [contradiction | discriminate]. }
  assert (Hco1 : coherent st1).
  { unfold coherent, persisted in *. rewrite Hc1, Hcf1. rewrite Hf in Hco.
    exact Hco. }
  destruct (set_config_ok_inv st1 key v st2 Hco1 Hset) as (cfg & st0 & Hw & Hf0 & _).
  pose proof (fun d => get_config_value_after_write _ _ _ key d Hw) as Hread.
  apply write_and_invalidate_inv in Hw as (_ & _ & Hf2 & Hc2 & _).
  exists doc, (yaml_mapping (<[key := v]> cfg)).
  repeat split; try assumption. rewrite Hf2, Hf0, Hf1. reflexivity.
Qed.

(** X5: backup, change, restore.  In a coherent store, take a backup, then
    change a value with [set_config], then restore the backup at a later
    clock reading: the restore succeeds, the configuration file is again
    the document it was when the backup was taken, the changed
    configuration has been copied aside under the new time stamp, and the
    cache is empty. *)
Theorem backup_restore_roundtrip :
  forall st now1 now2 b st1 key v st2,
    coherent st ->
    backup_config st now1 = (Ok b, st1) ->
    set_config st1 key v = (Ok tt, st2) ->
    now2 <> now1 ->
    exists st3,
      restore_config st2 b now2 = (Ok tt, st3)
      /\ files st3 !! config_file = files st !! config_file
      /\ files st3 !! backup_path now2 = files st2 !! config_file
      /\ files st3 !! b = files st !! config_file
      /\ _config_cache st3 = None.
Proof.
  intros st now1 now2 b st1 key v st2 Hco Hb Hset Hnow.
  destruct (backup_then_set _ _ _ _ _ _ _ Hco Hb Hset)
    as (doc & cfg & Hf & Hdoc & Hdec & -> & Hfiles & Hcache & _).
  assert (Hne : backup_path now2 <> backup_path now1)
    by (intros H; apply Hnow, backup_path_inj; exact H).
  assert (Hb2 : files st2 !! backup_path now1 = Some doc).
  { rewrite Hfiles, lookup_insert_ne by (apply not_eq_sym, backup_path_not_config).
    apply lookup_insert_eq. }
  assert (Hc2 : files st2 !! config_file = Some (Mapping cfg))
    by (rewrite Hfiles; apply lookup_insert_eq).
  unfold restore_config. rewrite Hb2, Hc2.
  unfold backup_config. rewrite Hc2. cbn [snd files _config_cache].
  fold (backup_path now2).
  rewrite lookup_insert_ne by exact Hne. rewrite Hb2.
  destruct doc as [raw | | m | r |];
    [exfalso; eapply Hdoc; reflexivity | | | | contradiction];
    (eexists; split; [reflexivity |]; cbn [invalidate files _config_cache];
     rewrite Hf;
     split; [apply lookup_insert_eq |];
     split; [rewrite lookup_insert_ne by (apply not_eq_sym, backup_path_not_config);
             apply lookup_insert_eq |];
     split; [| reflexivity];
     rewrite lookup_insert_ne by (apply not_eq_sym, backup_path_not_config);
     rewrite lookup_insert_ne by exact Hne; exact Hb2).
Qed.

Lemma backup_restore_roundtrip_witness :
  let st := snd (init_config (new_manager false ∅) false) in
  let b := backup_path (py "20250101_120000") in
  let st2 := snd (set_config (snd (backup_config st (py "20250101_120000")))
                    "default_template" (VStr (py "modificado"))) in
  exists st3,
    restore_config st2 b (py "20250101_120001") = (Ok tt, st3)
    /\ files st3 !! config_file = files st !! config_file.
Proof.
  cbv zeta.
  set (st := snd (init_config (new_manager false ∅) false)).
  set (st1 := snd (backup_config st (py "20250101_120000"))).
  set (st2 := snd (set_config st1 "default_template" (VStr (py "modificado")))).
  assert (Hb : backup_config st (py "20250101_120000")
               = (Ok (backup_path (py "20250101_120000")), st1)).
  { rewrite (surjective_pairing (backup_config st (py "20250101_120000"))).
    apply (f_equal (fun r => (r, st1))). vm_compute. reflexivity. }
  assert (Hset : set_config st1 "default_template" (VStr (py "modificado"))
                 = (Ok tt, st2)).
  { rewrite (surjective_pairing (set_config st1 _ _)).
    apply (f_equal (fun r => (r, st2))). vm_compute. reflexivity. }
  destruct (backup_restore_roundtrip st (py "20250101_120000") (py "20250101_120001")
              _ _ _ _ _ (coherent_init_config (new_manager false ∅) false I) Hb Hset)
    as (st3 & Hr & Hc & _).
  { intros H. apply (f_equal (@rev ascii)) in H. vm_compute in H. discriminate. }
  exists st3. split; assumption.
Defined.

(** X6: restoring within the clock second of the backup.  The backup that
    [restore_config] takes of the current configuration is named by the
    clock alone; at the clock reading of the backup being restored it
    overwrites that backup before it is read.  The restore then succeeds,
    but the changed configuration stays in place and the backup now holds
    it too: the earlier state is lost, and every key reads as it did
    before the restore. *)
Theorem restore_same_second_keeps_change :
  forall st now b st1 key v st2,
    coherent st ->
    backup_config st now = (Ok b, st1) ->
    set_config st1 key v = (Ok tt, st2) ->
    exists st3,
      restore_config st2 b now = (Ok tt, st3)
      /\ files st3 !! config_file = files st2 !! config_file
      /\ files st3 !! b = files st2 !! config_file
      /\ (forall key' d,
             fst (get_config_value st3 key' d) = fst (get_config_value st2 key' d))
      /\ (plain_key key = true ->
          fst (get_config_value st3 key VNone) = Ok (yaml_value v)).
Proof.
  intros st now b st1 key v st2 Hco Hb Hset.
  assert (Hkey : plain_key key = true ->
                 fst (get_config_value st2 key VNone) = Ok (yaml_value v)).
  { intros Hp.
    assert (Hco1 : coherent st1).
    { pose proof (coherent_backup_config st now Hco) as H. rewrite Hb in H. exact H. }
    destruct (set_config_ok_inv st1 key v st2 Hco1 Hset) as (cfg0 & st0 & Hw & _).
    rewrite (get_config_value_after_write _ _ _ _ _ Hw).
    unfold dict_get. rewrite dict_update_lookup.
    rewrite yaml_mapping_lookup_plain by exact Hp.
    rewrite lookup_insert_eq. reflexivity. }
  destruct (backup_then_set _ _ _ _ _ _ _ Hco Hb Hset)
    as (doc & cfg & Hf & Hdoc & Hdec & -> & Hfiles & Hcache & _).
  assert (Hb2 : files st2 !! backup_path now = Some doc).
  { rewrite Hfiles, lookup_insert_ne by (apply not_eq_sym, backup_path_not_config).
    apply lookup_insert_eq. }
  assert (Hc2 : files st2 !! config_file = Some (Mapping cfg))
    by (rewrite Hfiles; apply lookup_insert_eq).
  assert (Hsame : forall st3,
             files st3 !! config_file = Some (Mapping cfg) ->
             _config_cache st3 = None ->
             forall key' d,
               fst (get_config_value st3 key' d) = fst (get_config_value st2 key' d)).
  { intros st3 Hf3 Hn3 key' d. unfold get_config_value, get_config.
    rewrite Hn3, Hf3, Hcache, Hc2. reflexivity. }
  unfold restore_config. rewrite Hb2, Hc2.
  unfold backup_config. rewrite Hc2. cbn [snd files _config_cache].
  fold (backup_path now). rewrite lookup_insert_eq.
  destruct doc as [raw | | m | r |];
    [exfalso; eapply Hdoc; reflexivity | | | | contradiction];
    (eexists; split; [reflexivity |];
     split; [cbn [invalidate files]; apply lookup_insert_eq |];
     split; [cbn [invalidate files];
             rewrite lookup_insert_ne by (apply not_eq_sym, backup_path_not_config);
             apply lookup_insert_eq |];
     split; [apply Hsame; [cbn [invalidate files]; apply lookup_insert_eq
                          | reflexivity] |];
     intros Hp; rewrite Hsame;
       [exact (Hkey Hp) | cbn [invalidate files]; apply lookup_insert_eq
        | reflexivity]).
Qed.

Lemma restore_same_second_keeps_change_witness :
  let st := snd (init_config (new_manager false ∅) false) in
  let now := py "20250101_120000" in
  let st2 := snd (set_config (snd (backup_config st now))
                    "default_template" (VStr (py "modificado"))) in
  exists st3,
    restore_config st2 (backup_path now) now = (Ok tt, st3)
    /\ fst (get_config_value st3 "default_template" VNone)
       = Ok (VStr (py "modificado")).
Proof.
  cbv zeta.
  set (st := snd (init_config (new_manager false ∅) false)).
  set (st1 := snd (backup_config st (py "20250101_120000"))).
  set (st2 := snd (set_config st1 "default_template" (VStr (py "modificado")))).
  assert (Hb : backup_config st (py "20250101_120000")
               = (Ok (backup_path (py "20250101_120000")), st1)).
  { rewrite (surjective_pairing (backup_config st (py "20250101_120000"))).
    apply (f_equal (fun r => (r, st1))). vm_compute. reflexivity. }
  assert (Hset : set_config st1 "default_template" (VStr (py "modificado"))
                 = (Ok tt, st2)).
  { rewrite (surjective_pairing (set_config st1 _ _)).
    apply (f_equal (fun r => (r, st2))). vm_compute. reflexivity. }
  destruct (restore_same_second_keeps_change st _ _ _ _ _ _
              (coherent_init_config (new_manager false ∅) false I) Hb Hset)
    as (st3 & Hr & _ & _ & _ & Hv).
  exists st3. split; [exact Hr |]. apply Hv. reflexivity.
Defined.

End ConfigProps.

(** ** adn/commands/csv_to_md.py: validation, naming and the row loop *)
Module CsvToMdProps.
Import CsvToMd PyFacts CsvToMdFacts.

(** *** Column validation *)

Lemma check_columns_ok names cols :
  check_columns names = Ok cols ->
  (forall c, c ∈ REQUIRED_COLUMNS -> c ∈ names)
  /\ NoDup cols /\ forall c, c ∈ cols <-> c ∈ names.
Proof.
  unfold check_columns. destruct (decide _) as [He | Hne]; [| discriminate].
  intros [= <-]. split; [| split].
  - intros c Hc. destruct (decide (c ∈ names)) as [Hin | Hnin]; [exact Hin |].
    exfalso. assert (c ∈ REQUIRED_COLUMNS ∖ (list_to_set names : gset string))
      by set_solver.
    rewrite He in H. set_solver.
  - apply NoDup_elements.
  - intros c. rewrite elem_of_elements, elem_of_list_to_set. reflexivity.
Qed.

Lemma check_columns_missing names c :
  c ∈ REQUIRED_COLUMNS -> c ∉ names -> check_columns names = Raise ValueError.
Proof.
  intros Hc Hn. unfold check_columns.
  destruct (decide _) as [He | Hne]; [| reflexivity].
  exfalso. assert (c ∈ REQUIRED_COLUMNS ∖ (list_to_set names : gset string))
    by set_solver.
  rewrite He in H. set_solver.
Qed.

Lemma validate_fallback_ok f encs cols :
  exists_ f = true -> is_file f = true ->
  validate_fallback f encs = Ok cols ->
  exists enc names, fieldnames f enc = Read names /\ check_columns names = Ok cols.
Proof.
  intros He Hf. induction encs as [| enc encs IH]; cbn [validate_fallback];
    [discriminate |].
  unfold opened. rewrite He, Hf. cbn [andb].
  destruct (fieldnames f enc) as [names | |] eqn:Hn; [| exact IH | discriminate].
  intros H. eauto.
Qed.

(** X7: what column validation accepts.  A path that does not exist raises
    [FileNotFoundError], one that is not a file [ValueError].  When
    [validate_csv] returns, the header it read holds all four required
    columns, and the list returned is the header's column names without
    repetition (extra columns included).  A header read under the first
    encoding that lacks a required column raises [ValueError]. *)
Theorem validate_csv_columns :
  (forall f, exists_ f = false -> validate_csv f = Raise FileNotFoundError)
  /\ (forall f, exists_ f = true -> is_file f = false ->
                validate_csv f = Raise ValueError)
  /\ (forall f cols,
         validate_csv f = Ok cols ->
         exists enc names,
           fieldnames f enc = Read names
           /\ (forall c, c ∈ REQUIRED_COLUMNS -> c ∈ names)
           /\ NoDup cols
           /\ forall c, c ∈ cols <-> c ∈ names)
  /\ (forall f names c,
         exists_ f = true -> is_file f = true ->
         fieldnames f Utf8Sig = Read names ->
         c ∈ REQUIRED_COLUMNS -> c ∉ names ->
         validate_csv f = Raise ValueError).
Proof.
  split; [intros f He; unfold validate_csv; rewrite He; reflexivity |].
  split; [intros f He Hf; unfold validate_csv; rewrite He, Hf; reflexivity |].
  split.
  - intros f cols H. unfold validate_csv in H.
    destruct (exists_ f) eqn:He; [| discriminate].
    destruct (is_file f) eqn:Hf; [| discriminate].
    cbn [negb] in H. unfold opened in H. rewrite He, Hf in H. cbn [andb] in H.
    destruct (fieldnames f Utf8Sig) as [names | |] eqn:Hn; [| | discriminate].
    + exists Utf8Sig, names. split; [exact Hn |]. apply check_columns_ok. exact H.
    + apply (validate_fallback_ok f _ cols He Hf) in H as (enc & names & Hr & Hc).
      exists enc, names. split; [exact Hr |]. apply check_columns_ok. exact Hc.
  - intros f names c He Hf Hn Hc Hnin. unfold validate_csv, opened.
    rewrite He, Hf, Hn. cbn. apply (check_columns_missing names c Hc Hnin).
Qed.

Lemma validate_csv_columns_witness :
  validate_csv (mkCsv true true
                  (fun _ => Read ["wrong_column"; "another_column"]%string)
                  (fun _ => Read []))
  = Raise ValueError.
Proof.
  destruct validate_csv_columns as (_ & _ & _ & Hmiss).
  apply (Hmiss _ ["wrong_column"; "another_column"]%string "doi"%string);
    [reflexivity | reflexivity | reflexivity | | ].
  - unfold REQUIRED_COLUMNS. set_solver.
  - intros H. apply list_elem_of_In in H. cbn in H.
    destruct H as [H | [H | []]]; discriminate.
Defined.

(** *** Output names *)

(** Reading a formatted number back. *)
Definition parse_d (s : str) : Z :=
  match s with
  | c :: t => if Ascii.eqb c "-" then - int_of_digits t else int_of_digits s
  | [] => 0
  end.

Lemma parse_d_format n : parse_d (format_d_zero 3 n) = n.
Proof.
  destruct (format_d_zero_shape n) as (zeros & Heq & _ & _ & Hval & Hdig).
  rewrite Heq. destruct (Z.ltb_spec n 0) as [Hneg | Hpos].
  - cbn [py list_ascii_of_string app parse_d]. rewrite Ascii.eqb_refl.
    rewrite Hval, Z.abs_neq by lia. lia.
  - cbn [app]. pose proof (decimal_nonempty (Z.abs n)) as Hne.
    destruct (zeros ++ decimal (Z.abs n)) as [| c t] eqn:Hs.
    + apply (f_equal (@length ascii)) in Hs. rewrite length_app in Hs.
      cbn [length] in Hs. lia.
    + unfold parse_d. inversion Hdig as [| ? ? Hc _]; subst.
      destruct (Ascii.eqb_spec c "-") as [-> | _]; [vm_compute in Hc; discriminate |].
      rewrite Hval. apply Z.abs_eq. exact Hpos.
Qed.

Lemma format_d_zero_inj n m : format_d_zero 3 n = format_d_zero 3 m -> n = m.
Proof.
  intros H. apply (f_equal parse_d) in H. rewrite !parse_d_format in H. exact H.
Qed.

(** X8: distinct rows get distinct files.  The name built for a row
    determines its number: two rows of one run never share an output
    file, whatever the start number. *)
Theorem row_filename_injective :
  forall start i j, row_filename start i = row_filename start j -> i = j.
Proof.
  intros start i j H. unfold row_filename in H. apply app_inv_tail in H.
  apply format_d_zero_inj in H. lia.
Qed.

Lemma row_filename_injective_witness :
  row_filename 998 1 = row_filename 998 (0 + 1) /\ 1%nat = (0 + 1)%nat.
Proof.
  split; [reflexivity |]. apply (row_filename_injective 998). reflexivity.
Defined.

End CsvToMdProps.

(** ** adn/commands/csv_to_md.py: records and the row loop *)
Module CsvRows.
Import CsvToMd PyFacts CsvToMdFacts CsvToMdProps.

Definition required_fields : list string :=
  ["source"; "doi"; "title"; "abstract"]%string.

(** No required field of the row is [None]. *)
Definition well_formed (r : record) : Prop :=
  forall key, key ∈ required_fields -> r !! key <> Some None.

Lemma get_stripped_cases r key :
  (r !! key <> Some None /\ exists s, get_stripped r key = Ok s)
  \/ (r !! key = Some None /\ get_stripped r key = Raise AttributeError).
Proof.
  unfold get_stripped. destruct (r !! key) as [[s |] |].
  - left. split; [discriminate | eauto].
  - right. split; reflexivity.
  - left. split; [discriminate | eauto].
Qed.

Lemma create_markdown_content_cases render r :
  (well_formed r /\ exists c, create_markdown_content render r = Ok c)
  \/ ((exists key, key ∈ required_fields /\ r !! key = Some None)
      /\ create_markdown_content render r = Raise AttributeError).
Proof.
  unfold create_markdown_content.
  destruct (get_stripped_cases r "source") as [[Hs [s ->]] | [Hs ->]];
    [| right; split; [exists "source"%string; split; [set_solver | exact Hs]
                     | reflexivity]].
  destruct (get_stripped_cases r "doi") as [[Hd [d ->]] | [Hd ->]];
    [| right; split; [exists "doi"%string; split; [set_solver | exact Hd]
                     | reflexivity]].
  destruct (get_stripped_cases r "title") as [[Ht [t ->]] | [Ht ->]];
    [| right; split; [exists "title"%string; split; [set_solver | exact Ht]
                     | reflexivity]].
  destruct (get_stripped_cases r "abstract") as [[Ha [a ->]] | [Ha ->]];
    [| right; split; [exists "abstract"%string; split; [set_solver | exact Ha]
                     | reflexivity]].
  left. split.
  - intros key Hk. unfold required_fields in Hk.
    repeat (apply elem_of_cons in Hk as [-> | Hk]; [assumption |]).
    apply elem_of_nil in Hk. contradiction.
  - cbn [bind]. destruct (render _ _ _ _); eauto.
Qed.

(** X9: a note is always built for a row whose required fields are not
    [None]: a template that cannot be rendered is replaced by the
    hardcoded format and never makes the row fail.  The only failure is the
    [AttributeError] of a row with a [None] field (a row shorter than the
    header). *)
Theorem create_markdown_content_total :
  forall render r,
    (well_formed r <-> exists c, create_markdown_content render r = Ok c)
    /\ (forall e, create_markdown_content render r = Raise e ->
                  e = AttributeError
                  /\ exists key, key ∈ required_fields /\ r !! key = Some None).
Proof.
  intros render r.
  destruct (create_markdown_content_cases render r)
    as [[Hwf [c Hc]] | [(key & Hk & Hnone) Hr]].
  - split; [split; eauto |]. intros e He. congruence.
  - split.
    + split.
      * intros Hwf. exfalso. apply (Hwf key Hk Hnone).
      * intros [c Hc]. congruence.
    + intros e He. split; [congruence | eauto].
Qed.

Lemma create_markdown_content_total_witness :
  exists c, create_markdown_content (fun _ _ _ _ => Raise TemplateError)
              sample_record = Ok c.
Proof.
  destruct (create_markdown_content_total (fun _ _ _ _ => Raise TemplateError)
              sample_record) as [[Hok _] _].
  apply Hok. intros key Hk. unfold required_fields in Hk.
  repeat (apply elem_of_cons in Hk as [-> | Hk]; [vm_compute; discriminate |]).
  apply elem_of_nil in Hk. contradiction.
Defined.

(** *** One row *)

Lemma write_text_frame out filename content res out' :
  write_text out filename content = (res, out') ->
  (forall name, name <> filename -> out' !! name = out !! name)
  /\ (forall e, res = Raise e -> out' = out)
  /\ (res = Ok tt -> out' !! filename = Some (File content)).
Proof.
  unfold write_text. intros H.
  destruct (out !! filename) as [[c |] |]; injection H as <- <-;
    (split; [intros name Hn; try reflexivity;
             apply lookup_insert_ne; congruence |]);
    (split; [intros e He; try discriminate; reflexivity |]);
    intros He; try discriminate; apply lookup_insert_eq.
Qed.

Lemma process_row_frame render out start i r res out' :
  process_row render out start i r = (res, out') ->
  (forall name, name <> row_filename start i -> out' !! name = out !! name)
  /\ (forall e, res = Raise e -> out' = out).
Proof.
  unfold process_row. intros H.
  destruct (create_markdown_content render r) as [c | e].
  - apply write_text_frame in H as (Hf & He & _). split; assumption.
  - injection H as <- <-. split; reflexivity.
Qed.

(** *** The loop *)

Lemma process_rows_frame render data : forall out start i k n out',
  process_rows render out start i data k = (n, out') ->
  k <= n <= k + Z.of_nat (length data)
  /\ forall name,
      (forall j, (j < length data)%nat -> name <> row_filename start (i + j)) ->
      out' !! name = out !! name.
Proof.
  induction data as [| r data IH]; intros out start i k n out' H;
    cbn [process_rows] in H.
  - injection H as <- <-. cbn [length]. split; [lia | reflexivity].
  - destruct (process_row render out start i r) as [res out1] eqn:Hrow.
    apply process_row_frame in Hrow as [Hf1 _].
    assert (Hrest : exists k', process_rows render out1 start (S i) data k' = (n, out')
                               /\ k <= k' <= k + 1).
    { destruct res; eexists; (split; [exact H | lia]). }
    destruct Hrest as (k' & Hrest & Hk').
    apply IH in Hrest as [Hn Hf]. cbn [length]. split; [lia |].
    intros name Hname. rewrite Hf.
    + apply Hf1. specialize (Hname 0%nat ltac:(lia)).
      rewrite Nat.add_0_r in Hname. exact Hname.
    + intros j Hj. specialize (Hname (S j) ltac:(lia)).
      rewrite Nat.add_succ_r in Hname. exact Hname.
Qed.

(** X10: what [process_csv] leaves alone.  When it raises, the output
    directory is as it was.  When it returns a count, at least one row
    was read, the count is between 0 and the number of rows, and every
    entry of the output directory whose name is not the numbered name of
    one of the rows is untouched. *)
Theorem process_csv_frame :
  forall render out f start res out',
    process_csv render out f start = (res, out') ->
    match res with
    | Raise _ => out' = out
    | Ok n =>
        exists data,
          read_csv_data f = Ok data
          /\ data <> []
          /\ 0 <= n <= Z.of_nat (length data)
          /\ forall name,
              (forall j, (j < length data)%nat -> name <> row_filename start j) ->
              out' !! name = out !! name
    end.
Proof.
  intros render out f start res out' H. unfold process_csv in H.
  destruct (validate_csv f) as [cols | e]; [| injection H as <- <-; reflexivity].
  destruct (read_csv_data f) as [data | e] eqn:Hr;
    [| injection H as <- <-; reflexivity].
  destruct data as [| r data].
  - unfold read_csv_data in Hr. destruct (read_loop f _); discriminate.
  - destruct (process_rows render out start 0 (r :: data) 0) as [n out1] eqn:Hp.
    injection H as <- <-. exists (r :: data).
    split; [reflexivity |]. split; [discriminate |].
    apply process_rows_frame in Hp as [Hn Hf]. split; [lia | exact Hf].
Qed.

Lemma process_csv_frame_witness :
  snd (process_csv (fun _ _ _ _ => Raise TemplateError) ∅ header_only_csv 1) = ∅.
Proof.
  destruct (process_csv (fun _ _ _ _ => Raise TemplateError) ∅ header_only_csv 1)
    as [res out'] eqn:H.
  pose proof (process_csv_frame _ _ _ _ _ _ H) as Hf.
  destruct res as [n | e]; [| exact Hf].
  destruct Hf as (data & Hr & _). exfalso.
  rewrite read_csv_data_no_rows in Hr by reflexivity. discriminate.
Defined.

(** No entry of the directory is a directory. *)
Definition no_directories (out : gmap str node) : Prop :=
  forall name, out !! name <> Some Directory.

Lemma process_rows_all render data : forall out start i k,
  Forall well_formed data ->
  no_directories out ->
  exists out',
    process_rows render out start i data k = (k + Z.of_nat (length data), out')
    /\ no_directories out'
    /\ forall j r,
        data !! j = Some r ->
        exists c, create_markdown_content render r = Ok c
                  /\ out' !! row_filename start (i + j) = Some (File c).
Proof.
  induction data as [| r data IH]; intros out start i k Hwf Hnd.
  - exists out. cbn [process_rows length]. split; [f_equal; lia |].
    split; [exact Hnd |]. intros j r Hj. rewrite lookup_nil in Hj. discriminate.
  - inversion Hwf as [| ? ? Hr Hrest]; subst.
    destruct (create_markdown_content_cases render r)
      as [[_ [c Hc]] | [(key & Hk & Hnone) _]];
      [| exfalso; apply (Hr key Hk Hnone)].
    cbn [process_rows]. unfold process_row. rewrite Hc. unfold write_text.
    assert (Hw : match out !! row_filename start i with
                 | Some Directory => (Raise OSError, out)
                 | _ => (Ok tt, <[row_filename start i := File c]> out)
                 end = (Ok tt, <[row_filename start i := File c]> out)).
    { specialize (Hnd (row_filename start i)).
      destruct (out !! row_filename start i) as [[] |]; congruence. }
    rewrite Hw.
    assert (Hnd1 : no_directories (<[row_filename start i := File c]> out)).
    { intros name. destruct (decide (name = row_filename start i)) as [-> | Hne].
      - rewrite lookup_insert_eq. discriminate.
      - rewrite lookup_insert_ne by congruence. apply Hnd. }
    destruct (IH (<[row_filename start i := File c]> out) start (S i) (k + 1)
                Hrest Hnd1) as (out' & Hp & Hnd' & Hfiles).
    exists out'. split; [rewrite Hp; cbn [length]; f_equal; lia |].
    split; [exact Hnd' |].
    intros j r' Hj. destruct j as [| j].
    + cbn in Hj. injection Hj as <-. exists c. split; [exact Hc |].
      rewrite Nat.add_0_r.
      destruct (process_rows_frame _ _ _ _ _ _ _ _ Hp) as [_ Hframe].
      rewrite Hframe; [apply lookup_insert_eq |].
      intros j' _ Heq. unfold row_filename in Heq. apply app_inv_tail in Heq.
      apply format_d_zero_inj in Heq. lia.
    + cbn in Hj. destruct (Hfiles j r' Hj) as (c' & Hc' & Hl).
      exists c'. split; [exact Hc' |].
      rewrite Nat.add_succ_r. exact Hl.
Qed.

(** X11: every good row gets its own file.  For a validated CSV whose rows
    all have their required fields, written into a directory that holds
    no sub-directory, [process_csv] returns the number of rows, row [j]
    (from 0) is found in the file named after [start + j] with the note
    built from that row, and no later row has overwritten it. *)
Theorem process_csv_all_rows :
  forall render out f start cols data,
    validate_csv f = Ok cols ->
    read_csv_data f = Ok data ->
    Forall well_formed data ->
    no_directories out ->
    exists out',
      process_csv render out f start = (Ok (Z.of_nat (length data)), out')
      /\ forall j r,
          data !! j = Some r ->
          exists c, create_markdown_content render r = Ok c
                    /\ out' !! row_filename start j = Some (File c).
Proof.
  intros render out f start cols data Hv Hr Hwf Hnd.
  unfold process_csv. rewrite Hv, Hr.
  destruct data as [| r data].
  - unfold read_csv_data in Hr. destruct (read_loop f _); discriminate.
  - destruct (process_rows_all render (r :: data) out start 0%nat 0 Hwf Hnd)
      as (out' & Hp & _ & Hfiles).
    rewrite Hp. exists out'. split; [f_equal; f_equal; lia | exact Hfiles].
Qed.

Definition two_rows_csv : csv_file :=
  mkCsv true true
    (fun _ => Read ["source"; "doi"; "title"; "abstract"]%string)
    (fun _ => Read [sample_record; sample_record]).

Lemma process_csv_all_rows_witness :
  exists out',
    process_csv (fun _ _ _ _ => Raise TemplateError) ∅ two_rows_csv 1
    = (Ok 2, out')
    /\ is_Some (out' !! py "001.md") /\ is_Some (out' !! py "002.md").
Proof.
  assert (Hv : exists cols, validate_csv two_rows_csv = Ok cols).
  { unfold validate_csv, two_rows_csv, opened, check_columns. cbn.
    destruct (decide _) as [_ | Hne]; [eexists; reflexivity |].
    exfalso. apply Hne. unfold REQUIRED_COLUMNS. set_solver. }
  destruct Hv as [cols Hv].
  destruct (process_csv_all_rows (fun _ _ _ _ => Raise TemplateError) ∅
              two_rows_csv 1 cols [sample_record; sample_record] Hv eq_refl)
    as (out' & Hp & Hfiles).
  - repeat constructor; intros key Hk; unfold required_fields in Hk;
      repeat (apply elem_of_cons in Hk as [-> | Hk]; [vm_compute; discriminate |]);
      apply elem_of_nil in Hk; contradiction.
  - intros name. rewrite lookup_empty. discriminate.
  - exists out'. split; [exact Hp |]. split.
    + destruct (Hfiles 0%nat sample_record eq_refl) as (c & _ & Hc).
      change (row_filename 1 0) with (py "001.md") in Hc. eauto.
    + destruct (Hfiles 1%nat sample_record eq_refl) as (c & _ & Hc).
      change (row_filename 1 1) with (py "002.md") in Hc. eauto.
Defined.

End CsvRows.

(** ** adn/utils/file_handler.py: naming and generation *)
Module FileHandlerProps.
Import Config FileHandler PyFacts ConfigFacts FileHandlerFacts.

(** *** The sanitizer never makes a name longer *)

Lemma replace_char_length old new s : length (replace_char old new s) = length s.
Proof. apply length_map. Qed.

Lemma replace_invalid_length s : length (replace_invalid s) = length s.
Proof. rewrite replace_invalid_map. apply length_map. Qed.

Lemma join_space_cons w ws :
  (length (join (py " ") (w :: ws)) <= length w + 1 + length (join (py " ") ws))%nat.
Proof.
  destruct ws as [| w' ws]; [cbn; lia |].
  change (join (py " ") (w :: w' :: ws))
    with (w ++ py " " ++ join (py " ") (w' :: ws)).
  rewrite !length_app. cbn [py list_ascii_of_string length]. lia.
Qed.

Lemma split_ws_aux_join_length s : forall cur,
  (length (join (py " ") (split_ws_aux cur s)) <= length cur + length s)%nat.
Proof.
  induction s as [| c s IH]; intros cur; cbn [split_ws_aux].
  - destruct cur as [| d cur]; [cbn; lia |].
    cbn [join]. rewrite length_rev. cbn [length]. lia.
  - destruct (isspace c).
    + destruct cur as [| d cur].
      * specialize (IH []). cbn [length] in *. lia.
      * pose proof (join_space_cons (rev (d :: cur)) (split_ws_aux [] s)) as Hj.
        specialize (IH []). rewrite length_rev in Hj. cbn [length] in *. lia.
    + specialize (IH (c :: cur)). cbn [length] in *. lia.
Qed.

Lemma collapse_whitespace_length s :
  (length (collapse_whitespace s) <= length s)%nat.
Proof.
  unfold collapse_whitespace, split_ws. rewrite replace_char_length.
  pose proof (split_ws_aux_join_length s []) as H. cbn [length] in H. lia.
Qed.

Lemma slice_to_length k s : (length (slice_to k s) <= length s)%nat.
Proof. unfold slice_to. destruct (k <? 0); rewrite length_take; lia. Qed.

Lemma limit_length_no_longer max s :
  (length (limit_length max s) <= length s)%nat.
Proof.
  unfold limit_length. destruct (max <? Z.of_nat (length s)); [| lia].
  pose proof (splitext_app s) as Happ.
  destruct (splitext s) as [name ext]. cbn [fst snd] in Happ.
  rewrite <- Happ. rewrite !length_app.
  pose proof (slice_to_length (max - Z.of_nat (length ext)) name). lia.
Qed.

Lemma clean_with_no_longer max s : (length (clean_with max s) <= length s)%nat.
Proof.
  unfold clean_with.
  pose proof (limit_length_no_longer max (collapse_whitespace (replace_invalid s))).
  pose proof (collapse_whitespace_length (replace_invalid s)).
  rewrite replace_invalid_length in *. lia.
Qed.

Lemma clean_filename_inv st s r st' :
  clean_filename st s = (Ok r, st') ->
  exists v max,
    get_config_value st "max_filename_length" (VInt 100) = (Ok v, st')
    /\ as_int v = Ok max /\ r = clean_with max s.
Proof.
  unfold clean_filename. intros H.
  destruct (get_config_value st _ _) as [[v | e] st1]; [| discriminate].
  injection H as Hr <-. destruct (as_int v) as [max | e] eqn:Hmax;
    [| discriminate].
  injection Hr as <-. eauto.
Qed.

(** X12: the length of a sanitized name.  Whenever [clean_filename]
    returns, the name is never longer than the one given, and it is at
    most the configured maximum long provided the extension of the
    sanitized name fits in that maximum (100 when nothing is
    configured). *)
Theorem clean_filename_length :
  forall st filename r st',
    clean_filename st filename = (Ok r, st') ->
    (length r <= length filename)%nat
    /\ exists v max,
        get_config_value st "max_filename_length" (VInt 100) = (Ok v, st')
        /\ as_int v = Ok max
        /\ (_config_cache st = None -> files st !! config_file = None ->
            max = 100)
        /\ (Z.of_nat (length (snd (splitext (sanitized filename)))) <= max ->
            Z.of_nat (length r) <= max).
Proof.
  intros st filename r st' H.
  destruct (clean_filename_inv _ _ _ _ H) as (v & max & Hv & Hmax & ->).
  split; [apply clean_with_no_longer |].
  exists v, max. split; [exact Hv |]. split; [exact Hmax |]. split.
  - intros Hc Hf. unfold get_config_value, get_config in Hv.
    rewrite Hc, Hf in Hv. injection Hv as <- _.
    vm_compute in Hmax. congruence.
  - intros Hext. apply limit_length_length. exact Hext.
Qed.

Lemma clean_filename_length_witness :
  exists r,
    fst (clean_filename (new_manager false ∅) (repeat "a"%char 150 ++ py ".pdf")) = Ok r
    /\ Z.of_nat (length r) <= 100.
Proof.
  destruct (clean_filename (new_manager false ∅) (repeat "a"%char 150 ++ py ".pdf"))
    as [res st'] eqn:H.
  assert (Hres : exists r, res = Ok r).
  { apply (f_equal fst) in H. cbn [fst] in H. rewrite <- H.
    eexists. vm_compute. reflexivity. }
  destruct Hres as [r ->]. exists r. split; [reflexivity |].
  destruct (clean_filename_length _ _ _ _ H) as (_ & v & max & _ & _ & Hdef & Hb).
  rewrite (Hdef eq_refl (lookup_empty _)) in Hb. apply Hb.
  vm_compute. discriminate.
Defined.

(** *** What a generation changes *)




(** *** Names that collide *)

Lemma generate_output_filename_same_stem st f1 f2 d :
  sanitized (stem f1) = sanitized (stem f2) ->
  _generate_output_filename st f1 d = _generate_output_filename st f2 d.
Proof.
  intros Hs. unfold _generate_output_filename.
  destruct (get_config_value st _ _) as [[suffix | e] st1]; [| reflexivity].
  unfold clean_filename.
  destruct (get_config_value st1 _ _) as [[v | e] st2]; [| reflexivity].
  destruct (as_int v) as [max | e]; [| reflexivity].
  cbn [bind]. unfold clean_with. fold (sanitized (stem f1)).
  fold (sanitized (stem f2)). rewrite Hs. reflexivity.
Qed.

(** X14: two PDFs, one output.  The output name depends on the PDF only
    through its sanitized stem.  Once a file has been generated into the
    directory of a second PDF whose stem sanitizes to the same name,
    that second PDF is reported as processed although nothing was
    generated for it, and generating for it into that directory without
    [force] raises [FileExistsError]. *)
Theorem sanitized_stem_collision :
  forall render is_absolute joinpath w f1 f2 output_dir template p w1,
    generate_extraction_file render is_absolute joinpath
      w f1 output_dir template false = (Ok p, w1) ->
    parent p = parent f2 ->
    sanitized (stem f1) = sanitized (stem f2) ->
    is_processed w1 f2 = (Ok true, w1)
    /\ (is_Some (disk w1 !! f2) ->
        forall template',
          generate_extraction_file render is_absolute joinpath
            w1 f2 (Some (parent f2)) template' false
          = (Raise FileExistsError, w1)).
Proof.
  intros render is_absolute joinpath w f1 f2 output_dir template p w1 Hgen Hdir Hs.
  apply generate_extraction_file_inv in Hgen as (Hp & _ & content & ->).
  rewrite Hdir in Hp.
  rewrite (generate_output_filename_same_stem _ f1 f2 _ Hs) in Hp.
  pose proof (generate_output_filename_settled (config_manager w) f2 (parent f2)) as Hset.
  rewrite Hp in Hset.
  split.
  - rewrite is_processed_unfold. cbn [config_manager disk]. rewrite Hset.
    rewrite lookup_insert_eq. reflexivity.
  - intros Hex template'. unfold generate_extraction_file.
    unfold FileHandler.exists_ at 1. rewrite (bool_decide_eq_true_2 _ Hex).
    cbn [negb resolve_output_dir config_manager]. rewrite Hset.
    unfold FileHandler.exists_. cbn [disk]. rewrite lookup_insert_eq.
    reflexivity.
Qed.

Definition colliding_world : world :=
  mkWorld (new_manager false ∅)
    (<[ mkPath (py "/tmp") (py "a b.pdf") := py "%PDF-1.4" ]>
       {[ mkPath (py "/tmp") (py "a_b.pdf") := py "%PDF-1.7" ]}).

Lemma sanitized_stem_collision_witness :
  exists w1,
    generate_extraction_file (fun _ _ => Ok (py "# note"))
      (fun _ => false) (fun base _ => base)
      colliding_world (mkPath (py "/tmp") (py "a b.pdf")) None None false
    = (Ok (mkPath (py "/tmp") (py "a_b_extraccion.md")), w1)
    /\ is_processed w1 (mkPath (py "/tmp") (py "a_b.pdf")) = (Ok true, w1).
Proof.
  destruct (generate_extraction_file (fun _ _ => Ok (py "# note"))
              (fun _ => false) (fun base _ => base)
              colliding_world (mkPath (py "/tmp") (py "a b.pdf")) None None false)
    as [r w1] eqn:Hgen.
  assert (Hr : r = Ok (mkPath (py "/tmp") (py "a_b_extraccion.md"))).
  { apply (f_equal fst) in Hgen. cbn [fst] in Hgen. rewrite <- Hgen.
    vm_compute. reflexivity. }
  subst r. exists w1. split; [reflexivity |].
  apply (sanitized_stem_collision _ _ _ _ _ (mkPath (py "/tmp") (py "a_b.pdf"))
           _ _ _ _ Hgen); [reflexivity | vm_compute; reflexivity].
Defined.

End FileHandlerProps.

(** ** adn/utils/file_handler.py: the PDF check, sizes and backups *)
Module FileHandlerFilesProps.
Import FileHandler TemplateEngine PyMore FileHandlerFiles PyFacts
  TemplateEngineFacts.

(** *** The PDF check *)

Lemma startswith_take prefix s n :
  (length prefix <= n)%nat -> startswith prefix (take n s) = startswith prefix s.
Proof.
  intros H. unfold startswith. rewrite take_take.
  replace (length prefix `min` n)%nat with (length prefix) by lia. reflexivity.
Qed.

Lemma startswith_length prefix s :
  startswith prefix s = true -> (length prefix <= length s)%nat.
Proof.
  unfold startswith. intros H. apply bool_decide_eq_true in H.
  apply (f_equal (@length ascii)) in H. rewrite length_take in H. lia.
Qed.

Lemma validators_pdf_check d p :
  Validators.validate_pdf_file d p = Ok (validate_pdf_file d p).
Proof.
  unfold Validators.validate_pdf_file, validate_pdf_file.
  destruct (negb (exists_ d p)); [reflexivity |].
  destruct (negb (is_file d p)) eqn:Hfile; [reflexivity |].
  destruct (negb (bool_decide (lower (suffix p) = py ".pdf"))); [reflexivity |].
  unfold is_file, read_head, read_bytes, st_size in *.
  destruct (d !! p) as [[content [] | n] |]; try discriminate; cbn [bind];
    [| reflexivity].
  rewrite (startswith_take (py "%PDF-") content 8) by (cbn; lia).
  destruct (startswith (py "%PDF-") content) eqn:Hh; cbn [negb]; [| reflexivity].
  apply startswith_length in Hh. cbn [py list_ascii_of_string length] in Hh.
  destruct (Z.eqb_spec (Z.of_nat (length content)) 0); [lia | reflexivity].
Qed.

(** X15: the two PDF checks agree.  [validators.validate_pdf_file] never
    raises and gives the answer of [FileHandler.validate_pdf_file] on
    every path: the size test that only the first one makes never
    decides.  The answer is true exactly for a readable regular file whose
    suffix is .pdf in any letter case and whose bytes start with %PDF-. *)
Theorem validate_pdf_file_agree :
  forall d p,
    Validators.validate_pdf_file d p = Ok (validate_pdf_file d p)
    /\ (validate_pdf_file d p = true <->
        exists content,
          d !! p = Some (Regular content true)
          /\ lower (suffix p) = py ".pdf"
          /\ take 5 content = py "%PDF-").
Proof.
  intros d p. unfold Validators.validate_pdf_file, validate_pdf_file.
  unfold exists_, is_file, read_head, read_bytes, st_size.
  destruct (d !! p) as [[content [] | n] |] eqn:Hp.
  - rewrite bool_decide_eq_true_2 by eauto. cbn [negb bind].
    destruct (bool_decide (lower (suffix p) = py ".pdf")) eqn:Hs; cbn [negb].
    + apply bool_decide_eq_true in Hs.
      rewrite (startswith_take (py "%PDF-") content 8) by (cbn; lia).
      destruct (startswith (py "%PDF-") content) eqn:Hh; cbn [negb].
      * pose proof (startswith_length _ _ Hh) as Hlen.
        cbn [py list_ascii_of_string length] in Hlen.
        destruct (Z.eqb_spec (Z.of_nat (length content)) 0); [lia |].
        split; [reflexivity |]. split; [| reflexivity]. intros _.
        exists content. repeat split; try assumption.
        apply bool_decide_eq_true in Hh. exact Hh.
      * split; [reflexivity |]. split; [discriminate |].
        intros (c & Hc & _ & Ht). injection Hc as <-.
        unfold startswith in Hh. apply bool_decide_eq_false in Hh.
        exfalso. apply Hh. exact Ht.
    + split; [reflexivity |]. split; [discriminate |].
      intros (c & _ & Hl & _). apply bool_decide_eq_false in Hs. contradiction.
  - rewrite bool_decide_eq_true_2 by eauto. cbn [negb bind].
    destruct (bool_decide (lower (suffix p) = py ".pdf")); cbn [negb];
      (split; [reflexivity |]); (split; [discriminate |]);
      intros (c & Hc & _); discriminate.
  - rewrite bool_decide_eq_true_2 by eauto. cbn [negb].
    split; [reflexivity |]. split; [discriminate |].
    intros (c & Hc & _); discriminate.
  - rewrite bool_decide_eq_false_2 by (intros [x Hx]; discriminate). cbn [negb].
    split; [reflexivity |]. split; [discriminate |].
    intros (c & Hc & _); discriminate.
Qed.

Lemma validate_pdf_file_agree_witness :
  Validators.validate_pdf_file
    (<[ mkPath (py "/tmp") (py "notes.txt") := Regular (py "%PDF-1.4") true ]>
       {[ mkPath (py "/tmp") (py "A.PDF") := Regular (py "%PDF-1.7 ...") true ]})
    (mkPath (py "/tmp") (py "A.PDF"))
  = Ok true.
Proof.
  destruct (validate_pdf_file_agree
              (<[ mkPath (py "/tmp") (py "notes.txt") := Regular (py "%PDF-1.4") true ]>
                 {[ mkPath (py "/tmp") (py "A.PDF")
                    := Regular (py "%PDF-1.7 ...") true ]})
              (mkPath (py "/tmp") (py "A.PDF"))) as [Heq Hiff].
  rewrite Heq. apply (f_equal Ok). apply Hiff. exists (py "%PDF-1.7 ...").
  split; [reflexivity |]. split; vm_compute; reflexivity.
Defined.

(** *** Sizes *)

Definition size_unit_index (n : Z) : nat :=
  if n <? 1024 then 0%nat
  else if n <? 1024 ^ 2 then 1%nat
  else if n <? 1024 ^ 3 then 2%nat
  else if n <? 1024 ^ 4 then 3%nat
  else if n <? 1024 ^ 5 then 4%nat
  else 5%nat.

Lemma get_file_size_loop_cons u us size :
  get_file_size_loop (u :: us) size
  = if num_lt_1024 size
    then bind (num_format_1f size) (fun s => Ok (s ++ py " " ++ u))
    else bind (num_div_1024 size) (fun size' => get_file_size_loop us size').
Proof. reflexivity. Qed.

(** What [get_file_size] computes on a size: as the filter does, with one
    more unit. *)
Lemma get_file_size_loop_int n :
  get_file_size_loop size_units (NInt n)
  = bind (float_of_int n)
      (fun x => Ok (format_1f (scale (size_unit_index n) x)
                      ++ py " " ++ nth (size_unit_index n)
                                     (size_units ++ [py "PB"]) [])).
Proof.
  unfold size_unit_index, size_units.
  rewrite get_file_size_loop_cons. cbn [num_lt_1024].
  destruct (Z.ltb_spec n 1024) as [H0 | H0].
  - cbn [num_format_1f]. destruct (float_of_int n) as [x |]; cbn [bind];
      [| reflexivity].
    rewrite scale_0. reflexivity.
  - cbn [num_div_1024].
    destruct (float_of_int n) as [x |] eqn:Hx; cbn [bind]; [| reflexivity].
    destruct (float_of_int_thresholds n x ltac:(lia) Hx) as [Hs Hcmp].
    destruct x as [m s]. cbn [shift mant] in Hs, Hcmp. subst s.
    assert (E : forall k : Z, 0 <= k <= 4 ->
               lt_1024 (mkFloat m (10 * k)) = (n <? 1024 * 2 ^ (10 * k))).
    { intros k Hk. unfold lt_1024. cbn [mant shift]. apply Hcmp.
      assert (2 ^ (10 * k) <= 2 ^ 40) by (apply Z.pow_le_mono_r; lia).
      change (2 ^ 52) with (1024 * 2 ^ 40 * 4). lia. }
    change (div_1024 (mkFloat m 0)) with (mkFloat m (10 * 1)).
    unfold scale. cbn [mant shift].
    cbn [get_file_size_loop num_lt_1024 num_div_1024 num_format_1f bind].
    rewrite (E 1) by lia. change (1024 * 2 ^ (10 * 1)) with (1024 ^ 2).
    destruct (n <? 1024 ^ 2); [reflexivity |].
    change (div_1024 (mkFloat m (10 * 1))) with (mkFloat m (10 * 2)).
    cbn [get_file_size_loop num_lt_1024 num_div_1024 num_format_1f bind].
    rewrite (E 2) by lia. change (1024 * 2 ^ (10 * 2)) with (1024 ^ 3).
    destruct (n <? 1024 ^ 3); [reflexivity |].
    change (div_1024 (mkFloat m (10 * 2))) with (mkFloat m (10 * 3)).
    cbn [get_file_size_loop num_lt_1024 num_div_1024 num_format_1f bind].
    rewrite (E 3) by lia. change (1024 * 2 ^ (10 * 3)) with (1024 ^ 4).
    destruct (n <? 1024 ^ 4); [reflexivity |].
    change (div_1024 (mkFloat m (10 * 3))) with (mkFloat m (10 * 4)).
    cbn [get_file_size_loop num_lt_1024 num_div_1024 num_format_1f bind].
    rewrite (E 4) by lia. change (1024 * 2 ^ (10 * 4)) with (1024 ^ 5).
    destruct (n <? 1024 ^ 5); reflexivity.
Qed.

Lemma st_size_exists d p n : st_size d p = Ok n -> exists_ d p = true.
Proof.
  unfold st_size, exists_. intros H. apply bool_decide_eq_true.
  destruct (d !! p); [eauto | discriminate].
Qed.

(** X16: sizes for display.  A path that leads nowhere is shown as "0 B",
    while an empty file is shown as "0.0 B".  Below 1024^5 bytes
    [get_file_size] gives exactly the string the template filter gives
    for the size; from 1024^5 bytes on it divides once more and uses
    PB. *)
Theorem get_file_size_spec :
  (forall d p, d !! p = None -> get_file_size d p = Ok (py "0 B"))
  /\ (forall d p readable,
         d !! p = Some (Regular [] readable) ->
         get_file_size d p = Ok (py "0.0 B"))
  /\ (forall d p n,
         st_size d p = Ok n -> n < 1024 ^ 5 ->
         get_file_size d p = _filesize_filter (VInt n))
  /\ (forall d p n x,
         st_size d p = Ok n -> 1024 ^ 5 <= n -> float_of_int n = Ok x ->
         get_file_size d p = Ok (format_1f (scale 5 x) ++ py " PB")).
Proof.
  split.
  { intros d p Hp. unfold get_file_size, exists_.
    rewrite bool_decide_eq_false_2; [reflexivity |].
    intros [x Hx]. congruence. }
  split.
  { intros d p readable Hp. unfold get_file_size, exists_, st_size.
    rewrite bool_decide_eq_true_2 by eauto. rewrite Hp. reflexivity. }
  split.
  - intros d p n Hn Hlt. unfold get_file_size.
    rewrite (st_size_exists _ _ _ Hn), Hn. cbn [negb bind].
    rewrite get_file_size_loop_int, filesize_filter_int.
    assert (Hk : size_unit_index n = unit_index n).
    { unfold size_unit_index, unit_index.
      destruct (n <? 1024); [reflexivity |].
      destruct (n <? 1024 ^ 2); [reflexivity |].
      destruct (n <? 1024 ^ 3); [reflexivity |].
      destruct (n <? 1024 ^ 4); [reflexivity |].
      destruct (Z.ltb_spec n (1024 ^ 5)); [reflexivity | lia]. }
    rewrite Hk.
    assert (Hu : nth (unit_index n) (size_units ++ [py "PB"]) []
                 = nth (unit_index n) all_units []).
    { unfold unit_index.
      destruct (n <? 1024); [reflexivity |].
      destruct (n <? 1024 ^ 2); [reflexivity |].
      destruct (n <? 1024 ^ 3); [reflexivity |].
      destruct (n <? 1024 ^ 4); reflexivity. }
    rewrite Hu. reflexivity.
  - intros d p n x Hn Hge Hx. unfold get_file_size.
    rewrite (st_size_exists _ _ _ Hn), Hn. cbn [negb bind].
    rewrite get_file_size_loop_int, Hx. cbn [bind].
    unfold size_unit_index.
    destruct (Z.ltb_spec n 1024); [lia |].
    destruct (Z.ltb_spec n (1024 ^ 2)); [lia |].
    destruct (Z.ltb_spec n (1024 ^ 3)); [lia |].
    destruct (Z.ltb_spec n (1024 ^ 4)); [lia |].
    destruct (Z.ltb_spec n (1024 ^ 5)); [lia | reflexivity].
Qed.

Definition sample_fs : fs :=
  <[ mkPath (py "/tmp") (py "big") := Folder (3 * 1024 ^ 5) ]>
    {[ mkPath (py "/tmp") (py "a.pdf") := Regular (py "%PDF-1.4") true ]}.

Lemma get_file_size_spec_witness :
  get_file_size sample_fs (mkPath (py "/tmp") (py "a.pdf")) = Ok (py "8.0 B")
  /\ get_file_size sample_fs (mkPath (py "/tmp") (py "big")) = Ok (py "3.0 PB")
  /\ get_file_size sample_fs (mkPath (py "/tmp") (py "none")) = Ok (py "0 B").
Proof.
  destruct get_file_size_spec as (Hnone & _ & Hsame & Hpb). split; [| split].
  - rewrite (Hsame _ _ 8); [reflexivity | reflexivity | lia].
  - rewrite (Hpb _ _ (3 * 1024 ^ 5) (mkFloat (3 * 1024 ^ 5) 0));
      [vm_compute; reflexivity | reflexivity | lia |].
    apply float_of_int_exact. lia.
  - apply Hnone. reflexivity.
Defined.

(** *** Backups *)

(** The names tried for a backup, in order: [name.bak], [name.bak.1],
    [name.bak.2], ... *)
Definition backup_tail (k : Z) : str :=
  if k =? 0 then py ".bak" else py ".bak." ++ decimal k.

Definition candidate (p : path) (k : Z) : path :=
  mkPath (parent p) (name p ++ backup_tail k).

Lemma suffix_cut p :
  suffix p <> [] ->
  slice_to (- Z.of_nat (length (suffix p))) (name p) ++ suffix p = name p.
Proof.
  unfold suffix.
  set (i := rfind "." (name p)).
  destruct ((0 <? i) && (i <? Z.of_nat (length (name p)) - 1)) eqn:Hc;
    [| congruence].
  intros _. apply andb_true_iff in Hc as [Hi Hj].
  apply Z.ltb_lt in Hi, Hj. unfold slice_to.
  rewrite length_drop.
  destruct (Z.ltb_spec (- Z.of_nat (length (name p) - Z.to_nat i)) 0); [| lia].
  replace (Z.to_nat (Z.of_nat (length (name p))
                     + - Z.of_nat (length (name p) - Z.to_nat i)))
    with (Z.to_nat i) by lia.
  apply take_drop.
Qed.

Lemma with_suffix_append p t :
  name p <> [] ->
  with_suffix p (suffix p ++ t) = Ok (mkPath (parent p) (name p ++ t)).
Proof.
  intros Hn. unfold with_suffix.
  destruct (name p) as [| c n] eqn:Hname; [congruence |]. rewrite <- Hname.
  destruct (suffix p) as [| a old] eqn:Hs; [reflexivity |].
  rewrite <- Hs. rewrite app_assoc, suffix_cut by (rewrite Hs; discriminate).
  reflexivity.
Qed.

Lemma with_suffix_empty_name p t : name p = [] -> with_suffix p t = Raise ValueError.
Proof. intros Hn. unfold with_suffix. rewrite Hn. reflexivity. Qed.

Lemma decimal_inj a b : 0 <= a -> 0 <= b -> decimal a = decimal b -> a = b.
Proof.
  intros Ha Hb H. apply (f_equal int_of_digits) in H.
  rewrite !decimal_value in H by assumption. exact H.
Qed.

Lemma candidate_inj p i j : 0 <= i -> 0 <= j -> candidate p i = candidate p j -> i = j.
Proof.
  intros Hi Hj H. unfold candidate in H. injection H as H.
  apply app_inv_head in H. unfold backup_tail in H.
  destruct (Z.eqb_spec i 0), (Z.eqb_spec j 0); [lia | | |].
  - apply (f_equal (@length ascii)) in H. rewrite length_app in H.
    pose proof (decimal_nonempty j). cbn [py list_ascii_of_string length] in H. lia.
  - apply (f_equal (@length ascii)) in H. rewrite length_app in H.
    pose proof (decimal_nonempty i). cbn [py list_ascii_of_string length] in H. lia.
  - apply app_inv_head in H. apply decimal_inj; assumption.
Qed.

Lemma backup_search_step d p fuel c :
  name p <> [] -> 1 <= c ->
  backup_search d p (S fuel) (candidate p (c - 1)) c
  = if exists_ d (candidate p (c - 1))
    then backup_search d p fuel (candidate p c) (c + 1)
    else Some (Ok (candidate p (c - 1))).
Proof.
  intros Hn Hc. cbn [backup_search].
  destruct (exists_ d (candidate p (c - 1))); [| reflexivity].
  rewrite with_suffix_append by exact Hn.
  unfold candidate, backup_tail.
  destruct (Z.eqb_spec c 0); [lia |].
  replace (c + 1 - 1) with c by lia. reflexivity.
Qed.

(** The search only looks at the names still to be tried. *)
Lemma backup_search_ext p fuel : forall d d' c,
  name p <> [] -> 1 <= c ->
  (forall j, c - 1 <= j -> exists_ d (candidate p j) = exists_ d' (candidate p j)) ->
  backup_search d p fuel (candidate p (c - 1)) c
  = backup_search d' p fuel (candidate p (c - 1)) c.
Proof.
  induction fuel as [| fuel IH]; intros d d' c Hn Hc Hext.
  - cbn [backup_search]. rewrite (Hext (c - 1)) by lia. reflexivity.
  - rewrite !backup_search_step by assumption.
    rewrite (Hext (c - 1)) by lia.
    destruct (exists_ d' (candidate p (c - 1))); [| reflexivity].
    replace c with (c + 1 - 1) at 1 3 by lia.
    apply IH; [exact Hn | lia |]. intros j Hj. apply Hext. lia.
Qed.

(** With as much fuel as there are entries, the search ends. *)
Lemma backup_search_total p fuel : forall (d : fs) c,
  name p <> [] -> 1 <= c -> (size d <= fuel)%nat ->
  backup_search d p fuel (candidate p (c - 1)) c <> None.
Proof.
  induction fuel as [| fuel IH]; intros d c Hn Hc Hsize.
  - cbn [backup_search]. unfold exists_.
    assert (d = ∅) as -> by (apply map_size_empty_inv; lia).
    rewrite lookup_empty.
    rewrite bool_decide_eq_false_2 by (intros [x Hx]; discriminate).
    discriminate.
  - rewrite backup_search_step by assumption.
    destruct (exists_ d (candidate p (c - 1))) eqn:Hex; [| discriminate].
    unfold exists_ in Hex. apply bool_decide_eq_true in Hex as [e He].
    assert (Hext : backup_search d p fuel (candidate p (c + 1 - 1)) (c + 1)
                   = backup_search (delete (candidate p (c - 1)) d) p fuel
                       (candidate p (c + 1 - 1)) (c + 1)).
    { apply backup_search_ext; [exact Hn | lia |].
      intros j Hj. unfold exists_. rewrite lookup_delete_ne; [reflexivity |].
      intros Heq. apply candidate_inj in Heq; lia. }
    replace (c + 1 - 1) with c in Hext by lia. rewrite Hext.
    replace c with (c + 1 - 1) at 2 by lia.
    apply IH; [exact Hn | lia |].
    rewrite map_size_delete, He. lia.
Qed.

(** What the search returns is the first free name. *)
Lemma backup_search_sound p fuel : forall (d : fs) c r,
  name p <> [] -> 1 <= c ->
  backup_search d p fuel (candidate p (c - 1)) c = Some r ->
  exists j, c - 1 <= j /\ r = Ok (candidate p j)
            /\ d !! candidate p j = None
            /\ forall i, c - 1 <= i < j -> is_Some (d !! candidate p i).
Proof.
  induction fuel as [| fuel IH]; intros d c r Hn Hc H.
  - cbn [backup_search] in H.
    destruct (exists_ d (candidate p (c - 1))) eqn:Hex; [discriminate |].
    injection H as <-. exists (c - 1). split; [lia |]. split; [reflexivity |].
    split; [| intros i Hi; lia].
    unfold exists_ in Hex. apply bool_decide_eq_false in Hex.
    destruct (d !! candidate p (c - 1)); [exfalso; apply Hex; eauto | reflexivity].
  - rewrite backup_search_step in H by assumption.
    destruct (exists_ d (candidate p (c - 1))) eqn:Hex.
    + replace c with (c + 1 - 1) in H at 1 by lia.
      apply IH in H as (j & Hj & -> & Hfree & Hbusy); [| exact Hn | lia].
      exists j. split; [lia |]. split; [reflexivity |]. split; [exact Hfree |].
      intros i Hi. destruct (Z.eq_dec i (c - 1)) as [-> | Hne].
      * unfold exists_ in Hex. apply bool_decide_eq_true in Hex. exact Hex.
      * apply Hbusy. lia.
    + injection H as <-. exists (c - 1). split; [lia |]. split; [reflexivity |].
      split; [| intros i Hi; lia].
      unfold exists_ in Hex. apply bool_decide_eq_false in Hex.
      destruct (d !! candidate p (c - 1)); [exfalso; apply Hex; eauto | reflexivity].
Qed.

(** X17: a backup never overwrites.  Given as many tries as the directory
    tree has entries, [backup_file] ends.  When it raises nothing has
    changed.  When it returns a path, the path is the first free one
    among name.bak, name.bak.1, name.bak.2, ... beside the file, it did
    not exist before, it now holds the bytes of the file, and every
    entry that existed is as it was. *)
Theorem backup_file_never_overwrites :
  forall (d : fs) p fuel,
    (size d <= fuel)%nat ->
    exists res d',
      backup_file d p fuel = Some (res, d')
      /\ match res with
         | Raise _ => d' = d
         | Ok backup_path =>
             d !! backup_path = None
             /\ (exists content,
                    d !! p = Some (Regular content true)
                    /\ d' = <[backup_path := Regular content true]> d)
             /\ (exists j,
                    0 <= j /\ backup_path = candidate p j
                    /\ forall i, 0 <= i < j -> is_Some (d !! candidate p i))
             /\ forall q e, d !! q = Some e -> d' !! q = Some e
         end.
Proof.
  intros d p fuel Hsize. unfold backup_file.
  destruct (exists_ d p); cbn [negb];
    [| exists (Raise FileNotFoundError), d; split; reflexivity].
  destruct (name p) as [| c0 n0] eqn:Hname.
  { rewrite with_suffix_empty_name by exact Hname.
    exists (Raise ValueError), d. split; reflexivity. }
  assert (Hn : name p <> []) by (rewrite Hname; discriminate).
  rewrite with_suffix_append by exact Hn.
  change (mkPath (parent p) (name p ++ py ".bak")) with (candidate p (1 - 1)).
  pose proof (backup_search_total p fuel d 1 Hn ltac:(lia) Hsize) as Htot.
  destruct (backup_search d p fuel (candidate p (1 - 1)) 1) as [r |] eqn:Hs;
    [| congruence].
  apply backup_search_sound in Hs as (j & Hj & -> & Hfree & Hbusy);
    [| exact Hn | lia].
  unfold read_bytes.
  destruct (d !! p) as [[content [] | sz] |] eqn:Hp; try (eexists _, _; split; [reflexivity | reflexivity]).
  exists (Ok (candidate p j)), (write_new d (candidate p j) content).
  split; [reflexivity |]. split; [exact Hfree |].
  split; [exists content; split; reflexivity |].
  split; [exists j; split; [lia |]; split; [reflexivity |];
          intros i Hi; apply Hbusy; lia |].
  intros q e Hq. unfold write_new. rewrite lookup_insert_ne; [exact Hq |].
  intros <-. congruence.
Qed.

Definition fs_with_backup : fs :=
  <[ mkPath (py "/tmp") (py "original.txt") := Regular (py "contenido") true ]>
    {[ mkPath (py "/tmp") (py "original.txt.bak") := Regular (py "viejo") true ]}.

Lemma backup_file_never_overwrites_witness :
  exists d',
    backup_file fs_with_backup (mkPath (py "/tmp") (py "original.txt")) 2
    = Some (Ok (mkPath (py "/tmp") (py "original.txt.bak.1")), d')
    /\ d' !! mkPath (py "/tmp") (py "original.txt.bak")
       = Some (Regular (py "viejo") true).
Proof.
  destruct (backup_file_never_overwrites fs_with_backup
              (mkPath (py "/tmp") (py "original.txt")) 2)
    as (res & d' & Hb & Hres).
  { vm_compute. lia. }
  assert (Hr : res = Ok (mkPath (py "/tmp") (py "original.txt.bak.1"))).
  { assert (Hf : option_map fst (backup_file fs_with_backup
                                   (mkPath (py "/tmp") (py "original.txt")) 2)
                 = Some (Ok (mkPath (py "/tmp") (py "original.txt.bak.1"))))
      by (vm_compute; reflexivity).
    rewrite Hb in Hf. cbn [option_map fst] in Hf. injection Hf as Hf. exact Hf. }
  subst res. exists d'. split; [exact Hb |].
  destruct Hres as (_ & _ & _ & Hkeep). apply Hkeep.
  vm_compute. reflexivity.
Defined.

End FileHandlerFilesProps.

(** ** adn/utils/validators.py *)
Module ValidatorsProps.
Import Config FileHandler PyMore FileHandlerFiles Validators PyFacts ConfigFacts
  FileHandlerFacts FileHandlerProps FileHandlerFilesProps.

(** *** The second sanitizer *)

Lemma lstrip_char_spec c s :
  exists p, s = p ++ lstrip_char c s.
Proof.
  induction s as [| d s IH]; cbn [lstrip_char]; [exists []; reflexivity |].
  destruct (Ascii.eqb d c); [| exists []; reflexivity].
  destruct IH as [p Hp]. exists (d :: p). cbn. congruence.
Qed.

Lemma strip_char_spec c s : exists p q, s = p ++ strip_char c s ++ q.
Proof.
  unfold strip_char. destruct (lstrip_char_spec c s) as [p Hp].
  destruct (lstrip_char_spec c (rev (lstrip_char c s))) as [q Hq].
  exists p, (rev q). rewrite <- rev_app_distr, <- Hq, rev_involutive. exact Hp.
Qed.

Lemma strip_char_Forall (P : ascii -> Prop) c s :
  Forall P s -> Forall P (strip_char c s).
Proof.
  intros H. destruct (strip_char_spec c s) as (p & q & Hs).
  rewrite Hs in H. apply Forall_app in H as [_ H].
  apply Forall_app in H as [H _]. exact H.
Qed.

Lemma strip_char_length c s : (length (strip_char c s) <= length s)%nat.
Proof.
  destruct (strip_char_spec c s) as (p & q & Hs).
  rewrite Hs at 2. rewrite !length_app. lia.
Qed.

Lemma lstrip_char_id c s : (forall t, s <> c :: t) -> lstrip_char c s = s.
Proof.
  intros H. destruct s as [| d s]; [reflexivity |]. cbn [lstrip_char].
  destruct (Ascii.eqb_spec d c) as [-> | _]; [| reflexivity].
  exfalso. eapply H. reflexivity.
Qed.

Lemma strip_char_id c s :
  (forall t, s <> c :: t) -> (forall t, s <> t ++ [c]) -> strip_char c s = s.
Proof.
  intros Hhead Hlast. unfold strip_char.
  rewrite (lstrip_char_id c s Hhead). rewrite lstrip_char_id.
  - apply rev_involutive.
  - intros t Ht. apply (Hlast (rev t)).
    rewrite <- (rev_involutive s), Ht. reflexivity.
Qed.

Lemma sanitize_filename_unfold s :
  sanitize_filename s = limit_length 100 (strip_char "." (sanitized s)).
Proof.
  unfold sanitize_filename, limit_length, sanitized, collapse_whitespace,
    replace_invalid.
  set (x := strip_char "." _).
  destruct (Nat.ltb_spec 100 (length x)), (Z.ltb_spec 100 (Z.of_nat (length x)));
    try lia; reflexivity.
Qed.

(** X18: the sanitizer of the validators.  Its result holds no
    problematic character and no whitespace, is never longer than the
    name given, and is at most 100 long when the extension left after
    stripping dots fits in 100.  On a name whose sanitized form neither
    starts nor ends with a dot it returns what [clean_filename] returns
    under the default maximum length. *)
Theorem sanitize_filename_props :
  forall s,
    Forall (fun c => ~ In c invalid_chars /\ isspace c = false)
      (sanitize_filename s)
    /\ (length (sanitize_filename s) <= length s)%nat
    /\ (Z.of_nat (length (snd (splitext (strip_char "." (sanitized s))))) <= 100 ->
        (length (sanitize_filename s) <= 100)%nat)
    /\ ((forall t, sanitized s <> "."%char :: t) ->
        (forall t, sanitized s <> t ++ ["."%char]) ->
        sanitize_filename s = clean_with 100 s).
Proof.
  intros s. rewrite sanitize_filename_unfold. split; [| split; [| split]].
  - eapply Forall_impl.
    + apply limit_length_Forall, strip_char_Forall, sanitized_clean.
    + intros c [Hc Hs]. split; [apply is_invalid_In; exact Hc | exact Hs].
  - pose proof (limit_length_no_longer 100 (strip_char "." (sanitized s))).
    pose proof (strip_char_length "." (sanitized s)).
    pose proof (collapse_whitespace_length (replace_invalid s)).
    rewrite replace_invalid_length in *. unfold sanitized in *. lia.
  - intros Hext. apply limit_length_length in Hext. lia.
  - intros Hhead Hlast. rewrite strip_char_id by assumption. reflexivity.
Qed.

Lemma sanitize_filename_props_witness :
  sanitize_filename (py "mi archivo?.pdf") = clean_with 100 (py "mi archivo?.pdf")
  /\ (length (sanitize_filename (py ".oculto.")) <= 100)%nat.
Proof.
  split.
  - destruct (sanitize_filename_props (py "mi archivo?.pdf")) as (_ & _ & _ & H).
    apply H; intros t Ht.
    + vm_compute in Ht. discriminate.
    + apply (f_equal (@rev ascii)) in Ht. rewrite rev_app_distr in Ht.
      vm_compute in Ht. discriminate.
  - destruct (sanitize_filename_props (py ".oculto.")) as (_ & _ & H & _).
    apply H. vm_compute. discriminate.
Defined.

(** *** Template names and output names *)

Lemma contains_app char a b :
  contains char (a ++ b) = contains char a || contains char b.
Proof. unfold contains. apply existsb_app. Qed.

Lemma existsb_orb {A} (f g : A -> bool) l :
  existsb (fun x => f x || g x) l = existsb f l || existsb g l.
Proof.
  induction l as [| x l IH]; [reflexivity |]. cbn [existsb]. rewrite IH.
  destruct (f x), (g x), (existsb f l), (existsb g l); reflexivity.
Qed.

Lemma existsb_pointwise {A} (f g : A -> bool) l :
  (forall x, f x = g x) -> existsb f l = existsb g l.
Proof.
  intros H. induction l as [| x l IH]; [reflexivity |]. cbn [existsb].
  rewrite H, IH. reflexivity.
Qed.

Lemma stem_length p : (length (stem p) <= length (name p))%nat.
Proof.
  unfold stem. destruct (_ && _); [rewrite length_take; lia | lia].
Qed.

Lemma endswith_app suffix a : endswith suffix (a ++ suffix) = true.
Proof.
  unfold endswith. rewrite length_app.
  replace (length a + length suffix - length suffix)%nat with (length a) by lia.
  rewrite drop_app_length. rewrite bool_decide_eq_true_2 by reflexivity.
  apply Nat.leb_le. lia.
Qed.

(** X19: a valid template name names a valid output file.  Whatever
    [validate_template_name] accepts, followed by .md, is accepted by
    [validate_output_filename] when no directory is given. *)
Theorem template_name_gives_output_name :
  forall validate_directory writable template_name,
    validate_template_name template_name = true ->
    validate_output_filename validate_directory writable
      (template_name ++ py ".md") None = true.
Proof.
  intros vd wr n H. unfold validate_template_name in H.
  destruct n as [| c n]; [discriminate |].
  destruct (existsb (fun char => contains char (c :: n)) invalid_chars) eqn:Hinv;
    [discriminate |].
  destruct (Nat.ltb_spec 50 (length (c :: n))) as [| Hlen]; [discriminate |].
  unfold validate_output_filename. cbn [app].
  change (c :: n ++ py ".md") with ((c :: n) ++ py ".md").
  assert (Hinv' : existsb (fun char => contains char ((c :: n) ++ py ".md"))
                    invalid_chars = false).
  { rewrite (existsb_pointwise _
               (fun char => contains char (c :: n) || contains char (py ".md")))
      by (intros; apply contains_app).
    rewrite existsb_orb, Hinv. vm_compute. reflexivity. }
  rewrite Hinv'.
  assert (Hstem : (100 <? length (stem (path_of_name ((c :: n) ++ py ".md"))))%nat
                  = false).
  { apply Nat.ltb_ge.
    pose proof (stem_length (path_of_name ((c :: n) ++ py ".md"))) as Hs.
    assert (length (name (path_of_name ((c :: n) ++ py ".md")))
            <= length ((c :: n) ++ py ".md"))%nat.
    { unfold path_of_name. cbn [name]. destruct (bool_decide _); cbn [length]; lia. }
    rewrite length_app in *. cbn [py list_ascii_of_string length] in *. lia. }
  rewrite Hstem.
  unfold lower. rewrite map_app.
  change (map lower_char (py ".md")) with (py ".md").
  rewrite endswith_app. reflexivity.
Qed.

Lemma template_name_gives_output_name_witness :
  validate_template_name (py "csv_record") = true
  /\ validate_output_filename (fun _ _ => false) (fun _ => false)
       (py "csv_record" ++ py ".md") None = true.
Proof.
  split; [vm_compute; reflexivity |].
  apply template_name_gives_output_name. vm_compute. reflexivity.
Defined.

(** *** Configuration values *)

(** X20: the defaults are valid.  Every compiled-in default passes
    [validate_config_value] for its key, as soon as the utf-8 codec exists
    and "." is not an absolute path. *)
Theorem defaults_pass_validation :
  forall is_absolute dir_exists encode_test key d,
    encode_test (py "utf-8") = Encoded ->
    is_absolute (py ".") = false ->
    _default_config !! key = Some d ->
    validate_config_value is_absolute dir_exists encode_test key d = Ok true.
Proof.
  intros ia de ke key d Henc Habs Hd.
  assert (Hdom : key ∈ dom _default_config) by (apply elem_of_dom; eauto).
  rewrite default_keys in Hdom.
  repeat (apply elem_of_union in Hdom as [Hdom | Hdom]);
    apply elem_of_singleton in Hdom; subst key;
    vm_compute in Hd; injection Hd as <-;
    unfold validate_config_value; cbn; cbn in Henc, Habs;
    rewrite ?Henc, ?Habs; reflexivity.
Qed.

Lemma defaults_pass_validation_witness :
  validate_config_value (fun _ => false) (fun _ => true) (fun _ => Encoded)
    "max_filename_length" (VInt 100) = Ok true.
Proof. apply defaults_pass_validation; reflexivity. Defined.

(** X21: a validated maximum length.  When the value configured for
    [max_filename_length] passes [validate_config_value], it is an integer
    from 10 to 255, [clean_filename] returns a name on every input, and
    the name is no longer than that integer whenever the extension of the
    sanitized name fits in it. *)
Theorem validated_max_length :
  forall is_absolute dir_exists encode_test st filename v st',
    get_config_value st "max_filename_length" (VInt 100) = (Ok v, st') ->
    validate_config_value is_absolute dir_exists encode_test
      "max_filename_length" v = Ok true ->
    exists r max,
      clean_filename st filename = (Ok r, st')
      /\ as_int v = Ok max /\ 10 <= max <= 255
      /\ (Z.of_nat (length (snd (splitext (sanitized filename)))) <= max ->
          Z.of_nat (length r) <= max).
Proof.
  intros ia de ke st filename v st' Hv Hval.
  unfold validate_config_value in Hval. cbn in Hval.
  destruct v as [s | b | n |]; try discriminate.
  injection Hval as Hval. apply negb_true_iff, orb_false_iff in Hval as [Hlo Hhi].
  apply Z.ltb_ge in Hlo, Hhi.
  exists (clean_with n filename), n.
  split; [unfold clean_filename; rewrite Hv; reflexivity |].
  split; [reflexivity |]. split; [lia |].
  intros Hext. apply limit_length_length. exact Hext.
Qed.

Lemma validated_max_length_witness :
  exists r,
    fst (clean_filename (new_manager false ∅) (repeat "a"%char 150 ++ py ".pdf")) = Ok r
    /\ Z.of_nat (length r) <= 100.
Proof.
  destruct (validated_max_length (fun _ => false) (fun _ => true)
              (fun _ => Encoded)
              (new_manager false ∅) (repeat "a"%char 150 ++ py ".pdf") (VInt 100)
              (new_manager false ∅)) as (r & max & Hc & Hmax & _ & Hb);
    [reflexivity | reflexivity |].
  exists r. rewrite Hc. split; [reflexivity |].
  injection Hmax as <-. apply Hb. vm_compute. discriminate.
Defined.

(** *** The summary *)

Lemma classify_spec d pdf_files : forall s,
  classify d pdf_files s
  = Ok (mkSummary (valid s)
          (errors s ++ map InvalidPdf
                         (List.filter (fun p => negb (FileHandlerFiles.validate_pdf_file d p))
                            pdf_files))
          (warnings s)
          (valid_files s ++ List.filter (FileHandlerFiles.validate_pdf_file d) pdf_files)
          (invalid_files s
             ++ List.filter (fun p => negb (FileHandlerFiles.validate_pdf_file d p)) pdf_files)).
Proof.
  induction pdf_files as [| p rest IH]; intros s; cbn [classify List.filter map].
  - rewrite !app_nil_r. destruct s; reflexivity.
  - rewrite validators_pdf_check. cbn [bind].
    destruct (FileHandlerFiles.validate_pdf_file d p); cbn [negb]; rewrite IH;
      cbn [valid errors warnings valid_files invalid_files map];
      rewrite <- ?app_assoc; reflexivity.
Qed.

Lemma filter_negb_nil {A} (f : A -> bool) l :
  List.filter (fun x => negb (f x)) l = [] -> List.filter f l = l.
Proof.
  induction l as [| x l IH]; [reflexivity |]. cbn [List.filter].
  destruct (f x); cbn [negb]; [intros H; f_equal; apply IH; exact H | discriminate].
Qed.

Lemma filter_lengths {A} (f : A -> bool) l :
  (length (List.filter f l) + length (List.filter (fun x => negb (f x)) l)
   = length l)%nat.
Proof.
  induction l as [| x l IH]; [reflexivity |]. cbn [List.filter].
  destruct (f x); cbn [negb length]; lia.
Qed.

(** X22: the validation summary sorts every file once.  The function
    returns a summary on every input.  Its valid files are the given files
    that pass the PDF check, its invalid files are the others, both in the
    order given.  The summary is valid exactly when it has no error and at
    least one valid file; then every given file was valid. *)
Theorem get_validation_summary_spec :
  forall validate_directory d pdf_files output_dir template_name,
  exists s,
    get_validation_summary validate_directory d pdf_files
      output_dir template_name = Ok s
    /\ valid_files s
       = List.filter (FileHandlerFiles.validate_pdf_file d) pdf_files
    /\ invalid_files s
       = List.filter (fun p => negb (FileHandlerFiles.validate_pdf_file d p))
           pdf_files
    /\ (length (valid_files s) + length (invalid_files s) = length pdf_files)%nat
    /\ (valid s = true <-> errors s = [] /\ valid_files s <> [])
    /\ (valid s = true -> valid_files s = pdf_files /\ pdf_files <> []).
Proof.
  intros vd d pdf_files output_dir template_name.
  unfold get_validation_summary. rewrite classify_spec. cbn [bind].
  pose (vf := List.filter (FileHandlerFiles.validate_pdf_file d) pdf_files).
  pose (inv := List.filter
                 (fun p => negb (FileHandlerFiles.validate_pdf_file d p)) pdf_files).
  pose (s0 := mkSummary true (map InvalidPdf inv) [] vf inv).
  pose (s1 := match output_dir with
              | Some dir =>
                  if negb (vd dir true)
                  then mkSummary (valid s0) (errors s0 ++ [InvalidOutputDir dir])
                         (warnings s0) (valid_files s0) (invalid_files s0)
                  else s0
              | None => s0
              end).
  pose (s2 := match template_name with
              | Some (c :: t) =>
                  if negb (validate_template_name (c :: t))
                  then mkSummary (valid s1)
                         (errors s1 ++ [InvalidTemplateName (c :: t)])
                         (warnings s1) (valid_files s1) (invalid_files s1)
                  else s1
              | _ => s1
              end).
  enough (Hgoal : exists s,
            match errors s2, valid_files s2 with
            | [], _ :: _ => Ok s2
            | _, _ => Ok (mkSummary false (errors s2) (warnings s2)
                            (valid_files s2) (invalid_files s2))
            end = Ok s
            /\ valid_files s = vf /\ invalid_files s = inv
            /\ (length (valid_files s) + length (invalid_files s)
                = length pdf_files)%nat
            /\ (valid s = true <-> errors s = [] /\ valid_files s <> [])
            /\ (valid s = true -> valid_files s = pdf_files /\ pdf_files <> []))
    by exact Hgoal.
  assert (H1 : valid s1 = true /\ valid_files s1 = vf /\ invalid_files s1 = inv
               /\ exists extra, errors s1 = map InvalidPdf inv ++ extra).
  { unfold s1. destruct output_dir as [dir |]; [destruct (negb (vd dir true)) |];
      cbn [s0 valid errors valid_files invalid_files];
      repeat split; try reflexivity; eexists;
      first [reflexivity | symmetry; apply app_nil_r]. }
  destruct H1 as (Hv1 & Hvf1 & Hinv1 & extra1 & He1).
  assert (H2 : valid s2 = true /\ valid_files s2 = vf /\ invalid_files s2 = inv
               /\ exists extra, errors s2 = map InvalidPdf inv ++ extra).
  { unfold s2. destruct template_name as [[| c t] |];
      [| destruct (negb (validate_template_name (c :: t))) |];
      cbn [valid errors valid_files invalid_files];
      repeat split; try assumption; try (eexists; exact He1).
    exists (extra1 ++ [InvalidTemplateName (c :: t)]).
    rewrite He1, <- app_assoc. reflexivity. }
  destruct H2 as (Hv2 & Hvf2 & Hinv2 & extra2 & He2).
  clearbody s2. clear Hv1 Hvf1 Hinv1 He1 extra1 s1 s0.
  assert (Hall : errors s2 = [] -> vf = pdf_files).
  { intros He. rewrite He2 in He. apply app_eq_nil in He as [He _].
    apply map_eq_nil in He. apply filter_negb_nil. exact He. }
  assert (Hlen : (length vf + length inv = length pdf_files)%nat)
    by apply filter_lengths.
  destruct (errors s2) as [| e es] eqn:Hes;
    destruct (valid_files s2) as [| f fs'] eqn:Hfs;
    eexists; (split; [reflexivity |]);
    cbn [valid errors valid_files invalid_files];
    rewrite ?Hes, ?Hfs, ?Hinv2;
    (split; [congruence |]); (split; [reflexivity |]);
    (split; [rewrite Hvf2; exact Hlen |]).
  - split; [split; [discriminate | intros [_ H]; congruence] | discriminate].
  - rewrite Hv2. split; [split; [intros _; split; [reflexivity | discriminate]
                                 | reflexivity] |].
    intros _. rewrite <- (Hall eq_refl), <- Hvf2.
    split; [reflexivity | discriminate].
  - split; [split; [discriminate | intros [H _]; discriminate] | discriminate].
  - split; [split; [discriminate | intros [H _]; discriminate] | discriminate].
Qed.

Lemma get_validation_summary_spec_witness :
  exists s,
    get_validation_summary (fun _ _ => true) sample_fs
      [mkPath (py "/tmp") (py "a.pdf"); mkPath (py "/tmp") (py "big")]
      None None = Ok s
    /\ valid s = false
    /\ valid_files s = [mkPath (py "/tmp") (py "a.pdf")].
Proof.
  destruct (get_validation_summary_spec (fun _ _ => true) sample_fs
              [mkPath (py "/tmp") (py "a.pdf"); mkPath (py "/tmp") (py "big")]
              None None) as (s & Hs & Hvf & _ & _ & _ & Hall).
  exists s. split; [exact Hs |]. split.
  - destruct (valid s); [| reflexivity].
    destruct (Hall eq_refl) as [Heq _]. rewrite Hvf in Heq.
    vm_compute in Heq. discriminate.
  - rewrite Hvf. vm_compute. reflexivity.
Defined.

End ValidatorsProps.

(** ** adn/commands/create.py *)
Module CreateProps.
Import Config FileHandler Create PyFacts ConfigFacts FileHandlerFacts
  FileHandlerProps.



End CreateProps.

(** ** adn/utils/file_handler.py: expected and generated outputs *)
Module FileHandlerPathsProps.
Import Config FileHandler FileHandlerPaths PyFacts ConfigFacts FileHandlerFacts
  FileHandlerProps.

Lemma generate_extraction_file_dir render is_absolute joinpath
    w f dir template force p w1 :
  generate_extraction_file render is_absolute joinpath
    w f (Some dir) template force = (Ok p, w1) ->
  parent p = dir.
Proof.
  intros H. unfold generate_extraction_file in H.
  destruct (negb (FileHandler.exists_ w f)); [discriminate |].
  cbn [resolve_output_dir] in H.
  destruct (_generate_output_filename (config_manager w) f dir)
    as [[output_file | e] st1] eqn:Hg; [| discriminate].
  apply (f_equal fst) in Hg. cbn [fst] in Hg.
  apply generate_output_filename_parent in Hg.
  destruct (FileHandler.exists_ w output_file && negb force); [discriminate |].
  destruct (match template with
            | Some t => (Ok t, st1)
            | None => get_config_value st1 "default_template" (VStr (py "default"))
            end) as [tn st2].
  destruct (bind tn (fun t => render t f)); [| discriminate].
  injection H as <- _. exact Hg.
Qed.

(** X24: the expected output is the generated one.  When
    [generate_extraction_file] is given a directory and returns a path,
    [get_extraction_file] for the same PDF and directory gives that very
    path, asked before the generation or after it. *)
Theorem get_extraction_file_predicts :
  forall render is_absolute joinpath w f dir template force p w1,
    generate_extraction_file render is_absolute joinpath
      w f (Some dir) template force = (Ok p, w1) ->
    fst (get_extraction_file (config_manager w) f (Some dir)) = Ok p
    /\ fst (get_extraction_file (config_manager w1) f (Some dir)) = Ok p.
Proof.
  intros render ia jp w f dir template force p w1 H.
  pose proof (generate_extraction_file_dir _ _ _ _ _ _ _ _ _ _ H) as Hdir.
  apply generate_extraction_file_inv in H as (Hname & _ & content & ->).
  unfold get_extraction_file. rewrite Hdir in Hname. split; [exact Hname |].
  cbn [config_manager]. rewrite generate_output_filename_settled. exact Hname.
Qed.

Lemma get_extraction_file_predicts_witness :
  exists w1,
    generate_extraction_file (fun _ _ => Ok (py "# note"))
      (fun _ => false) (fun base _ => base)
      sample_world sample_pdf (Some (py "/notes")) None false
    = (Ok (mkPath (py "/notes") (py "test_extraccion.md")), w1)
    /\ fst (get_extraction_file (config_manager sample_world) sample_pdf
              (Some (py "/notes")))
       = Ok (mkPath (py "/notes") (py "test_extraccion.md")).
Proof.
  remember (generate_extraction_file (fun _ _ => Ok (py "# note"))
              (fun _ => false) (fun base _ => base)
              sample_world sample_pdf (Some (py "/notes")) None false)
    as r eqn:Hgen.
  assert (Hr : fst r = Ok (mkPath (py "/notes") (py "test_extraccion.md")))
    by (rewrite Hgen; vm_compute; reflexivity).
  destruct r as [res w1]. cbn [fst] in Hr. subst res. symmetry in Hgen.
  exists w1. split; [reflexivity |].
  apply (get_extraction_file_predicts _ _ _ _ _ _ _ _ _ _ Hgen).
Defined.

(** X25: [is_processed] looks beside the PDF.  When
    [generate_extraction_file] returns a path, wherever the output was
    written (a directory given, a configured [default_output_dir], or the
    PDF's own directory), [is_processed] for that PDF answers whether a
    file of the generated name exists in the PDF's own directory: so it
    does with the manager as it was before the generation and as the
    generation leaves it, whatever files there are. *)
Theorem is_processed_looks_beside_pdf :
  forall render is_absolute joinpath w f output_dir template force p w1,
    generate_extraction_file render is_absolute joinpath
      w f output_dir template force = (Ok p, w1) ->
    forall d,
      fst (is_processed (mkWorld (config_manager w) d) f)
      = Ok (bool_decide (is_Some (d !! mkPath (parent f) (name p))))
      /\ fst (is_processed (mkWorld (config_manager w1) d) f)
         = Ok (bool_decide (is_Some (d !! mkPath (parent f) (name p)))).
Proof.
  intros render ia jp w f output_dir template force p w1 H.
  apply generate_extraction_file_inv in H as (Hname & _ & content & ->).
  apply (generate_output_filename_dir _ _ _ (parent f)) in Hname.
  intros d. rewrite !is_processed_unfold. cbn [config_manager disk].
  rewrite generate_output_filename_settled.
  destruct (_generate_output_filename (config_manager w) f (parent f))
    as [[q | e] st1]; cbn [fst] in *; [| discriminate].
  injection Hname as ->. split; reflexivity.
Qed.

Definition world_with_output_dir : world :=
  mkWorld (snd (set_config (new_manager false ∅) "default_output_dir" (VStr (py "notes"))))
    {[ mkPath (py "/tmp") (py "paper.pdf") := py "%PDF-1.4" ]}.

Lemma is_processed_looks_beside_pdf_witness :
  exists w1,
    generate_extraction_file (fun _ _ => Ok (py "# note"))
      (fun _ => false) (fun base d => base ++ py "/" ++ d)
      world_with_output_dir (mkPath (py "/tmp") (py "paper.pdf")) None None false
    = (Ok (mkPath (py "/tmp/notes") (py "paper_extraccion.md")), w1)
    /\ fst (is_processed w1 (mkPath (py "/tmp") (py "paper.pdf"))) = Ok false.
Proof.
  remember (generate_extraction_file (fun _ _ => Ok (py "# note"))
              (fun _ => false) (fun base d => base ++ py "/" ++ d)
              world_with_output_dir (mkPath (py "/tmp") (py "paper.pdf"))
              None None false) as r eqn:Hgen.
  assert (Hr : fst r = Ok (mkPath (py "/tmp/notes") (py "paper_extraccion.md")))
    by (rewrite Hgen; vm_compute; reflexivity).
  destruct r as [res w1]. cbn [fst] in Hr. subst res. symmetry in Hgen.
  exists w1. split; [reflexivity |].
  destruct (is_processed_looks_beside_pdf _ _ _ _ _ _ _ _ _ _ Hgen (disk w1))
    as [_ Hafter].
  destruct w1 as [st1 d1]. cbn [config_manager disk] in Hafter. rewrite Hafter.
  apply (f_equal Ok). apply (f_equal snd) in Hgen. cbn [snd] in Hgen.
  apply (f_equal disk) in Hgen. cbn [disk] in Hgen. rewrite <- Hgen.
  vm_compute. reflexivity.
Defined.

End FileHandlerPathsProps.

(** ** adn/commands/config.py *)
Module ConfigCommandProps.
Import Config PyMore ConfigFacts ConfigProps.

Lemma valid_keys_plain key :
  key ∈ ConfigCommand.valid_keys -> plain_key key = true.
Proof.
  intros H. apply list_elem_of_In in H. cbn in H.
  repeat (destruct H as [<- | H]; [reflexivity |]). destruct H.
Qed.

Lemma command_set_inv project fs key v st :
  Config.set_config (new_manager project fs) key v = (Ok tt, st) ->
  exists cfg,
    files st = <[config_file := Mapping (yaml_mapping (<[key := v]> cfg))]> fs.
Proof.
  intros H.
  destruct (set_config_ok_inv _ _ _ _ (coherent_new project fs) H)
    as (cfg & st0 & Hw & Hf & _).
  apply write_and_invalidate_inv in Hw as (_ & _ & Hf1 & _).
  exists cfg. rewrite Hf1, Hf. reflexivity.
Qed.

(** A stored configuration that can be used, and room for the
    configuration directory. *)
Definition usable (fs : gmap str document) : Prop :=
  (forall raw, fs !! config_file <> Some (Malformed raw))
  /\ (forall r, fs !! config_file <> Some (NotMapping r))
  /\ fs !! config_file <> Some Undecodable
  /\ fs !! py "~" = None /\ fs !! config_dir = None.

Lemma command_set_usable project fs key v :
  usable fs -> fst (Config.set_config (new_manager project fs) key v) = Ok tt.
Proof.
  intros (Hm & Hn & Hu & Hhome & Hdir).
  assert (Hfree : forall st, files st = fs -> free st config_dir).
  { intros st Hst. unfold free. rewrite Hst. split; [| exact Hdir]. intros a Ha.
    change (parents config_dir) with [py "~"] in Ha.
    apply list_elem_of_In in Ha. destruct Ha as [<- | []]. exact Hhome. }
  unfold Config.set_config, Config.get_config, new_manager.
  cbn [_config_cache files].
  destruct (fs !! config_file) as [[raw | | m | r |] |] eqn:Hf;
    try solve [exfalso; eapply Hm; reflexivity
              | exfalso; eapply Hn; reflexivity
              | exfalso; apply Hu; reflexivity];
    rewrite write_and_invalidate_free by (apply Hfree; reflexivity);
    reflexivity.
Qed.

(** X26: [config set] then [config get].  A key outside the five
    settable ones is refused and no file changes.  When [config set]
    returns, its message was accepted as markup, no file but the
    configuration file has changed, and a later [config get] of the key
    prints the key with what YAML reads back of the converted value (the
    boolean for [auto_open_generated], else the text, as given unless it
    holds U+0085), or ends with status 1 when that text is refused as
    markup.  For the four text keys every value is written, validated or
    not, as long as the stored configuration can be used and no file
    stands in the place of the configuration directory; the command
    returns then unless its message is refused as markup, in which case
    it ends with status 1 although the value has been written. *)
Theorem config_set_then_get :
  forall markup_error project fs key value,
    (key ∉ ConfigCommand.valid_keys ->
     ConfigCommand.set_config markup_error project fs key value
     = (ConfigCommand.Exit 1, fs))
    /\ (forall fs',
           ConfigCommand.set_config markup_error project fs key value
           = (ConfigCommand.Returned tt, fs') ->
           key ∈ ConfigCommand.valid_keys
           /\ exists v,
               ConfigCommand._convert_config_value key value = Ok v
               /\ markup_error (ConfigCommand.updated_text key v) = false
               /\ (forall project',
                      ConfigCommand.get_config markup_error project' fs' key
                      = if markup_error (ConfigCommand.value_text key (yaml_value v))
                        then ConfigCommand.Exit 1
                        else ConfigCommand.Returned
                               (ConfigCommand.value_text key (yaml_value v)))
               /\ (key <> "auto_open_generated"%string -> v = VStr value)
               /\ (key = "auto_open_generated"%string ->
                   exists b, v = VBool b /\ yaml_value v = v)
               /\ (existsb (Ascii.eqb NEL) value = false -> yaml_value v = v)
               /\ forall p, p <> config_file -> fs' !! p = fs !! p)
    /\ (key ∈ ConfigCommand.valid_keys ->
        key <> "auto_open_generated"%string ->
        usable fs ->
        fst (ConfigCommand.set_config markup_error project fs key value)
        = (if markup_error (ConfigCommand.updated_text key (VStr value))
           then ConfigCommand.Exit 1
           else ConfigCommand.Returned tt)
        /\ exists cfg,
            snd (ConfigCommand.set_config markup_error project fs key value)
              !! config_file = Some (Mapping cfg)
            /\ cfg !! key = Some (yaml_value (VStr value))).
Proof.
  intros markup_error project fs key value. unfold ConfigCommand.set_config.
  split; [| split].
  - intros Hkey. rewrite bool_decide_eq_false_2 by exact Hkey. reflexivity.
  - intros fs' H.
    destruct (bool_decide (key ∈ ConfigCommand.valid_keys)) eqn:Hkey;
      cbn [negb] in H; [| discriminate].
    apply bool_decide_eq_true in Hkey. split; [exact Hkey |].
    destruct (ConfigCommand._convert_config_value key value) as [v | e] eqn:Hv;
      [| discriminate].
    destruct (Config.set_config (new_manager project fs) key v)
      as [[[] | e] st] eqn:Hset; [| discriminate].
    destruct (markup_error (ConfigCommand.updated_text key v)) eqn:Hmsg;
      [discriminate |].
    injection H as <-. apply command_set_inv in Hset as [cfg Hfiles].
    exists v. split; [reflexivity |]. split; [exact Hmsg |].
    assert (Hbool : key = "auto_open_generated"%string -> exists b, v = VBool b).
    { intros ->. unfold ConfigCommand._convert_config_value in Hv.
      rewrite bool_decide_eq_true_2 in Hv
        by (unfold ConfigCommand.boolean_keys; apply list_elem_of_singleton;
            reflexivity).
      destruct (bool_decide (lower value ∈ _)); [injection Hv as <-; eauto |].
      destruct (bool_decide (lower value ∈ _)); [injection Hv as <-; eauto |].
      discriminate. }
    assert (Htext : key <> "auto_open_generated"%string -> v = VStr value).
    { intros Hne. unfold ConfigCommand._convert_config_value in Hv.
      rewrite bool_decide_eq_false_2 in Hv; [congruence |].
      unfold ConfigCommand.boolean_keys. rewrite list_elem_of_singleton.
      exact Hne. }
    split; [| split; [exact Htext | split; [| split]]].
    + intros project'.
      unfold ConfigCommand.get_config, Config.get_config, new_manager.
      cbn [_config_cache files]. rewrite Hfiles, lookup_insert_eq.
      rewrite dict_update_lookup.
      rewrite yaml_mapping_lookup_plain by (apply valid_keys_plain; exact Hkey).
      rewrite lookup_insert_eq. reflexivity.
    + intros Hk. destruct (Hbool Hk) as [b ->]. eauto.
    + intros Hnel. apply yaml_value_no_nel. intros s ->.
      destruct (decide (key = "auto_open_generated"%string)) as [Hk | Hk].
      * destruct (Hbool Hk) as [b Hb]. discriminate.
      * specialize (Htext Hk). injection Htext as ->. exact Hnel.
    + intros p Hp. rewrite Hfiles. apply lookup_insert_ne. congruence.
  - intros Hkey Hne Huse. rewrite bool_decide_eq_true_2 by exact Hkey. cbn [negb].
    unfold ConfigCommand._convert_config_value.
    rewrite bool_decide_eq_false_2
      by (unfold ConfigCommand.boolean_keys; rewrite list_elem_of_singleton;
          exact Hne).
    pose proof (command_set_usable project fs key (VStr value) Huse) as Hok.
    destruct (Config.set_config (new_manager project fs) key (VStr value))
      as [[[] | e] st] eqn:Hset; [| discriminate].
    apply command_set_inv in Hset as [cfg Hfiles].
    split; [destruct (markup_error _); reflexivity |].
    exists (yaml_mapping (<[key := VStr value]> cfg)).
    split; [destruct (markup_error _); cbn [snd]; rewrite Hfiles;
            apply lookup_insert_eq |].
    rewrite yaml_mapping_lookup_plain by (apply valid_keys_plain; exact Hkey).
    rewrite lookup_insert_eq. reflexivity.
Qed.

Lemma config_set_then_get_witness :
  ConfigCommand.set_config (fun _ => false) false ∅ "preserve_structure" (py "no")
  = (ConfigCommand.Exit 1, ∅)
  /\ fst (ConfigCommand.set_config (fun _ => false) false ∅ "log_level"
            (py "verbose"))
     = ConfigCommand.Returned tt
  /\ ConfigCommand.get_config (fun _ => false) false
       (snd (ConfigCommand.set_config (fun _ => false) false ∅
               "auto_open_generated" (py "YES")))
       "auto_open_generated"
     = ConfigCommand.Returned
         (py "[cyan]auto_open_generated[/cyan]: [green]True[/green]").
Proof.
  split; [| split].
  - apply config_set_then_get. intros H.
    apply list_elem_of_In in H. cbn in H.
    repeat (destruct H as [H | H]; [discriminate |]). exact H.
  - apply (config_set_then_get (fun _ => false) false ∅ "log_level" (py "verbose"));
      [| discriminate |].
    + apply list_elem_of_In. cbn. tauto.
    + unfold usable. rewrite !lookup_empty.
      repeat split; try discriminate; intros x H; discriminate.
  - destruct (config_set_then_get (fun _ => false) false ∅
                "auto_open_generated" (py "YES")) as (_ & H & _).
    destruct (ConfigCommand.set_config (fun _ => false) false ∅
                "auto_open_generated" (py "YES")) as [r fs'] eqn:Hset.
    assert (Hr : r = ConfigCommand.Returned tt).
    { apply (f_equal fst) in Hset. cbn [fst] in Hset. rewrite <- Hset.
      vm_compute. reflexivity. }
    subst r. destruct (H fs' eq_refl) as (_ & v & Hv & _ & Hget & _).
    cbn [snd]. rewrite Hget. vm_compute in Hv. injection Hv as <-. reflexivity.
Defined.

End ConfigCommandProps.
